(** * Nerfstudio training core: Trainer and Pipeline

    A shallow embedding of [nerfstudio/engine/trainer.py] and of the state
    restoration of [nerfstudio/pipelines/base_pipeline.py], with the
    properties of the training loop, the checkpoint manager, the geometric
    diagnostic and the viewer adapter that the specification states.

    Conventions of the embedding:
    - Python integers are [Z]; Python strings are [string].
    - The scalars of the training step (losses, the loss scale) are exact
      rationals [Q]; their rounding is not modelled.
    - The numbers of the geometric diagnostic are binary64 floats, as
      numpy's [float64] has them: every operation rounds, and a division
      by zero gives an infinity or NaN and goes on.
    - A Python call that may raise returns a [result]; mutation of [self]
      is explicit state passing; calls into external collaborators
      (torch, the viewer, the telemetry writer) are recorded in a trace. *)

From Stdlib Require Import Floats.
From Stdlib Require Import ZArith QArith Qabs Lia Lqa List Ascii String Bool.
From stdpp Require Import base option strings gmap list sorting.

Local Open Scope Z_scope.

(** ** Python: exceptions and results *)

Module Py.

(** The exception classes the modelled code raises or may receive from its
    collaborators, with their place in Python's hierarchy. *)
Inductive exc : Type :=
| Exception
| AssertionError
| RuntimeError
| NotImplementedError
| RecursionError
| ValueError
| KeyError
| IndexError
| TypeError
| OSError
| ConnectionError
| TimeoutError
| UnboundLocalError.

(** The direct base class, [None] for [Exception] itself. *)
Definition base_class (e : exc) : option exc :=
  match e with
  | Exception => None
  | NotImplementedError | RecursionError => Some RuntimeError
  | KeyError | IndexError => Some Exception (* through LookupError *)
  | ConnectionError | TimeoutError => Some OSError
  | _ => Some Exception
  end.

Definition exc_eqb (a b : exc) : bool :=
  match a, b with
  | Exception, Exception | AssertionError, AssertionError
  | RuntimeError, RuntimeError | NotImplementedError, NotImplementedError
  | RecursionError, RecursionError | ValueError, ValueError
  | KeyError, KeyError | IndexError, IndexError | TypeError, TypeError
  | OSError, OSError | ConnectionError, ConnectionError
  | TimeoutError, TimeoutError | UnboundLocalError, UnboundLocalError => true
  | _, _ => false
  end.

(** [issubclass e c]: the class [e] is [c] or derives from it.  The
    hierarchy above has depth three, which bounds the walk. *)
Fixpoint issubclass_fuel (fuel : nat) (e c : exc) : bool :=
  exc_eqb e c ||
  match fuel with
  | O => false
  | S f => match base_class e with
           | Some b => issubclass_fuel f b c
           | None => false
           end
  end.

Definition issubclass : exc -> exc -> bool := issubclass_fuel 3.

(** A raised exception: its class and its message. *)
Record raised : Type := Raised { exc_class : exc; exc_msg : string }.

Inductive result (A : Type) : Type :=
| Ok (a : A)
| Raise (e : raised).
Arguments Ok {A} a.
Arguments Raise {A} e.

Definition bind {A B} (m : result A) (k : A -> result B) : result B :=
  match m with
  | Ok a => k a
  | Raise e => Raise e
  end.

Definition is_ok {A} (m : result A) : bool :=
  match m with Ok _ => true | Raise _ => false end.

(** [assert cond, msg] *)
Definition assert (cond : bool) (msg : string) : result unit :=
  if cond then Ok tt else Raise (Raised AssertionError msg).

(** [range(lo, hi)] *)
Definition range (lo hi : Z) : list Z :=
  (fun i : nat => lo + Z.of_nat i) <$> seq 0 (Z.to_nat (hi - lo)).

(** [functools.reduce(f, values)] without an initial value. *)
Definition reduce {A} (f : A -> A -> A) (values : list A) : result A :=
  match values with
  | [] => Raise (Raised TypeError "reduce() of empty iterable with no initial value")
  | x :: r => Ok (fold_left f r x)
  end.

(** A [for] loop over a list whose body may raise: the first exception
    ends the loop. *)
Fixpoint for_each {A S : Type} (body : A -> S -> result S)
    (l : list A) (s : S) : result S :=
  match l with
  | [] => Ok s
  | x :: r => bind (body x s) (for_each body r)
  end.

End Py.

#[global] Instance result_ret : MRet Py.result := @Py.Ok.
#[global] Instance result_bind : MBind Py.result := fun A B k m => Py.bind m k.

(** ** Python: the string operations the code uses *)

Module PyStr.

Definition chars : string -> list ascii := list_ascii_of_string.
Definition str : list ascii -> string := string_of_list_ascii.

(** [x.find(c)] for a one-character [c]: the index of its first
    occurrence, [-1] when there is none. *)
Fixpoint find_from (c : ascii) (l : list ascii) (i : Z) : Z :=
  match l with
  | [] => -1
  | a :: r => if Ascii.eqb a c then i else find_from c r (i + 1)
  end.

Definition find (x : string) (c : ascii) : Z := find_from c (chars x) 0.

(** A slice bound as Python normalises it: a negative bound counts from
    the end, and the result is clamped to [0, n]. *)
Definition norm_index (n i : Z) : Z :=
  if i <? 0 then Z.max 0 (i + n) else Z.min i n.

(** [x[lo:hi]] *)
Definition slice (x : string) (lo hi : Z) : string :=
  let l := chars x in
  let n := Z.of_nat (length l) in
  let lo' := norm_index n lo in
  let hi' := norm_index n hi in
  str (take (Z.to_nat (hi' - lo')) (drop (Z.to_nat lo') l)).

(** [x[n:]] for a length [n] *)
Definition slice_from (x : string) (n : nat) : string :=
  str (drop n (chars x)).

(** [x.startswith(p)] *)
Fixpoint startswith (x p : string) : bool :=
  match p, x with
  | EmptyString, _ => true
  | String a p', String b x' => Ascii.eqb a b && startswith x' p'
  | String _ _, EmptyString => false
  end.

(** [x.split(c)[0]]: the text before the first [c], all of it when there
    is none. *)
Fixpoint before_first (c : ascii) (l : list ascii) : list ascii :=
  match l with
  | [] => []
  | a :: r => if Ascii.eqb a c then [] else a :: before_first c r
  end.

Definition split_head (x : string) (c : ascii) : string :=
  str (before_first c (chars x)).

(** *** [int(x)] on ASCII text: surrounding white space, an optional
    sign, then decimal digits that single underscores may separate. *)

Definition digit_of (c : ascii) : option Z :=
  let n := Z.of_nat (nat_of_ascii c) in
  if (48 <=? n) && (n <=? 57) then Some (n - 48) else None.

Definition is_space (c : ascii) : bool :=
  let n := nat_of_ascii c in
  ((9 <=? n) && (n <=? 13))%nat || (n =? 32)%nat.

Fixpoint lstrip (l : list ascii) : list ascii :=
  match l with
  | c :: r => if is_space c then lstrip r else l
  | [] => []
  end.

Definition strip (l : list ascii) : list ascii :=
  rev (lstrip (rev (lstrip l))).

(** The text is ASCII.  A Python [str] is a sequence of code points, which
    the strings here can follow for ASCII text only; on other text
    [int()] also reads the decimal digits of other scripts and strips the
    white space of Unicode, which [int] below does not. *)
Definition is_ascii (c : ascii) : bool := (nat_of_ascii c <? 128)%nat.

(** An ASCII character that no integer literal holds: not a digit, an
    underscore, a sign or white space. *)
Definition stray_char (c : ascii) : bool :=
  is_ascii c
  && negb (bool_decide (is_Some (digit_of c)))
  && negb (Ascii.eqb c "_"%char) && negb (Ascii.eqb c "+"%char)
  && negb (Ascii.eqb c "-"%char) && negb (is_space c).

(** [after_digit] tells whether the previous character was a digit, the
    only place where an underscore or the end of the text may come. *)
Fixpoint int_digits (l : list ascii) (acc : Z) (after_digit : bool) : option Z :=
  match l with
  | [] => if after_digit then Some acc else None
  | c :: r =>
      match digit_of c with
      | Some d => int_digits r (10 * acc + d) true
      | None =>
          if Ascii.eqb c "_"%char && after_digit then int_digits r acc false
          else None
      end
  end.

Definition int_chars (l : list ascii) : option Z :=
  match strip l with
  | c :: r =>
      if Ascii.eqb c "-"%char then Z.opp <$> int_digits r 0 false
      else if Ascii.eqb c "+"%char then int_digits r 0 false
      else int_digits (c :: r) 0 false
  | [] => None
  end.

(** [int(x)], raising [ValueError] on text that is not an integer. *)
Definition int (x : string) : Py.result Z :=
  match int_chars (chars x) with
  | Some n => Py.Ok n
  | None => Py.Raise (Py.Raised Py.ValueError ("invalid literal for int() with base 10: " +:+ x))
  end.

(** *** Formatting integers: [str(n)] and the format [{n:0Wd}] *)

Definition digit_char (d : Z) : ascii := ascii_of_nat (48 + Z.to_nat d).

Fixpoint digits_fuel (fuel : nat) (n : Z) (acc : list ascii) : list ascii :=
  match fuel with
  | O => acc
  | S f =>
      let acc' := digit_char (n mod 10) :: acc in
      if n / 10 =? 0 then acc' else digits_fuel f (n / 10) acc'
  end.

(** The decimal digits of [n >= 0], most significant first. *)
Definition digits (n : Z) : list ascii :=
  digits_fuel (S (Z.to_nat (Z.log2 n))) n [].

Definition sign_chars (n : Z) : list ascii :=
  if n <? 0 then ["-"%char] else [].

(** [f"{n}"] *)
Definition format_d (n : Z) : string :=
  str (sign_chars n ++ digits (Z.abs n)).

(** [f"{n:0Wd}"]: zeros between the sign and the digits fill the text up to
    [width] characters; a longer number is not truncated. *)
Definition format_0d (width : nat) (n : Z) : string :=
  let ds := digits (Z.abs n) in
  let sg := sign_chars n in
  str (sg ++ replicate (width - length sg - length ds) "0"%char ++ ds).

End PyStr.

(** ** The geometric diagnostic ([Trainer.derive_nsa], lines 464-498)

    The plane comes from a fit of numpy and the box from the data manager:
    the numbers are binary64 floats, every product, sum and quotient is
    rounded to nearest, and a division by zero gives an infinity or NaN
    instead of raising. *)

Module Geometry.

Local Open Scope float_scope.

(** A point or direction, indexed [v[0]], [v[1]], [v[2]] in the source. *)
Record vec3 : Type := Vec3 { c0 : float; c1 : float; c2 : float }.

(** [start + t * direction], component by component. *)
Definition axpy (t : float) (dir start : vec3) : vec3 :=
  Vec3 (c0 start + t * c0 dir) (c1 start + t * c1 dir) (c2 start + t * c2 dir).

(** [0 <= t <= 1]; both comparisons are false on NaN, and [-0.0] passes
    the first. *)
Definition in_unit_range (t : float) : bool := (0 <=? t) && (t <=? 1).

Inductive direction : Type := dir_x | dir_y | dir_z.

(** The dict [edges] of the source, in its insertion order. *)
Definition edges : list (direction * list (nat * nat)) :=
  [ (dir_x, [(0, 4); (1, 5); (2, 6); (3, 7)]%nat);
    (dir_y, [(0, 2); (1, 3); (4, 6); (5, 7)]%nat);
    (dir_z, [(0, 1); (2, 3); (4, 5); (6, 7)]%nat) ].

(** [vertices[i]] *)
Definition index (vertices : list vec3) (i : nat) : Py.result vec3 :=
  match vertices !! i with
  | Some v => Py.Ok v
  | None => Py.Raise (Py.Raised Py.IndexError "index out of bounds")
  end.

(** What the loops carry: the list [intersections] of the source and,
    beside it, the divisions carried out so far, each with its numerator
    and its denominator.  The source keeps no such record; it is kept
    here to tell a division that was made from an edge that was skipped. *)
Record progress : Type := {
  divisions : list (float * float);
  intersections : list vec3
}.

Section DeriveNsa.
Variables (a b c d : float) (vertices : list vec3) (x_dir y_dir z_dir : vec3).

Definition directional_vector_of (dn : direction) : vec3 :=
  match dn with
  | dir_x => x_dir
  | dir_y => y_dir
  | dir_z => z_dir
  end.

(** The numerator and the denominator of the division that solves for t. *)
Definition t_num (starting_vertex : vec3) : float :=
  - (a * c0 starting_vertex + b * c1 starting_vertex + c * c2 starting_vertex + d).

Definition t_den (directional_vector : vec3) : float :=
  a * c0 directional_vector + b * c1 directional_vector + c * c2 directional_vector.

(** The parameter t solved for the edge that starts at [starting_vertex]
    and runs along [dn] (line 488); the source divides without looking at
    the denominator. *)
Definition edge_t (dn : direction) (starting_vertex : vec3) : float :=
  t_num starting_vertex / t_den (directional_vector_of dn).

(** The body of the inner loop for the edge [(i, j)] of [dn]. *)
Definition edge_body (dn : direction) (ij : nat * nat) (st : progress)
    : Py.result progress :=
  starting_vertex ← index vertices ij.1;
  let directional_vector := directional_vector_of dn in
  let t := edge_t dn starting_vertex in
  let divisions :=
    divisions st ++ [(t_num starting_vertex, t_den directional_vector)] in
  if in_unit_range t then
    mret {| divisions := divisions;
            intersections :=
              intersections st ++ [axpy t directional_vector starting_vertex] |}
  else mret {| divisions := divisions; intersections := intersections st |}.

(** The two loops. *)
Definition derive_nsa_loops : Py.result progress :=
  Py.for_each
    (fun '(dn, edge_indices) st =>
       Py.for_each (edge_body dn) edge_indices st)
    edges {| divisions := []; intersections := [] |}.

(** [derive_nsa] returns the list of intersections. *)
Definition derive_nsa : Py.result (list vec3) :=
  st ← derive_nsa_loops; mret (intersections st).

End DeriveNsa.

(** The twelve edges as (direction, index of the start vertex). *)
Definition edge_list : list (direction * nat) :=
  flat_map (fun '(dn, ijs) => map (fun ij : nat * nat => (dn, ij.1)) ijs) edges.

(** *** The routine as the specification words it: for each of the 12
    edges solve for t and keep the intersection when t is in [0, 1]. *)
Definition spec_edge_point (a b c d : float) (start dir : vec3) : option vec3 :=
  let den := a * c0 dir + b * c1 dir + c * c2 dir in
  let t := - (a * c0 start + b * c1 start + c * c2 start + d) / den in
  if (0 <=? t) && (t <=? 1) then Some (axpy t dir start) else None.

Definition spec_intersections (a b c d : float) (vertices : list vec3)
    (x_dir y_dir z_dir : vec3) : list vec3 :=
  omap (fun '(dn, i) =>
          start ← vertices !! i;
          spec_edge_point a b c d start (directional_vector_of x_dir y_dir z_dir dn))
       edge_list.

(** The divisions of the twelve edges, in order. *)
Definition spec_divisions (a b c d : float) (vertices : list vec3)
    (x_dir y_dir z_dir : vec3) : list (float * float) :=
  omap (fun '(dn, i) =>
          start ← vertices !! i;
          Some (t_num a b c d start,
                t_den a b c (directional_vector_of x_dir y_dir z_dir dn)))
       edge_list.

(** A float that is an infinity or NaN. *)
Definition not_finite (t : float) : Prop :=
  match Prim2SF t with
  | S754_infinity _ | S754_nan => True
  | S754_zero _ | S754_finite _ _ _ => False
  end.

(** *** Exact positions

    The rational a finite float stands for. *)
Definition exact (x : float) : option Q :=
  match Prim2SF x with
  | S754_zero _ => Some 0%Q
  | S754_finite s m e =>
      Some ((if s then -1 else 1) * inject_Z (Z.pos m) * Qpower 2 e)%Q
  | S754_infinity _ | S754_nan => None
  end.

(** The plane function [a x + b y + c z + d] at a point, without
    rounding. *)
Definition plane_exact (a b c d : float) (p : vec3) : option Q :=
  a ← exact a; b ← exact b; c ← exact c; d ← exact d;
  x ← exact (c0 p); y ← exact (c1 p); z ← exact (c2 p);
  Some (a * x + b * y + c * z + d)%Q.

(** Every vertex lies strictly on the same side of the plane. *)
Definition one_side (a b c d : float) (vertices : list vec3) : Prop :=
  Forall (fun v => exists q, plane_exact a b c d v = Some q /\ (0 < q)%Q) vertices \/
  Forall (fun v => exists q, plane_exact a b c d v = Some q /\ (q < 0)%Q) vertices.

(** [q] is [p + dir], without rounding. *)
Definition moved_by (dir p q : vec3) : Prop :=
  exists px py pz dx dy dz qx qy qz,
    exact (c0 p) = Some px /\ exact (c1 p) = Some py /\ exact (c2 p) = Some pz /\
    exact (c0 dir) = Some dx /\ exact (c1 dir) = Some dy /\ exact (c2 dir) = Some dz /\
    exact (c0 q) = Some qx /\ exact (c1 q) = Some qy /\ exact (c2 q) = Some qz /\
    (qx == px + dx)%Q /\ (qy == py + dy)%Q /\ (qz == pz + dz)%Q.

(** The direction vectors are the edge vectors of the box: every edge
    [(i, j)] of a direction ends at [vertices[j] = vertices[i] + dir]. *)
Definition box_consistent (vertices : list vec3) (x_dir y_dir z_dir : vec3) : Prop :=
  Forall (fun '(dn, ijs) =>
    Forall (fun ij : nat * nat =>
      exists vi vj, vertices !! ij.1 = Some vi /\ vertices !! ij.2 = Some vj /\
        moved_by (directional_vector_of x_dir y_dir z_dir dn) vi vj) ijs)
    edges.

End Geometry.

(** Sample boxes and planes. *)

Module GeometrySamples.
Import Geometry.
Local Open Scope float_scope.

Definition e_x : vec3 := Vec3 1 0 0.
Definition e_y : vec3 := Vec3 0 1 0.
Definition e_z : vec3 := Vec3 0 0 1.

(** The unit cube lifted to heights 1..2; vertex [4 x + 2 y + z]. *)
Definition lifted_cube : list vec3 :=
  [ Vec3 0 0 1; Vec3 0 0 2; Vec3 0 1 1; Vec3 0 1 2;
    Vec3 1 0 1; Vec3 1 0 2; Vec3 1 1 1; Vec3 1 1 2 ].

(** Eight vertices, not those of a box, of which only the edge from
    vertex 0 along z reaches the plane z = 1/2. *)
Definition one_crossing : list vec3 :=
  [ Vec3 0 0 0; Vec3 0 0 1; Vec3 0 1 5; Vec3 0 1 6;
    Vec3 1 0 5; Vec3 1 0 6; Vec3 1 1 5; Vec3 1 1 6 ].

(** A box over the unit square whose floor is at height 1 + 2^-52 and
    whose edges along z have the length 2^-52.  With c = 1 + 2^-52 and
    d = -(1 + 2^-51) the plane c z + d = 0 is a hair below its floor:
    c z + d is 2^-104 at the floor, and rounds to 0. *)
Definition thin_up : vec3 := Vec3 0 0 0x1p-52.

Definition thin_box : list vec3 :=
  [ Vec3 0 0 0x1.0000000000001p+0; Vec3 0 0 0x1.0000000000002p+0;
    Vec3 0 1 0x1.0000000000001p+0; Vec3 0 1 0x1.0000000000002p+0;
    Vec3 1 0 0x1.0000000000001p+0; Vec3 1 0 0x1.0000000000002p+0;
    Vec3 1 1 0x1.0000000000001p+0; Vec3 1 1 0x1.0000000000002p+0 ].

(** A parallelepiped whose directions x and y are parallel to the plane
    x/2 + y - z = 0 and which lies at the distance 2^-53 of it along z:
    vertex [4 x + 2 y + z], from the base (0, 2^-53, 0). *)
Definition sheared_x : vec3 := Vec3 2 0 1.
Definition sheared_y : vec3 := Vec3 0 0x1p-52 0x1p-52.
Definition sheared_z : vec3 := Vec3 0 0 (-1).

Definition sheared_box : list vec3 :=
  [ Vec3 0 0x1p-53 0;   Vec3 0 0x1p-53 (-1);
    Vec3 0 0x1.8p-52 0x1p-52; Vec3 0 0x1.8p-52 (- 0x1.ffffffffffffep-1);
    Vec3 2 0x1p-53 1;   Vec3 2 0x1p-53 0;
    Vec3 2 0x1.8p-52 0x1.0000000000001p+0; Vec3 2 0x1.8p-52 0x1p-52 ].

End GeometrySamples.

(** ** Python: dicts in insertion order *)

Module PyDict.

Definition t (V : Type) : Type := list (string * V).

(** [d[k] = v]: an existing key keeps its place, a new key goes last. *)
Fixpoint set {V} (d : t V) (k : string) (v : V) : t V :=
  match d with
  | [] => [(k, v)]
  | (k', v') :: r =>
      if String.eqb k k' then (k, v) :: r else (k', v') :: set r k v
  end.

Fixpoint get {V} (d : t V) (k : string) : option V :=
  match d with
  | [] => None
  | (k', v') :: r => if String.eqb k k' then Some v' else get r k
  end.

Definition keys {V} (d : t V) : list string := d.*1.
Definition values {V} (d : t V) : list V := d.*2.

(** [{key_of(k): v for k, v in d.items() if keep(k)}] *)
Definition comprehension {V} (keep : string -> bool) (key_of : string -> string)
    (d : t V) : t V :=
  fold_left (fun acc '(k, v) => if keep k then set acc (key_of k) v else acc) d [].

(** [{k: f(v) for k, v in d.items()}] *)
Definition map_values {V W} (f : V -> W) (d : t V) : t W :=
  (fun '(k, v) => (k, f v)) <$> d.

End PyDict.

(** ** Stateful code that may raise: a state and exception monad.
    An exception leaves the state as the code had mutated it so far. *)

Module Prog.

Definition t (W A : Type) : Type := W -> Py.result A * W.

Definition ret {W A} (a : A) : t W A := fun w => (Py.Ok a, w).

Definition bind {W A B} (m : t W A) (k : A -> t W B) : t W B :=
  fun w =>
    match m w with
    | (Py.Ok a, w') => k a w'
    | (Py.Raise e, w') => (Py.Raise e, w')
    end.

Definition raise {W A} (e : Py.raised) : t W A := fun w => (Py.Raise e, w).

Definition get {W} : t W W := fun w => (Py.Ok w, w).
Definition gets {W A} (f : W -> A) : t W A := fun w => (Py.Ok (f w), w).
Definition modify {W} (f : W -> W) : t W unit := fun w => (Py.Ok tt, f w).

(** A pure computation that may raise. *)
Definition lift {W A} (r : Py.result A) : t W A := fun w => (r, w).

(** [try: body  except cls: handler] *)
Definition try_except {W A} (body : t W A) (cls : Py.exc)
    (handler : Py.raised -> t W A) : t W A :=
  fun w =>
    match body w with
    | (Py.Ok a, w') => (Py.Ok a, w')
    | (Py.Raise e, w') =>
        if Py.issubclass (Py.exc_class e) cls then handler e w'
        else (Py.Raise e, w')
    end.

(** [for x in l: body] *)
Fixpoint for_ {W A} (l : list A) (body : A -> t W unit) : t W unit :=
  match l with
  | [] => ret tt
  | x :: r => bind (body x) (fun _ => for_ r body)
  end.

Definition when {W} (cond : bool) (body : t W unit) : t W unit :=
  if cond then body else ret tt.

Definition assert {W} (cond : bool) (msg : string) : t W unit :=
  lift (Py.assert cond msg).

(** Whatever a run of [m] returns, the world it leaves is related by [R]
    to the world it started from. *)
Definition respects {W A} (R : relation W) (m : t W A) : Prop :=
  forall w r w', m w = (r, w') -> R w w'.

End Prog.

#[global] Instance prog_ret {W} : MRet (Prog.t W) := @Prog.ret W.
#[global] Instance prog_bind {W} : MBind (Prog.t W) := fun A B k m => Prog.bind m k.

(** ** Configuration ([TrainerConfig], trainer.py lines 57-91) *)

Module TrainerConfig.

(** The fields of [TrainerConfig], and those of the [ExperimentConfig] it
    extends that the trainer reads: the device type of the machine, the
    base and checkpoint directories ([get_base_dir], [get_checkpoint_dir]),
    [load_scheduler], the logging cadence and which viewer is enabled. *)
Record t : Type := Build {
  steps_per_save : Z;
  steps_per_eval_batch : Z;
  steps_per_eval_image : Z;
  steps_per_eval_all_images : Z;
  max_num_iterations : Z;
  mixed_precision : bool;
  use_grad_scaler : bool;
  save_only_latest_checkpoint : bool;
  load_dir : option string;
  load_step : option Z;
  load_checkpoint : option (string * string);
  log_gradients : bool;
  gradient_accumulation_steps : Z;
  machine_device_type : string;
  base_dir : string;
  checkpoint_dir : string;
  load_scheduler : bool;
  steps_per_log : Z;
  viewer_enabled : bool;
  eval_enabled : bool;
  quit_on_train_completion : bool
}.

(** The defaults of the dataclass. *)
Definition default : t := {|
  steps_per_save := 1000;
  steps_per_eval_batch := 500;
  steps_per_eval_image := 500;
  steps_per_eval_all_images := 25000;
  max_num_iterations := 1000000;
  mixed_precision := false;
  use_grad_scaler := false;
  save_only_latest_checkpoint := true;
  load_dir := None;
  load_step := None;
  load_checkpoint := None;
  log_gradients := false;
  gradient_accumulation_steps := 1;
  machine_device_type := "cuda";
  base_dir := "outputs/run";
  checkpoint_dir := "outputs/run/nerfstudio_models";
  load_scheduler := true;
  steps_per_log := 10;
  viewer_enabled := false;
  eval_enabled := false;
  quit_on_train_completion := true
|}.

End TrainerConfig.

(** ** The collaborators outside the sources

    torch (gradient scaler, modules, optimizers), the data manager, the
    model and the viewer are used through the operations below.  Nothing
    is assumed of what they compute. *)

Class Backend : Type := {
  (** [torch.cuda.amp.GradScaler] *)
  GradScaler : Type;
  ScalerDict : Type;
  GradScaler_init : bool -> GradScaler;
  scaler_scale : GradScaler -> Q -> Q;
  scaler_get_scale : GradScaler -> Q;
  scaler_update : GradScaler -> GradScaler;
  scaler_state_dict : GradScaler -> ScalerDict;
  scaler_load_state_dict : GradScaler -> ScalerDict -> GradScaler;
  (** the model ([torch.nn.Module]) with its parameters and gradients *)
  Tensor : Type;
  Model : Type;
  model_load_state_dict :
    Model -> PyDict.t Tensor -> bool -> Model * Py.result unit;
  model_update_to_step : Model -> Z -> Model;
  backward : Model -> Q -> Model;
  named_parameter_grad_norms : Model -> list (string * option Q);
  (** the data manager, and the pipeline as a module of its own *)
  DataManager : Type;
  train_sampler_set_epoch : DataManager -> Z -> option DataManager;
  train_batch :
    Model -> DataManager -> Z -> Model * DataManager * (PyDict.t Q * PyDict.t Q);
  get_train_rays_per_batch : DataManager -> Z;
  has_eval_dataset : DataManager -> bool;
  has_surface_detection_rays : DataManager -> bool;
  module_load_state_dict :
    DataManager -> PyDict.t Tensor -> DataManager * Py.result unit;
  pipeline_state_dict : Model -> DataManager -> PyDict.t Tensor;
  (** [torch.optim.Optimizer] *)
  Optimizer : Type;
  OptimizerDict : Type;
  optimizer_zero_grad : Optimizer -> Model -> Model;
  scaler_step : GradScaler -> Optimizer -> Model -> GradScaler * Optimizer * Model;
  optimizer_state_dict : Optimizer -> OptimizerDict;
  optimizer_load_state_dict : Optimizer -> OptimizerDict -> Optimizer;
  (** the viewer *)
  ViewerState : Type;
  update_scene : ViewerState -> Z -> Z -> ViewerState * Py.result unit
}.

(** ** Events: the calls into the collaborators, in order *)

Inductive EventName : Type :=
| ITER_TRAIN_TIME
| TOTAL_TRAIN_TIME
| TRAIN_RAYS_PER_SEC
| TEST_RAYS_PER_SEC.

Inductive TrainingCallbackLocation : Type :=
| BEFORE_TRAIN_ITERATION
| AFTER_TRAIN_ITERATION
| AFTER_TRAIN.

Inductive event : Type :=
| EvZeroGradAll
| EvTrainMode
| EvForward (step : Z) (device_type : string) (autocast : bool)
            (loss_dict : PyDict.t Q)
| EvBackward (scaled_loss : Q)
| EvOptimizerScalerStepAll
| EvGetScale (value : Q)
| EvScalerUpdate
| EvSchedulerStepAll (step : Z)
| EvCallbacks (location : TrainingCallbackLocation) (step : Z)
| EvPutTime (name : EventName) (step : Z)
| EvPutScalar (name : string) (step : Z)
| EvPutDict (name : string) (step : Z)
| EvWriteOutStorage
| EvSleep (milliseconds : Z)
| EvConsole (message : string)
| EvUpdateScene (step : Z) (num_rays_per_batch : Z)
| EvSurfaceDetection (step : Z)
| EvEvalBatch (step : Z)
| EvEvalImage (step : Z)
| EvEvalAllImages (step : Z)
| EvUpdateToStep (step : Z)
| EvModelLoadStateDict (strict : bool)
| EvModuleLoadStateDict
| EvLoadOptimizers
| EvLoadSchedulers
| EvScalerLoadStateDict
| EvTorchLoad (dir name : string)
| EvMkdir (dir : string)
| EvTorchSave (dir name : string)
| EvUnlink (dir name : string).

(** ** The optimizer group *)

Module Optimizers.
Section WithBackend.
Context `{B : Backend}.

(** Modelled from the spec: nerfstudio/engine/optimizers.py is not among
    the sources.  The specification gives the optimizer group as the owner
    of the optimizers and learning-rate schedulers of the parameter groups,
    keyed by group name, with the operations zero-grad, step and
    scheduler-step; a scheduler carries an internal step counter. *)
Record Scheduler : Type := { step_count : Z }.

Record t : Type := {
  optimizers : PyDict.t Optimizer;
  schedulers : PyDict.t Scheduler
}.

(** Modelled from the spec: zero the gradients through every optimizer. *)
Definition zero_grad_all (self : t) (m : Model) : Model :=
  fold_left (fun m '(_, opt) => optimizer_zero_grad opt m) (optimizers self) m.

(** Modelled from the spec: one step of every optimizer, through the
    gradient scaler (which skips the step on an overflow). *)
Definition optimizer_scaler_step_all (self : t) (grad_scaler : GradScaler)
    (m : Model) : t * GradScaler * Model :=
  let '(opts, gs, m') :=
    fold_left
      (fun '(done, gs, m) '(name, opt) =>
         let '(gs', opt', m') := scaler_step gs opt m in
         (done ++ [(name, opt')], gs', m'))
      (optimizers self) ([], grad_scaler, m) in
  ({| optimizers := opts; schedulers := schedulers self |}, gs, m').

Definition scheduler_step (s : Scheduler) : Scheduler :=
  {| step_count := step_count s + 1 |}.

(** Modelled from the spec: one step of every scheduler. *)
Definition scheduler_step_all (self : t) (step : Z) : t :=
  {| optimizers := optimizers self;
     schedulers := PyDict.map_values scheduler_step (schedulers self) |}.

(** Modelled from the spec: restore the state of each optimizer named in
    the loaded mapping; a name the group does not have is a [KeyError]. *)
Definition load_optimizers (self : t) (loaded_state : PyDict.t OptimizerDict)
    : Py.result t :=
  Py.for_each
    (fun '(k, v) (self : t) =>
       match PyDict.get (optimizers self) k with
       | Some opt =>
           Py.Ok {| optimizers :=
                      PyDict.set (optimizers self) k (optimizer_load_state_dict opt v);
                    schedulers := schedulers self |}
       | None => Py.Raise (Py.Raised Py.KeyError k)
       end)
    loaded_state self.

(** Modelled from the spec: restore the state of each scheduler named in
    the loaded mapping. *)
Definition load_schedulers (self : t) (loaded_state : PyDict.t Scheduler)
    : Py.result t :=
  Py.for_each
    (fun '(k, v) (self : t) =>
       match PyDict.get (schedulers self) k with
       | Some _ =>
           Py.Ok {| optimizers := optimizers self;
                    schedulers := PyDict.set (schedulers self) k v |}
       | None => Py.Raise (Py.Raised Py.KeyError k)
       end)
    loaded_state self.

End WithBackend.
End Optimizers.

(** ** The pipeline ([Pipeline], [VanillaPipeline], base_pipeline.py) *)

Module Pipeline.
Section WithBackend.
Context `{B : Backend}.

Record t : Type := {
  _model : Model;
  datamanager : DataManager;
  world_size : Z
}.

(** The methods run on the pipeline and the trace of calls. *)
Definition M (A : Type) : Type := Prog.t (t * list event) A.

Definition emit (e : event) : M unit :=
  Prog.modify (fun '(p, tr) => (p, tr ++ [e])).

(** [self.model.load_state_dict(model_state, strict=strict)] *)
Definition model_load (model_state : PyDict.t Tensor) (strict : bool) : M unit :=
  fun '(p, tr) =>
    let '(m', r) := model_load_state_dict (_model p) model_state strict in
    (r, ({| _model := m'; datamanager := datamanager p; world_size := world_size p |},
         tr ++ [EvModelLoadStateDict strict])).

(** [super().load_state_dict(pipeline_state, strict=False)] *)
Definition module_load (pipeline_state : PyDict.t Tensor) : M unit :=
  fun '(p, tr) =>
    let '(dm', r) := module_load_state_dict (datamanager p) pipeline_state in
    (r, ({| _model := _model p; datamanager := dm'; world_size := world_size p |},
         tr ++ [EvModuleLoadStateDict])).

(** Python's [not strict] for [strict: Optional[bool]]. *)
Definition not_strict (strict : option bool) : bool :=
  match strict with
  | Some true => false
  | Some false | None => true
  end.

(** The first loop of [load_state_dict] (lines 115-124): the entries under
    ["_model."] without that prefix, and whether all of them are under
    ["_model.module."]. *)
Definition split_model_state (state_dict : PyDict.t Tensor)
    : bool * PyDict.t Tensor :=
  fold_left
    (fun '(is_ddp_model_state, model_state) '(key, value) =>
       if PyStr.startswith key "_model." then
         (if negb (PyStr.startswith key "_model.module.") then false
          else is_ddp_model_state,
          PyDict.set model_state (PyStr.slice_from key (String.length "_model.")) value)
       else (is_ddp_model_state, model_state))
    state_dict (true, []).

(** The state handed to the model (lines 115-127): the entries under
    ["_model."], and without the ["module."] that DDP adds when all of
    them carry it. *)
Definition model_state_of (state_dict : PyDict.t Tensor) : PyDict.t Tensor :=
  let '(is_ddp_model_state, model_state) := split_model_state state_dict in
  if is_ddp_model_state then
    PyDict.comprehension (fun _ => true)
      (fun key => PyStr.slice_from key (String.length "module.")) model_state
  else model_state.

(** The state handed to the pipeline module itself (line 129). *)
Definition pipeline_state_of (state_dict : PyDict.t Tensor) : PyDict.t Tensor :=
  PyDict.comprehension (fun key => negb (PyStr.startswith key "_model."))
    (fun key => key) state_dict.

(** [Pipeline.load_state_dict] (lines 114-168) *)
Definition load_state_dict (state_dict : PyDict.t Tensor) (strict : option bool)
    : M unit :=
  let model_state := model_state_of state_dict in
  let pipeline_state := pipeline_state_of state_dict in
  Prog.try_except (model_load model_state true) Py.RuntimeError
    (fun e =>
       if not_strict strict then model_load model_state false
       else Prog.raise e);;
  module_load pipeline_state.

(** [VanillaPipeline.load_pipeline] (lines 599-610) *)
Definition load_pipeline (loaded_state : PyDict.t Tensor) (step : Z) : M unit :=
  let state :=
    PyDict.comprehension (fun _ => true)
      (fun key =>
         if PyStr.startswith key "module."
         then PyStr.slice_from key (String.length "module.") else key)
      loaded_state in
  Prog.modify (fun '(p, tr) =>
    ({| _model := model_update_to_step (_model p) step;
        datamanager := datamanager p; world_size := world_size p |},
     tr ++ [EvUpdateToStep step]));;
  load_state_dict state None.

(** [Pipeline.get_train_loss_dict] (lines 171-187); the model outputs,
    which the trainer drops, are left out of the result. *)
Definition get_train_loss_dict (step : Z) : M (PyDict.t Q * PyDict.t Q) :=
  '(p, _) ← Prog.get;
  (if (1 <? world_size p) && negb (step =? 0) then
     match train_sampler_set_epoch (datamanager p) step with
     | Some dm =>
         Prog.modify (fun '(p, tr) =>
           ({| _model := _model p; datamanager := dm; world_size := world_size p |}, tr))
     | None => Prog.raise (Py.Raised Py.AssertionError "")
     end
   else mret tt);;
  '(p, _) ← Prog.get;
  let '(m, dm, (loss_dict, metrics_dict)) :=
    train_batch (_model p) (datamanager p) step in
  Prog.modify (fun '(p, tr) =>
    ({| _model := m; datamanager := dm; world_size := world_size p |}, tr));;
  mret (loss_dict, metrics_dict).

End WithBackend.
End Pipeline.

(** ** The pipeline the trainer holds ([VanillaPipeline]) *)

Module VanillaPipeline.
Section WithBackend.
Context `{B : Backend}.

(** [VanillaPipeline.get_train_loss_dict] (lines 334-380), which overrides
    the method of the base class: the next batch of the data manager goes
    through the model, and no sampler is consulted.  The model outputs,
    which the trainer drops, are left out of the result. *)
Definition get_train_loss_dict (step : Z)
    : Pipeline.M (PyDict.t Q * PyDict.t Q) :=
  '(p, _) ← Prog.get;
  let '(m, dm, (loss_dict, metrics_dict)) :=
    train_batch (Pipeline._model p) (Pipeline.datamanager p) step in
  Prog.modify (fun '(p, tr) =>
    ({| Pipeline._model := m; Pipeline.datamanager := dm;
        Pipeline.world_size := Pipeline.world_size p |}, tr));;
  mret (loss_dict, metrics_dict).

End WithBackend.
End VanillaPipeline.

(** ** The trainer ([Trainer], trainer.py) *)

Module Trainer.
Section WithBackend.
Context `{B : Backend}.

Inductive TrainingState : Type := training | paused | completed.

(** What [save_checkpoint] hands to [torch.save]; the key ["schedulers"]
    may be absent from a file written by another version. *)
Record Checkpoint : Type := {
  ck_step : Z;
  ck_pipeline : PyDict.t Tensor;
  ck_optimizers : PyDict.t OptimizerDict;
  ck_schedulers : option (PyDict.t Optimizers.Scheduler);
  ck_scalers : ScalerDict
}.

Inductive FileContent : Type :=
| Pickled (c : Checkpoint)
| Bytes (data : string).

(** The file system: flat directories of regular files by name.  Each
    [torch.save] takes the next entry of [write_faults]; [true] makes that
    write fail with [OSError].  [torch.save] opens its target before it
    writes, so a write can fail before the target is opened, which leaves
    the directory as it was, or after, which leaves the target created or
    truncated: each failing write takes the next entry of [torn_writes],
    the bytes it left in its target if it had opened it. *)
Record Disk : Type := {
  dirs : gmap string (gmap string FileContent);
  write_faults : list bool;
  torn_writes : list (option string)
}.

(** The attributes [__init__] assigns. *)
Record attrs : Type := {
  config : TrainerConfig.t;
  local_rank : Z;
  world_size : Z;
  device : string;
  mixed_precision : bool;
  use_grad_scaler : bool;
  training_state : TrainingState;
  gradient_accumulation_steps : Z;
  _start_step : Z;
  grad_scaler : GradScaler;
  base_dir : string;
  checkpoint_dir : string;
  viewer_state : option ViewerState
}.

(** The trainer after [setup], with the file system it works on, whether
    this process is the main one of the run, and the trace of its calls. *)
Record World : Type := {
  self : attrs;
  pipeline : Pipeline.t;
  optimizers : Optimizers.t;
  disk : Disk;
  main_process : bool;
  trace : list event
}.

Definition set_self (f : attrs -> attrs) (w : World) : World :=
  {| self := f (self w); pipeline := pipeline w; optimizers := optimizers w;
     disk := disk w; main_process := main_process w; trace := trace w |}.
Definition set_pipeline (f : Pipeline.t -> Pipeline.t) (w : World) : World :=
  {| self := self w; pipeline := f (pipeline w); optimizers := optimizers w;
     disk := disk w; main_process := main_process w; trace := trace w |}.
Definition set_optimizers (f : Optimizers.t -> Optimizers.t) (w : World) : World :=
  {| self := self w; pipeline := pipeline w; optimizers := f (optimizers w);
     disk := disk w; main_process := main_process w; trace := trace w |}.
Definition set_disk (f : Disk -> Disk) (w : World) : World :=
  {| self := self w; pipeline := pipeline w; optimizers := optimizers w;
     disk := f (disk w); main_process := main_process w; trace := trace w |}.
Definition set_trace (f : list event -> list event) (w : World) : World :=
  {| self := self w; pipeline := pipeline w; optimizers := optimizers w;
     disk := disk w; main_process := main_process w; trace := f (trace w) |}.

Definition set_grad_scaler (gs : GradScaler) (a : attrs) : attrs :=
  {| config := config a; local_rank := local_rank a; world_size := world_size a;
     device := device a; mixed_precision := mixed_precision a;
     use_grad_scaler := use_grad_scaler a; training_state := training_state a;
     gradient_accumulation_steps := gradient_accumulation_steps a;
     _start_step := _start_step a; grad_scaler := gs; base_dir := base_dir a;
     checkpoint_dir := checkpoint_dir a; viewer_state := viewer_state a |}.
Definition set_start_step (n : Z) (a : attrs) : attrs :=
  {| config := config a; local_rank := local_rank a; world_size := world_size a;
     device := device a; mixed_precision := mixed_precision a;
     use_grad_scaler := use_grad_scaler a; training_state := training_state a;
     gradient_accumulation_steps := gradient_accumulation_steps a;
     _start_step := n; grad_scaler := grad_scaler a; base_dir := base_dir a;
     checkpoint_dir := checkpoint_dir a; viewer_state := viewer_state a |}.
Definition set_viewer_state (v : option ViewerState) (a : attrs) : attrs :=
  {| config := config a; local_rank := local_rank a; world_size := world_size a;
     device := device a; mixed_precision := mixed_precision a;
     use_grad_scaler := use_grad_scaler a; training_state := training_state a;
     gradient_accumulation_steps := gradient_accumulation_steps a;
     _start_step := _start_step a; grad_scaler := grad_scaler a;
     base_dir := base_dir a; checkpoint_dir := checkpoint_dir a;
     viewer_state := v |}.
Definition set_training_state (s : TrainingState) (a : attrs) : attrs :=
  {| config := config a; local_rank := local_rank a; world_size := world_size a;
     device := device a; mixed_precision := mixed_precision a;
     use_grad_scaler := use_grad_scaler a; training_state := s;
     gradient_accumulation_steps := gradient_accumulation_steps a;
     _start_step := _start_step a; grad_scaler := grad_scaler a;
     base_dir := base_dir a; checkpoint_dir := checkpoint_dir a;
     viewer_state := viewer_state a |}.

(** The methods run on the world. *)
Definition M (A : Type) : Type := Prog.t World A.

Definition emit (e : event) : M unit :=
  Prog.modify (set_trace (fun tr => tr ++ [e])).

(** A method of the pipeline, run on the trainer's pipeline. *)
Definition on_pipeline {A} (m : Pipeline.M A) : M A :=
  fun w =>
    let '(r, (p, tr)) := m (pipeline w, trace w) in
    (r, set_trace (fun _ => tr) (set_pipeline (fun _ => p) w)).

(** *** [Trainer.__init__] (lines 117-142), with the console output it
    prints. *)
Definition __init__ (config : TrainerConfig.t) (local_rank : Z) (world_size : Z)
    : attrs * list event :=
  let device := TrainerConfig.machine_device_type config in
  let device :=
    if String.eqb device "cuda" then device +:+ ":" +:+ PyStr.format_d local_rank
    else device in
  let mixed_precision := TrainerConfig.mixed_precision config in
  let use_grad_scaler := mixed_precision || TrainerConfig.use_grad_scaler config in
  let training_state := training in
  let gradient_accumulation_steps :=
    TrainerConfig.gradient_accumulation_steps config in
  let on_cpu := String.eqb device "cpu" in
  let mixed_precision := if on_cpu then false else mixed_precision in
  let _start_step := 0 in
  let grad_scaler := GradScaler_init use_grad_scaler in
  let base_dir := TrainerConfig.base_dir config in
  let checkpoint_dir := TrainerConfig.checkpoint_dir config in
  ({| config := config; local_rank := local_rank; world_size := world_size;
      device := device; mixed_precision := mixed_precision;
      use_grad_scaler := use_grad_scaler; training_state := training_state;
      gradient_accumulation_steps := gradient_accumulation_steps;
      _start_step := _start_step; grad_scaler := grad_scaler;
      base_dir := base_dir; checkpoint_dir := checkpoint_dir;
      viewer_state := None |},
   (if on_cpu then [EvConsole "Mixed precision is disabled for CPU training."]
    else [])
   ++ [EvConsole ("Saving checkpoints to: " +:+ checkpoint_dir)]).

(** *** [Trainer.train_iteration] (lines 638-677) *)

Definition zero_grad_all : M unit :=
  Prog.modify (fun w =>
    set_pipeline (fun p =>
      {| Pipeline._model := Optimizers.zero_grad_all (optimizers w) (Pipeline._model p);
         Pipeline.datamanager := Pipeline.datamanager p;
         Pipeline.world_size := Pipeline.world_size p |}) w);;
  emit EvZeroGradAll.

(** One pass of the accumulation loop (lines 652-656). *)
Definition accumulation_step (step : Z) (cpu_or_cuda_str : string)
    : M (Q * PyDict.t Q * PyDict.t Q) :=
  w ← Prog.get;
  '(loss_dict, metrics_dict) ← on_pipeline (VanillaPipeline.get_train_loss_dict step);
  emit (EvForward step cpu_or_cuda_str (mixed_precision (self w)) loss_dict);;
  loss ← Prog.lift (Py.reduce Qplus (PyDict.values loss_dict));
  let loss := (loss / inject_Z (gradient_accumulation_steps (self w)))%Q in
  let scaled := scaler_scale (grad_scaler (self w)) loss in
  Prog.modify (set_pipeline (fun p =>
    {| Pipeline._model := backward (Pipeline._model p) scaled;
       Pipeline.datamanager := Pipeline.datamanager p;
       Pipeline.world_size := Pipeline.world_size p |}));;
  emit (EvBackward scaled);;
  mret (loss, loss_dict, metrics_dict).

(** [for _ in range(n): body], keeping what the last pass assigned. *)
Fixpoint accumulate {A} (n : nat) (body : M A) (last : option A) : M (option A) :=
  match n with
  | O => mret last
  | S n' => x ← body; accumulate n' body (Some x)
  end.

Definition optimizer_scaler_step_all : M unit :=
  Prog.modify (fun w =>
    let '(opts, gs, m) :=
      Optimizers.optimizer_scaler_step_all (optimizers w) (grad_scaler (self w))
        (Pipeline._model (pipeline w)) in
    set_self (set_grad_scaler gs)
      (set_optimizers (fun _ => opts)
         (set_pipeline (fun p =>
            {| Pipeline._model := m;
               Pipeline.datamanager := Pipeline.datamanager p;
               Pipeline.world_size := Pipeline.world_size p |}) w)));;
  emit EvOptimizerScalerStepAll.

(** The gradient norms added to the metrics (lines 659-668). *)
Definition log_gradient_norms (named_parameters : list (string * option Q))
    (metrics_dict : PyDict.t Q) : Py.result (PyDict.t Q) :=
  '(metrics_dict, total_grad) ←
    Py.for_each
      (fun '(tag, value_grad) '(metrics_dict, total_grad) =>
         Py.assert (negb (String.eqb tag "Total")) "";;
         match value_grad with
         | Some grad =>
             mret (PyDict.set metrics_dict ("Gradients/" +:+ tag) grad,
                   (total_grad + grad)%Q)
         | None => mret (metrics_dict, total_grad)
         end)
      named_parameters (metrics_dict, 0%Q);
  mret (PyDict.set metrics_dict "Gradients/Total" total_grad).

Definition get_scale : M Q :=
  w ← Prog.get;
  let value := scaler_get_scale (grad_scaler (self w)) in
  emit (EvGetScale value);;
  mret value.

Definition scaler_update_ : M unit :=
  Prog.modify (fun w => set_self (set_grad_scaler (scaler_update (grad_scaler (self w)))) w);;
  emit EvScalerUpdate.

Definition scheduler_step_all (step : Z) : M unit :=
  Prog.modify (set_optimizers (fun o => Optimizers.scheduler_step_all o step));;
  emit (EvSchedulerStepAll step).

(** Lines 647-668: the accumulation loop and the step of the optimizers. *)
Definition accumulate_and_step (step : Z) : M (Q * PyDict.t Q * PyDict.t Q) :=
  w ← Prog.get;
  let cpu_or_cuda_str := PyStr.split_head (device (self w)) ":" in
  Prog.assert (0 <? gradient_accumulation_steps (self w))
    ("gradient_accumulation_steps must be > 0, not "
     +:+ PyStr.format_d (gradient_accumulation_steps (self w)));;
  last ← accumulate (Z.to_nat (gradient_accumulation_steps (self w)))
         (accumulation_step step cpu_or_cuda_str) None;
  optimizer_scaler_step_all;;
  match last with
  | None => Prog.raise (Py.Raised Py.UnboundLocalError "metrics_dict")
  | Some (loss, loss_dict, metrics_dict) =>
      if TrainerConfig.log_gradients (config (self w)) then
        w' ← Prog.get;
        metrics_dict ← Prog.lift
          (log_gradient_norms
             (named_parameter_grad_norms (Pipeline._model (pipeline w')))
             metrics_dict);
        mret (loss, loss_dict, metrics_dict)
      else mret (loss, loss_dict, metrics_dict)
  end.

(** Lines 670-674: update the scaler, and step the schedulers unless the
    scale went down. *)
Definition update_scaler_and_schedulers (step : Z) : M unit :=
  scale ← get_scale;
  scaler_update_;;
  scale' ← get_scale;
  if Qle_bool scale scale' then scheduler_step_all step else mret tt.

Definition train_iteration (step : Z) : M (Q * PyDict.t Q * PyDict.t Q) :=
  zero_grad_all;;
  out ← accumulate_and_step step;
  update_scaler_and_schedulers step;;
  mret out.

(** *** The decorators of nerfstudio/utils/decorators.py

    Their definitions are not among the sources.  They are taken after
    their names and use: the decorated body runs when the condition holds,
    and the call does nothing and returns [None] otherwise.  Whether the
    process is the main one is a parameter of the world. *)
Definition check_main_thread (body : M unit) : M unit :=
  w ← Prog.get;
  if main_process w then body else mret tt.

Definition check_viewer_enabled (body : M unit) : M unit :=
  w ← Prog.get;
  if TrainerConfig.viewer_enabled (config (self w)) && main_process w
  then body else mret tt.

Definition check_eval_enabled (body : M unit) : M unit :=
  w ← Prog.get;
  if TrainerConfig.eval_enabled (config (self w)) then body else mret tt.

(** *** The file system *)

Definition dir_exists (d : Disk) (dir : string) : bool :=
  bool_decide (is_Some (dirs d !! dir)).

Definition file_at (d : Disk) (dir name : string) : option FileContent :=
  dirs d !! dir ≫= fun files => files !! name.

(** The names in a directory, in the order the system lists them. *)
Definition names_in (d : Disk) (dir : string) : list string :=
  match dirs d !! dir with
  | Some files => (map_to_list files).*1
  | None => []
  end.

(** [dir.mkdir(parents=True, exist_ok=True)] *)
Definition mkdir (dir : string) : M unit :=
  Prog.modify (set_disk (fun d =>
    {| dirs := match dirs d !! dir with
               | Some _ => dirs d
               | None => <[dir := ∅]> (dirs d)
               end;
       write_faults := write_faults d;
       torn_writes := torn_writes d |}));;
  emit (EvMkdir dir).

(** [torch.save(obj, dir / name)], which writes straight to its target:
    the next write fault, if any, makes the write fail, and the target is
    then as it was or holds the bytes the torn write left. *)
Definition torch_save (obj : Checkpoint) (dir name : string) : M unit :=
  w ← Prog.get;
  let d := disk w in
  match dirs d !! dir with
  | None => Prog.raise (Py.Raised Py.OSError ("No such file or directory: " +:+ dir))
  | Some files =>
      if hd false (write_faults d) then
        Prog.modify (set_disk (fun d =>
          {| dirs := match hd None (torn_writes d) with
                     | Some data => <[dir := <[name := Bytes data]> files]> (dirs d)
                     | None => dirs d
                     end;
             write_faults := tail (write_faults d);
             torn_writes := tail (torn_writes d) |}));;
        Prog.raise (Py.Raised Py.OSError "write failed")
      else
        Prog.modify (set_disk (fun d =>
          {| dirs := <[dir := <[name := Pickled obj]> files]> (dirs d);
             write_faults := tail (write_faults d);
             torn_writes := torn_writes d |}));;
        emit (EvTorchSave dir name)
  end.

(** [(dir / name).unlink()] *)
Definition unlink (dir name : string) : M unit :=
  w ← Prog.get;
  match file_at (disk w) dir name with
  | None => Prog.raise (Py.Raised Py.OSError ("No such file or directory: " +:+ name))
  | Some _ =>
      Prog.modify (set_disk (fun d =>
        {| dirs := alter (delete name) dir (dirs d);
           write_faults := write_faults d;
           torn_writes := torn_writes d |}));;
      emit (EvUnlink dir name)
  end.

(** [torch.load(dir / name, map_location="cpu")] *)
Definition torch_load (dir name : string) : M Checkpoint :=
  w ← Prog.get;
  match file_at (disk w) dir name with
  | Some (Pickled c) => emit (EvTorchLoad dir name);; mret c
  | Some (Bytes _) => Prog.raise (Py.Raised Py.Exception "invalid load key")
  | None => Prog.raise (Py.Raised Py.OSError ("No such file or directory: " +:+ name))
  end.

(** *** [Trainer.save_checkpoint] (lines 607-636) *)

(** [f"step-{step:09d}.ckpt"] *)
Definition ckpt_name (step : Z) : string :=
  "step-" +:+ PyStr.format_0d 9 step +:+ ".ckpt".

(** The compound object handed to [torch.save] (lines 620-628). *)
Definition checkpoint_of (w : World) (step : Z) : Checkpoint :=
  {| ck_step := step;
     ck_pipeline :=
       pipeline_state_dict (Pipeline._model (pipeline w))
         (Pipeline.datamanager (pipeline w));
     ck_optimizers :=
       PyDict.map_values optimizer_state_dict (Optimizers.optimizers (optimizers w));
     ck_schedulers := Some (Optimizers.schedulers (optimizers w));
     ck_scalers := scaler_state_dict (grad_scaler (self w)) |}.

Definition save_checkpoint (step : Z) : M unit :=
  check_main_thread (
    w ← Prog.get;
    let checkpoint_dir := checkpoint_dir (self w) in
    (if negb (dir_exists (disk w) checkpoint_dir) then mkdir checkpoint_dir
     else mret tt);;
    let ckpt_path := ckpt_name step in
    torch_save (checkpoint_of w step) checkpoint_dir ckpt_path;;
    if TrainerConfig.save_only_latest_checkpoint (config (self w)) then
      w' ← Prog.get;
      Prog.for_ (names_in (disk w') checkpoint_dir)
        (fun f => if negb (String.eqb f ckpt_path) then unlink checkpoint_dir f
                  else mret tt)
    else mret tt).

(** Consecutive saves, as the training loop makes them. *)
Definition save_checkpoints (steps : list Z) : M unit :=
  Prog.for_ steps save_checkpoint.

(** The world is the same but for its file system and its trace. *)
Definition same_trainer (w w' : World) : Prop :=
  self w' = self w /\ pipeline w' = pipeline w /\ optimizers w' = optimizers w /\
  main_process w' = main_process w.

(** *** [Trainer._load_checkpoint] (lines 572-605) *)

(** [int(x[x.find("-") + 1 : x.find(".")])] *)
Definition step_of_name (x : string) : Py.result Z :=
  PyStr.int (PyStr.slice x (PyStr.find x "-"%char + 1) (PyStr.find x "."%char)).

(** [sorted(int(...) for x in names)[-1]] *)
Definition latest_step (names : list string) : Py.result Z :=
  steps ← Py.for_each (fun x acc => n ← step_of_name x; mret (acc ++ [n])) names [];
  match last (merge_sort Z.le steps) with
  | Some n => mret n
  | None => Py.Raise (Py.Raised Py.IndexError "list index out of range")
  end.

(** [os.listdir(dir)] *)
Definition listdir (dir : string) : M (list string) :=
  w ← Prog.get;
  if dir_exists (disk w) dir then mret (names_in (disk w) dir)
  else Prog.raise (Py.Raised Py.OSError ("No such file or directory: " +:+ dir)).

(** The shared tail of both branches (lines 584-592 and 595-603). *)
Definition restore_from (dir name : string) : M unit :=
  loaded_state ← torch_load dir name;
  Prog.modify (set_self (set_start_step (ck_step loaded_state + 1)));;
  on_pipeline (Pipeline.load_pipeline (ck_pipeline loaded_state) (ck_step loaded_state));;
  w ← Prog.get;
  opts ← Prog.lift (Optimizers.load_optimizers (optimizers w) (ck_optimizers loaded_state));
  Prog.modify (set_optimizers (fun _ => opts));;
  emit EvLoadOptimizers;;
  match ck_schedulers loaded_state with
  | Some schedulers =>
      if TrainerConfig.load_scheduler (config (self w)) then
        opts' ← Prog.lift (Optimizers.load_schedulers opts schedulers);
        Prog.modify (set_optimizers (fun _ => opts'));;
        emit EvLoadSchedulers
      else mret tt
  | None => mret tt
  end;;
  Prog.modify (fun w =>
    set_self (set_grad_scaler
      (scaler_load_state_dict (grad_scaler (self w)) (ck_scalers loaded_state))) w);;
  emit EvScalerLoadStateDict;;
  emit (EvConsole ("Done loading Nerfstudio checkpoint from " +:+ dir +:+ "/" +:+ name)).

Definition _load_checkpoint : M unit :=
  w ← Prog.get;
  let load_dir := TrainerConfig.load_dir (config (self w)) in
  let load_checkpoint := TrainerConfig.load_checkpoint (config (self w)) in
  match load_dir with
  | Some load_dir =>
      load_step ←
        match TrainerConfig.load_step (config (self w)) with
        | Some load_step => mret load_step
        | None =>
            emit (EvConsole "Loading latest Nerfstudio checkpoint from load_dir...");;
            names ← listdir load_dir;
            Prog.lift (latest_step names)
        end;
      let load_path := ckpt_name load_step in
      Prog.assert (bool_decide (is_Some (file_at (disk w) load_dir load_path)))
        ("Checkpoint " +:+ load_dir +:+ "/" +:+ load_path +:+ " does not exist");;
      restore_from load_dir load_path
  | None =>
      match load_checkpoint with
      | Some (dir, name) =>
          Prog.assert (bool_decide (is_Some (file_at (disk w) dir name)))
            ("Checkpoint " +:+ dir +:+ "/" +:+ name +:+ " does not exist");;
          restore_from dir name
      | None =>
          emit (EvConsole "No Nerfstudio checkpoint to load, so training from scratch.")
      end
  end.

(** *** [Trainer._update_viewer_state] (lines 525-539) *)

(** [self.viewer_state.update_scene(step, num_rays_per_batch)] *)
Definition viewer_update_scene (v : ViewerState) (step num_rays_per_batch : Z)
    : M unit :=
  fun w =>
    let '(v', r) := update_scene v step num_rays_per_batch in
    (r, set_trace (fun tr => tr ++ [EvUpdateScene step num_rays_per_batch])
          (set_self (set_viewer_state (Some v')) w)).

Definition _update_viewer_state (step : Z) : M unit :=
  check_viewer_enabled (
    w ← Prog.get;
    match viewer_state (self w) with
    | None => Prog.raise (Py.Raised Py.AssertionError "")
    | Some v =>
        let num_rays_per_batch :=
          get_train_rays_per_batch (Pipeline.datamanager (pipeline w)) in
        Prog.try_except (viewer_update_scene v step num_rays_per_batch)
          Py.RuntimeError
          (fun _ =>
             emit (EvSleep 30);;
             emit (EvConsole "Viewer failed. Continuing training."))
    end).

(** *** The training loop ([Trainer.train], lines 241-459) *)

(** Modelled from the spec: [step_check] of nerfstudio/utils/misc.py is
    not among the sources.  The specification gives the gate as "the
    current step is divisible by the period", with an option to fire at
    step 0 as well; a period of zero never fires. *)
Definition step_check (step step_size : Z) (run_at_zero : bool) : bool :=
  if step_size =? 0 then false
  else (run_at_zero || negb (step =? 0)) && (step mod step_size =? 0).

(** [with TimeWriter(writer, name, step=step): body].  The writer, which is
    not among the sources, is taken to time the body and to put the time
    under [name] when the block is left, by an exception too. *)
Definition with_time_writer {A} (name : EventName) (step : Z) (body : M A) : M A :=
  fun w =>
    let '(r, w') := body w in
    (r, set_trace (fun tr => tr ++ [EvPutTime name step]) w').

(** [Trainer.eval_iteration] (lines 679-713).  The evaluation of the
    pipeline and the logging of what it returns appear as one event for
    each of the three cadences. *)
Definition eval_iteration (step : Z) : M unit :=
  check_eval_enabled (
    w ← Prog.get;
    let config := config (self w) in
    (if step_check step (TrainerConfig.steps_per_eval_batch config) false
     then emit (EvEvalBatch step) else mret tt);;
    (if step_check step (TrainerConfig.steps_per_eval_image config) false
     then emit (EvEvalImage step);; emit (EvPutTime TEST_RAYS_PER_SEC step)
     else mret tt);;
    (if step_check step (TrainerConfig.steps_per_eval_all_images config) false
     then emit (EvEvalAllImages step) else mret tt)).

(** Lines 245-246: [polls] is the number of times the loop finds the
    state paused by another thread before it goes on. *)
Definition wait_while_paused (polls : nat) : M unit :=
  Prog.for_ (replicate polls tt) (fun _ => emit (EvSleep 10)).

(** Lines 247-264: the iteration between its callbacks, under the lock
    and the timer.  The training callbacks appear as events. *)
Definition timed_iteration (step : Z) : M unit :=
  with_time_writer ITER_TRAIN_TIME step (
    emit EvTrainMode;;
    emit (EvCallbacks BEFORE_TRAIN_ITERATION step);;
    train_iteration step;;
    emit (EvCallbacks AFTER_TRAIN_ITERATION step)).

(** Lines 266-275 *)
Definition put_train_rays_per_sec (step : Z) : M unit :=
  if 1 <? step then emit (EvPutTime TRAIN_RAYS_PER_SEC step) else mret tt.

(** Lines 277-439.  The surface diagnostic of lines 297-428 (evaluation
    of the model, least-squares fit, plot) appears as one event; its box
    routine is [derive_nsa]. *)
Definition after_iteration (step : Z) : M unit :=
  _update_viewer_state step;;
  w ← Prog.get;
  (if step_check step (TrainerConfig.steps_per_log (config (self w))) true then
     emit (EvPutScalar "Train Loss" step);;
     emit (EvPutDict "Train Loss Dict" step);;
     emit (EvPutDict "Train Metrics Dict" step);;
     emit (EvPutScalar "GPU Memory (MB)" step)
   else mret tt);;
  (if has_surface_detection_rays (Pipeline.datamanager (pipeline w))
      && (step mod 1000 =? 0)
   then emit (EvSurfaceDetection step) else mret tt);;
  (if has_eval_dataset (Pipeline.datamanager (pipeline w))
   then eval_iteration step else mret tt);;
  (if step_check step (TrainerConfig.steps_per_save (config (self w))) false
   then save_checkpoint step else mret tt);;
  emit EvWriteOutStorage.

(** The body of the loop for one step (lines 245-439). *)
Definition train_step (polls : nat) (step : Z) : M unit :=
  wait_while_paused polls;;
  timed_iteration step;;
  put_train_rays_per_sec step;;
  after_iteration step.

(** [for step in range(...)]: the steps run in order, and [step] keeps the
    last value it took (its value before the loop when there is none). *)
Fixpoint for_steps (polls : Z -> nat) (steps : list Z) (step : Z) : M Z :=
  match steps with
  | [] => mret step
  | s :: rest => train_step (polls s) s;; for_steps polls rest s
  end.

(** Lines 441-459: the checkpoint at the end of training, the flush and
    the callbacks after training. *)
Definition after_training (step : Z) : M unit :=
  save_checkpoint step;;
  emit EvWriteOutStorage;;
  emit (EvConsole "Training Finished");;
  emit (EvCallbacks AFTER_TRAIN step).

(** Lines 241-459: the loop and what follows it.  The total time is put
    without a step; its event carries the number of iterations in that
    place. *)
Definition train_loop (polls : Z -> nat) : M unit :=
  w ← Prog.get;
  let num_iterations := TrainerConfig.max_num_iterations (config (self w)) in
  step ← with_time_writer TOTAL_TRAIN_TIME num_iterations (
    for_steps polls
      (Py.range (_start_step (self w)) (_start_step (self w) + num_iterations)) 0);
  after_training step.

(** The steps for which the rate of training rays was put. *)
Definition rate_steps (evs : list event) : list Z :=
  omap (fun e => match e with
                 | EvPutTime TRAIN_RAYS_PER_SEC step => Some step
                 | _ => None
                 end) evs.

(** The run added events, all of which satisfy [P]. *)
Definition extends (P : event -> Prop) (w w' : World) : Prop :=
  exists evs, trace w' = trace w ++ evs /\ Forall P evs.

Definition is_rate_event (e : event) : bool :=
  match e with
  | EvPutTime TRAIN_RAYS_PER_SEC _ => true
  | _ => false
  end.

(** The pipeline with another model. *)
Definition with_model (p : Pipeline.t) (m : Model) : Pipeline.t :=
  {| Pipeline._model := m; Pipeline.datamanager := Pipeline.datamanager p;
     Pipeline.world_size := Pipeline.world_size p |}.

(** The pipeline after [zero_grad_all]. *)
Definition zeroed (w : World) : Pipeline.t :=
  with_model (pipeline w)
    (Optimizers.zero_grad_all (optimizers w) (Pipeline._model (pipeline w))).

(** *** The accumulation as the specification words it

    One sub-step on the pipeline: the losses of the next batch are summed,
    the sum is divided by [gradient_accumulation_steps], the scaler scales
    the quotient and the result is back-propagated.  The sub-step gives
    the pipeline it leaves with the loss dict and the sum it saw, and
    nothing when the model reports no loss at all. *)
Definition spec_substep (a : attrs) (step : Z) (p : Pipeline.t)
    : option (Pipeline.t * (PyDict.t Q * Q)) :=
  let '(m, dm, (loss_dict, _)) :=
    train_batch (Pipeline._model p) (Pipeline.datamanager p) step in
  match PyDict.values loss_dict with
  | [] => None
  | l :: ls =>
      let loss := fold_left Qplus ls l in
      Some ({| Pipeline._model :=
                 backward m
                   (scaler_scale (grad_scaler a)
                      (loss / inject_Z (gradient_accumulation_steps a))%Q);
               Pipeline.datamanager := dm;
               Pipeline.world_size := Pipeline.world_size p |},
            (loss_dict, loss))
  end.

(** [n] sub-steps in a row. *)
Fixpoint spec_substeps (n : nat) (a : attrs) (step : Z) (p : Pipeline.t)
    : option (Pipeline.t * list (PyDict.t Q * Q)) :=
  match n with
  | O => Some (p, [])
  | S n' =>
      '(p1, seen) ← spec_substep a step p;
      '(p2, rest) ← spec_substeps n' a step p1;
      Some (p2, seen :: rest)
  end.

(** The events of one sub-step that saw the loss dict [loss_dict]. *)
Definition substep_events (a : attrs) (step : Z) (loss_dict : PyDict.t Q)
    (loss : Q) : list event :=
  [ EvForward step (PyStr.split_head (device a) ":") (mixed_precision a) loss_dict;
    EvBackward
      (scaler_scale (grad_scaler a)
         (loss / inject_Z (gradient_accumulation_steps a))%Q) ].

(** Events of the scaler and the schedulers, which end an iteration. *)
Definition is_scaler_event (e : event) : bool :=
  match e with
  | EvGetScale _ | EvScalerUpdate | EvSchedulerStepAll _ => true
  | _ => false
  end.

Definition is_scheduler_step (e : event) : bool :=
  match e with
  | EvSchedulerStepAll _ => true
  | _ => false
  end.

(** The run added events that all satisfy [P], and left every scheduler
    as it was. *)
Definition steady (P : event -> Prop) (w w' : World) : Prop :=
  (exists evs, trace w' = trace w ++ evs /\ Forall P evs) /\
  Optimizers.schedulers (optimizers w') = Optimizers.schedulers (optimizers w).

(** Events of the accumulation loop and the optimizer step. *)
Definition is_accumulation_event (e : event) : bool :=
  match e with
  | EvForward _ _ _ _ | EvBackward _ | EvOptimizerScalerStepAll => true
  | _ => false
  end.

End WithBackend.
End Trainer.

(** ** A reference backend

    A small executable stand-in for torch, the data manager and the
    viewer, after their documented behaviour, on which the trainer can be
    run: a gradient scaler with torch's default schedule (initial scale
    2^16, halved on an overflow, doubled after 2000 clean steps), modules
    that load state dicts with strict or relaxed key matching, a data
    manager that serves scripted losses and a viewer with scripted
    outcomes. *)

Module Reference.

Record Scaler : Type := {
  enabled : bool;
  scale : Q;
  growth_tracker : Z;
  found_inf : bool
}.

Definition Scaler_init (enabled : bool) : Scaler :=
  {| enabled := enabled; scale := 65536; growth_tracker := 0; found_inf := false |}.

Definition get_scale (s : Scaler) : Q := if enabled s then scale s else 1%Q.

Definition scale_loss (s : Scaler) (loss : Q) : Q :=
  if enabled s then (loss * scale s)%Q else loss.

Definition update (s : Scaler) : Scaler :=
  if enabled s then
    if found_inf s then
      {| enabled := true; scale := (scale s * (1 # 2))%Q; growth_tracker := 0;
         found_inf := false |}
    else if growth_tracker s + 1 =? 2000 then
      {| enabled := true; scale := (scale s * 2)%Q; growth_tracker := 0;
         found_inf := false |}
    else
      {| enabled := true; scale := scale s; growth_tracker := growth_tracker s + 1;
         found_inf := false |}
  else s.

(** A module: named parameters, each a list of numbers whose length stands
    for its shape, and the gradient accumulated by backward passes. *)
Record Module : Type := {
  params : PyDict.t (list Q);
  grad : option Q;
  at_step : Z
}.

Definition set_params (ps : PyDict.t (list Q)) (m : Module) : Module :=
  {| params := ps; grad := grad m; at_step := at_step m |}.
Definition set_grad (g : option Q) (m : Module) : Module :=
  {| params := params m; grad := g; at_step := at_step m |}.

Definition has_key {V} (d : PyDict.t V) (k : string) : bool :=
  match PyDict.get d k with Some _ => true | None => false end.

Definition is_nil {A} (l : list A) : bool :=
  match l with [] => true | _ :: _ => false end.

(** [torch.nn.Module.load_state_dict]: tensors whose name and shape match
    are copied; then a shape mismatch, or under [strict] a missing or an
    unexpected key, raises [RuntimeError]. *)
Definition load_params (ps : PyDict.t (list Q)) (state_dict : PyDict.t (list Q))
    (strict : bool) : PyDict.t (list Q) * Py.result unit :=
  let missing :=
    List.filter (fun k => negb (has_key state_dict k)) (PyDict.keys ps) in
  let unexpected :=
    List.filter (fun k => negb (has_key ps k)) (PyDict.keys state_dict) in
  let mismatched :=
    List.filter
      (fun '(k, v) =>
         match PyDict.get state_dict k with
         | Some v' => negb (length v' =? length v)%nat
         | None => false
         end) ps in
  let ps' :=
    (fun '(k, v) =>
       match PyDict.get state_dict k with
       | Some v' => if (length v' =? length v)%nat then (k, v') else (k, v)
       | None => (k, v)
       end) <$> ps in
  let failed :=
    negb (is_nil mismatched)
    || (strict && negb (is_nil missing && is_nil unexpected)) in
  (ps',
   if failed
   then Py.Raise (Py.Raised Py.RuntimeError "Error(s) in loading state_dict")
   else Py.Ok tt).

Definition Module_load_state_dict (m : Module) (state_dict : PyDict.t (list Q))
    (strict : bool) : Module * Py.result unit :=
  let '(ps, r) := load_params (params m) state_dict strict in
  (set_params ps m, r).

Definition Module_backward (m : Module) (scaled_loss : Q) : Module :=
  set_grad (Some (scaled_loss + default 0%Q (grad m))%Q) m.

(** The data manager: the losses of the coming batches, and whether a
    multi-process run has its sampler. *)
Record Data : Type := {
  losses : list Q;
  sampler : bool;
  rays_per_batch : Z;
  eval_dataset : bool;
  surface_rays : bool;
  data_params : PyDict.t (list Q)
}.

Definition next_batch (m : Module) (dm : Data) (step : Z)
    : Module * Data * (PyDict.t Q * PyDict.t Q) :=
  (m,
   {| losses := tail (losses dm); sampler := sampler dm;
      rays_per_batch := rays_per_batch dm; eval_dataset := eval_dataset dm;
      surface_rays := surface_rays dm; data_params := data_params dm |},
   ([("rgb_loss", hd 0%Q (losses dm)); ("distortion_loss", 0%Q)],
    [("psnr", 0%Q)])).

Definition Data_load_state_dict (dm : Data) (state_dict : PyDict.t (list Q))
    : Data * Py.result unit :=
  let '(ps, r) := load_params (data_params dm) state_dict false in
  ({| losses := losses dm; sampler := sampler dm;
      rays_per_batch := rays_per_batch dm; eval_dataset := eval_dataset dm;
      surface_rays := surface_rays dm; data_params := ps |}, r).

Definition state_dict_of (m : Module) (dm : Data) : PyDict.t (list Q) :=
  ((fun '(k, v) => ("_model." +:+ k, v)) <$> params m)
  ++ ((fun '(k, v) => ("datamanager." +:+ k, v)) <$> data_params dm).

Record Optim : Type := { steps_taken : Z }.

(** The scaled gradient does not fit half precision. *)
Definition overflows (g : option Q) : bool :=
  match g with
  | Some x => Qle_bool 65504 (Qabs x)
  | None => false
  end.

(** [GradScaler.step(optimizer)]: the optimizer steps unless the scaler is
    enabled and finds an overflow, which it remembers for its update. *)
Definition Scaler_step (s : Scaler) (o : Optim) (m : Module)
    : Scaler * Optim * Module :=
  if enabled s && overflows (grad m) then
    ({| enabled := true; scale := scale s; growth_tracker := growth_tracker s;
        found_inf := true |}, o, m)
  else (s, {| steps_taken := steps_taken o + 1 |}, m).

(** The viewer: the outcomes of its coming scene updates. *)
Record View : Type := { outcomes : list (option Py.raised); scenes : Z }.

Definition View_update_scene (v : View) (step rays : Z) : View * Py.result unit :=
  match outcomes v with
  | Some e :: r => ({| outcomes := r; scenes := scenes v |}, Py.Raise e)
  | None :: r => ({| outcomes := r; scenes := scenes v + 1 |}, Py.Ok tt)
  | [] => ({| outcomes := []; scenes := scenes v + 1 |}, Py.Ok tt)
  end.

#[export] Instance backend : Backend := {|
  GradScaler := Scaler;
  ScalerDict := Scaler;
  GradScaler_init := Scaler_init;
  scaler_scale := scale_loss;
  scaler_get_scale := get_scale;
  scaler_update := update;
  scaler_state_dict := fun s => s;
  scaler_load_state_dict := fun _ s => s;
  Tensor := list Q;
  Model := Module;
  model_load_state_dict := Module_load_state_dict;
  model_update_to_step := fun m step =>
    {| params := params m; grad := grad m; at_step := step |};
  backward := Module_backward;
  named_parameter_grad_norms := fun m =>
    (fun '(k, _) => (k, Qabs <$> grad m)) <$> params m;
  DataManager := Data;
  train_sampler_set_epoch := fun dm _ => if sampler dm then Some dm else None;
  train_batch := next_batch;
  get_train_rays_per_batch := rays_per_batch;
  has_eval_dataset := eval_dataset;
  has_surface_detection_rays := surface_rays;
  module_load_state_dict := Data_load_state_dict;
  pipeline_state_dict := state_dict_of;
  Optimizer := Optim;
  OptimizerDict := Z;
  optimizer_zero_grad := fun _ m => set_grad None m;
  scaler_step := Scaler_step;
  optimizer_state_dict := steps_taken;
  optimizer_load_state_dict := fun _ n => {| steps_taken := n |};
  ViewerState := View;
  update_scene := View_update_scene
|}.

End Reference.

(** ** Sample worlds on the reference backend *)

Module Samples.
Import Trainer.
#[export] Existing Instance Reference.backend.

Definition config_of (device_type : string) (mixed_precision use_grad_scaler : bool)
    (gradient_accumulation_steps : Z) : TrainerConfig.t :=
  {| TrainerConfig.steps_per_save := 2;
     TrainerConfig.steps_per_eval_batch := 500;
     TrainerConfig.steps_per_eval_image := 500;
     TrainerConfig.steps_per_eval_all_images := 25000;
     TrainerConfig.max_num_iterations := 5;
     TrainerConfig.mixed_precision := mixed_precision;
     TrainerConfig.use_grad_scaler := use_grad_scaler;
     TrainerConfig.save_only_latest_checkpoint := true;
     TrainerConfig.load_dir := None;
     TrainerConfig.load_step := None;
     TrainerConfig.load_checkpoint := None;
     TrainerConfig.log_gradients := false;
     TrainerConfig.gradient_accumulation_steps := gradient_accumulation_steps;
     TrainerConfig.machine_device_type := device_type;
     TrainerConfig.base_dir := "outputs/run";
     TrainerConfig.checkpoint_dir := "outputs/run/nerfstudio_models";
     TrainerConfig.load_scheduler := true;
     TrainerConfig.steps_per_log := 10;
     TrainerConfig.viewer_enabled := false;
     TrainerConfig.eval_enabled := false;
     TrainerConfig.quit_on_train_completion := true |}.

Definition sample_pipeline (losses : list Q) : Pipeline.t :=
  {| Pipeline._model :=
       {| Reference.params := [("field.weight", [1; 2]%Q)];
          Reference.grad := None; Reference.at_step := 0 |};
     Pipeline.datamanager :=
       {| Reference.losses := losses; Reference.sampler := true;
          Reference.rays_per_batch := 4096; Reference.eval_dataset := false;
          Reference.surface_rays := false; Reference.data_params := [] |};
     Pipeline.world_size := 1 |}.

Definition sample_optimizers : Optimizers.t :=
  {| Optimizers.optimizers := [("fields", {| Reference.steps_taken := 0 |})];
     Optimizers.schedulers := [("fields", {| Optimizers.step_count := 0 |})] |}.

Definition empty_disk : Disk :=
  {| dirs := ∅; write_faults := []; torn_writes := [] |}.

(** The trainer of a configuration after [setup], about to train on
    batches with the given losses. *)
Definition world_of (config : TrainerConfig.t) (losses : list Q) : World :=
  {| self := (__init__ config 0 1).1;
     pipeline := sample_pipeline losses;
     optimizers := sample_optimizers;
     disk := empty_disk;
     main_process := true;
     trace := [] |}.

(** Mixed precision on a GPU; the loss 2 scaled by 2^16 overflows. *)
Definition overflow_world : World := world_of (config_of "cuda" true false 1) [2%Q].

(** The same with a loss of 1/4, which does not overflow. *)
Definition calm_world : World := world_of (config_of "cuda" true false 1) [1 # 4].

(** What the overflowing iteration returns, and the world it leaves. *)
Definition overflow_after : World :=
  Eval vm_compute in (train_iteration 7 overflow_world).2.

Definition overflow_out : Q * PyDict.t Q * PyDict.t Q :=
  Eval vm_compute in
    match (train_iteration 7 overflow_world).1 with
    | Py.Ok out => out
    | Py.Raise _ => (0%Q, [], [])
    end.

(** A run on the main process whose checkpoint directory already holds a
    checkpoint and a stray file; [write_faults] scripts the coming
    writes. *)
Definition stocked_world (write_faults : list bool) : World :=
  {| self := (__init__ (config_of "cuda" false false 1) 0 1).1;
     pipeline := sample_pipeline [1%Q];
     optimizers := sample_optimizers;
     disk :=
       {| dirs :=
            {[ "outputs/run/nerfstudio_models" :=
                 {[ "step-000000010.ckpt" := Bytes "old checkpoint";
                    "notes.txt" := Bytes "kept by hand" ]} ]};
          write_faults := write_faults;
          torn_writes := [] |};
     main_process := true;
     trace := [] |}.

(** The same directory when the coming write fails after it has opened
    its target, which it leaves empty. *)
Definition torn_world : World :=
  {| self := (__init__ (config_of "cuda" false false 1) 0 1).1;
     pipeline := sample_pipeline [1%Q];
     optimizers := sample_optimizers;
     disk :=
       {| dirs :=
            {[ "outputs/run/nerfstudio_models" :=
                 {[ "step-000000010.ckpt" := Bytes "old checkpoint";
                    "notes.txt" := Bytes "kept by hand" ]} ]};
          write_faults := [true];
          torn_writes := [Some ""] |};
     main_process := true;
     trace := [] |}.

(** A configuration that resumes from a directory, a step or a file;
    [load_scheduler] says whether schedulers are restored. *)
Definition load_config (load_dir : option string) (load_step : option Z)
    (load_checkpoint : option (string * string)) (load_scheduler : bool)
    : TrainerConfig.t :=
  {| TrainerConfig.steps_per_save := 2;
     TrainerConfig.steps_per_eval_batch := 500;
     TrainerConfig.steps_per_eval_image := 500;
     TrainerConfig.steps_per_eval_all_images := 25000;
     TrainerConfig.max_num_iterations := 5;
     TrainerConfig.mixed_precision := false;
     TrainerConfig.use_grad_scaler := false;
     TrainerConfig.save_only_latest_checkpoint := false;
     TrainerConfig.load_dir := load_dir;
     TrainerConfig.load_step := load_step;
     TrainerConfig.load_checkpoint := load_checkpoint;
     TrainerConfig.log_gradients := false;
     TrainerConfig.gradient_accumulation_steps := 1;
     TrainerConfig.machine_device_type := "cuda";
     TrainerConfig.base_dir := "outputs/run";
     TrainerConfig.checkpoint_dir := "outputs/run/nerfstudio_models";
     TrainerConfig.load_scheduler := load_scheduler;
     TrainerConfig.steps_per_log := 10;
     TrainerConfig.viewer_enabled := false;
     TrainerConfig.eval_enabled := false;
     TrainerConfig.quit_on_train_completion := true |}.

(** A checkpoint of the sample pipeline as another run saved it. *)
Definition sample_checkpoint (step : Z) : Checkpoint :=
  {| ck_step := step;
     ck_pipeline := [("_model.field.weight", [3; 4]%Q)];
     ck_optimizers := [("fields", step)];
     ck_schedulers := Some [("fields", {| Optimizers.step_count := step |})];
     ck_scalers := Reference.Scaler_init false |}.

(** A trainer whose directory "ckpts" holds the checkpoints of steps 1000
    and 2000. *)
Definition resumable_world (config : TrainerConfig.t) : World :=
  {| self := (__init__ config 0 1).1;
     pipeline := sample_pipeline [1%Q];
     optimizers := sample_optimizers;
     disk :=
       {| dirs :=
            {[ "ckpts" :=
                 {[ ckpt_name 1000 := Pickled (sample_checkpoint 1000);
                    ckpt_name 2000 := Pickled (sample_checkpoint 2000) ]} ]};
          write_faults := [];
          torn_writes := [] |};
     main_process := true;
     trace := [] |}.

Definition resume_latest_world : World :=
  resumable_world (load_config (Some "ckpts") None None true).

(** The world a restore of the checkpoint of step 2000 leaves. *)
Definition restored_world : World :=
  Eval vm_compute in
    (restore_from "ckpts" (ckpt_name 2000) resume_latest_world).2.

(** Two accumulation sub-steps without a gradient scaler. *)
Definition accumulating_world : World :=
  world_of (config_of "cuda" false false 2) [3%Q; 1%Q].

(** A configuration of a run on a GPU without mixed precision, with the
    given number of iterations, retention and viewer. *)
Definition run_config (max_num_iterations : Z)
    (save_only_latest_checkpoint viewer_enabled : bool) : TrainerConfig.t :=
  {| TrainerConfig.steps_per_save := 2;
     TrainerConfig.steps_per_eval_batch := 500;
     TrainerConfig.steps_per_eval_image := 500;
     TrainerConfig.steps_per_eval_all_images := 25000;
     TrainerConfig.max_num_iterations := max_num_iterations;
     TrainerConfig.mixed_precision := false;
     TrainerConfig.use_grad_scaler := false;
     TrainerConfig.save_only_latest_checkpoint := save_only_latest_checkpoint;
     TrainerConfig.load_dir := None;
     TrainerConfig.load_step := None;
     TrainerConfig.load_checkpoint := None;
     TrainerConfig.log_gradients := false;
     TrainerConfig.gradient_accumulation_steps := 1;
     TrainerConfig.machine_device_type := "cuda";
     TrainerConfig.base_dir := "outputs/run";
     TrainerConfig.checkpoint_dir := "outputs/run/nerfstudio_models";
     TrainerConfig.load_scheduler := true;
     TrainerConfig.steps_per_log := 10;
     TrainerConfig.viewer_enabled := viewer_enabled;
     TrainerConfig.eval_enabled := false;
     TrainerConfig.quit_on_train_completion := true |}.

(** A run that resumes from its own checkpoint directory, which holds the
    checkpoint of step 1000; every checkpoint is kept. *)
Definition rerun_world : World :=
  {| self :=
       (__init__ (load_config (Some "outputs/run/nerfstudio_models") None None true)
          0 1).1;
     pipeline := sample_pipeline [1%Q];
     optimizers := sample_optimizers;
     disk :=
       {| dirs :=
            {[ "outputs/run/nerfstudio_models" :=
                 {[ ckpt_name 1000 := Pickled (sample_checkpoint 1000) ]} ]};
          write_faults := [];
          torn_writes := [] |};
     main_process := true;
     trace := [] |}.

(** A trainer resumed after step 2000 that is given no iterations to run;
    only the latest checkpoint is kept. *)
Definition idle_world : World :=
  {| self := set_start_step 2001 (__init__ (run_config 0 true false) 0 1).1;
     pipeline := sample_pipeline [];
     optimizers := sample_optimizers;
     disk :=
       {| dirs :=
            {[ "outputs/run/nerfstudio_models" :=
                 {[ ckpt_name 2000 := Pickled (sample_checkpoint 2000) ]} ]};
          write_faults := [];
          torn_writes := [] |};
     main_process := true;
     trace := [] |}.

(** A trainer resumed after step 2000 that has two iterations to run. *)
Definition resumed_run_world : World :=
  {| self := set_start_step 2001 (__init__ (run_config 2 true false) 0 1).1;
     pipeline := sample_pipeline [2%Q; 1%Q];
     optimizers := sample_optimizers;
     disk :=
       {| dirs :=
            {[ "outputs/run/nerfstudio_models" :=
                 {[ ckpt_name 2000 := Pickled (sample_checkpoint 2000) ]} ]};
          write_faults := [];
          torn_writes := [] |};
     main_process := true;
     trace := [] |}.

(** A run of three iterations from step 0 on batches with the given
    losses. *)
Definition short_run_world : World :=
  {| self := (__init__ (run_config 3 true false) 0 1).1;
     pipeline := sample_pipeline [3%Q; 2%Q; 1%Q];
     optimizers := sample_optimizers;
     disk := empty_disk;
     main_process := true;
     trace := [] |}.

(** A trainer whose viewer answers its coming scene updates with the given
    outcomes. *)
Definition viewer_world (outcomes : list (option Py.raised)) : World :=
  {| self :=
       set_viewer_state
         (Some {| Reference.outcomes := outcomes; Reference.scenes := 0 |})
         (__init__ (run_config 3 true true) 0 1).1;
     pipeline := sample_pipeline [1%Q];
     optimizers := sample_optimizers;
     disk := empty_disk;
     main_process := true;
     trace := [] |}.

(** The state of a model saved with a tensor the sample model lacks. *)
Definition wider_state : PyDict.t Tensor :=
  [("_model.field.weight", [3; 4]%Q); ("_model.field.bias", [5]%Q);
   ("datamanager.camera", [6]%Q)].

(** The state of a model saved under distributed data parallel. *)
Definition ddp_state : PyDict.t Tensor :=
  [("_model.module.field.weight", [3; 4]%Q); ("datamanager.camera", [6]%Q)].

End Samples.

(** * Part II: properties *)

(** ** Python strings: sample evaluations *)

Example format_0d_5 : PyStr.format_0d 9 5 = "000000005".
Proof. reflexivity. Qed.
Example format_0d_neg : PyStr.format_0d 9 (-5) = "-00000005".
Proof. reflexivity. Qed.
Example format_0d_big : PyStr.format_0d 9 12345678901 = "12345678901".
Proof. reflexivity. Qed.
Example format_0d_zero : PyStr.format_0d 9 0 = "000000000".
Proof. reflexivity. Qed.
Example int_padded : PyStr.int "000002000" = Py.Ok 2000.
Proof. reflexivity. Qed.
Example int_underscore : PyStr.int " 1_000 " = Py.Ok 1000.
Proof. reflexivity. Qed.
Example int_bad : Py.is_ok (PyStr.int "1__0") = false.
Proof. reflexivity. Qed.
Example int_empty : Py.is_ok (PyStr.int "") = false.
Proof. reflexivity. Qed.
Example slice_suffix :
  PyStr.slice "step-000002000.ckpt" (PyStr.find "step-000002000.ckpt" "-"%char + 1)
              (PyStr.find "step-000002000.ckpt" "."%char) = "000002000".
Proof. reflexivity. Qed.
Example slice_no_dash : PyStr.slice "abc" (PyStr.find "abc" "-"%char + 1) (PyStr.find "abc" "."%char) = "ab".
Proof. reflexivity. Qed.

(** ** Loops in the result monad *)

Lemma for_each_nil {A S} (body : A -> S -> Py.result S) s :
  Py.for_each body [] s = Py.Ok s.
Proof. reflexivity. Qed.

Lemma for_each_cons {A S} (body : A -> S -> Py.result S) x r s :
  Py.for_each body (x :: r) s = Py.bind (body x s) (Py.for_each body r).
Proof. reflexivity. Qed.

(** ** The geometric diagnostic *)

Module GeometryFacts.
Import Geometry.
Local Open Scope float_scope.

Section Refinement.
Variables (a b c d : float) (vertices : list vec3) (x_dir y_dir z_dir : vec3).

#[local] Abbreviation dir_of := (directional_vector_of x_dir y_dir z_dir).
#[local] Abbreviation point_at dn i :=
  (vertices !! i ≫= fun start => spec_edge_point a b c d start (dir_of dn)).
#[local] Abbreviation division_at dn i :=
  (vertices !! i ≫= fun start =>
     Some (t_num a b c d start, t_den a b c (dir_of dn))).

Lemma edge_body_point dn i j st start :
  vertices !! i = Some start ->
  edge_body a b c d vertices x_dir y_dir z_dir dn (i, j) st
  = Py.Ok {| divisions :=
               divisions st ++ [(t_num a b c d start, t_den a b c (dir_of dn))];
             intersections :=
               intersections st
               ++ option_list (spec_edge_point a b c d start (dir_of dn)) |}.
Proof.
  intros Hi. unfold edge_body, index, in_unit_range, edge_t, spec_edge_point,
    t_num, t_den.
  cbn [fst]. rewrite Hi. cbn.
  destruct (_ && _); cbn; [done|by rewrite app_nil_r].
Qed.

Lemma inner_loop_points dn ijs : forall st,
  Forall (fun ij : nat * nat => (ij.1 < length vertices)%nat) ijs ->
  Py.for_each (edge_body a b c d vertices x_dir y_dir z_dir dn) ijs st
  = Py.Ok {| divisions :=
               divisions st ++ omap (fun ij : nat * nat => division_at dn ij.1) ijs;
             intersections :=
               intersections st
               ++ omap (fun ij : nat * nat => point_at dn ij.1) ijs |}.
Proof.
  induction ijs as [|[i j] r IH]; intros st Hall.
  - destruct st. cbn. by rewrite !app_nil_r.
  - inversion Hall as [|? ? Hi Hr]; subst. cbn [fst] in Hi.
    destruct (lookup_lt_is_Some_2 vertices i Hi) as [start Hs].
    rewrite for_each_cons, (edge_body_point _ _ _ _ start Hs). cbn [Py.bind].
    rewrite IH by done. cbn [divisions intersections omap list_omap fst].
    rewrite Hs. cbn [mbind option_bind].
    destruct (spec_edge_point _ _ _ _ _ _); cbn [option_list];
      by rewrite <- ?app_assoc, ?app_nil_r.
Qed.

(** With seven vertices or more every edge finds its start vertex, and
    the loops do what the specification words. *)
Lemma derive_nsa_loops_refines :
  (7 <= length vertices)%nat ->
  derive_nsa_loops a b c d vertices x_dir y_dir z_dir
  = Py.Ok {| divisions := spec_divisions a b c d vertices x_dir y_dir z_dir;
             intersections :=
               spec_intersections a b c d vertices x_dir y_dir z_dir |}.
Proof.
  intros Hlen. unfold derive_nsa_loops, edges.
  do 3 (rewrite for_each_cons; cbv beta iota;
        rewrite inner_loop_points by (repeat constructor; simpl; lia);
        cbn [Py.bind divisions intersections]).
  rewrite for_each_nil.
  unfold spec_intersections, spec_divisions, edge_list, edges. cbn [flat_map].
  rewrite !omap_app, !app_nil_l, <- !app_assoc.
  f_equal; f_equal; cbn [omap list_omap]; by rewrite ?app_nil_r.
Qed.

Lemma derive_nsa_refines :
  (7 <= length vertices)%nat ->
  derive_nsa a b c d vertices x_dir y_dir z_dir
  = Py.Ok (spec_intersections a b c d vertices x_dir y_dir z_dir).
Proof.
  intros Hlen. unfold derive_nsa. by rewrite derive_nsa_loops_refines.
Qed.

(** An edge whose start vertex is missing ends the loop with the index
    error of [vertices[i]]. *)
Lemma inner_loop_index_error dn (ijs : list (nat * nat)) : forall st,
  ~ Forall (fun ij : nat * nat => (ij.1 < length vertices)%nat) ijs ->
  Py.for_each (edge_body a b c d vertices x_dir y_dir z_dir dn) ijs st
  = Py.Raise (Py.Raised Py.IndexError "index out of bounds").
Proof.
  induction ijs as [|[i j] r IH]; intros st Hnot.
  - destruct Hnot. constructor.
  - rewrite for_each_cons.
    destruct (decide (i < length vertices)%nat) as [Hi|Hi].
    + destruct (lookup_lt_is_Some_2 vertices i Hi) as [start Hs].
      rewrite (edge_body_point _ _ _ _ start Hs).
      cbn [Py.bind]. apply IH. intros Hr. apply Hnot. by constructor.
    + unfold edge_body, index. cbn [fst].
      rewrite lookup_ge_None_2 by lia. reflexivity.
Qed.

Lemma derive_nsa_loops_below_seven :
  (length vertices < 7)%nat ->
  derive_nsa_loops a b c d vertices x_dir y_dir z_dir
  = Py.Raise (Py.Raised Py.IndexError "index out of bounds").
Proof.
  intros Hlen. unfold derive_nsa_loops, edges.
  rewrite for_each_cons; cbv beta iota.
  destruct (decide (Forall (fun ij : nat * nat => (ij.1 < length vertices)%nat)
                      [(0, 4); (1, 5); (2, 6); (3, 7)]%nat)) as [Hx|Hx];
    [|by rewrite inner_loop_index_error].
  rewrite inner_loop_points by done. cbn [Py.bind].
  rewrite for_each_cons; cbv beta iota.
  destruct (decide (Forall (fun ij : nat * nat => (ij.1 < length vertices)%nat)
                      [(0, 2); (1, 3); (4, 6); (5, 7)]%nat)) as [Hy|Hy];
    [|by rewrite inner_loop_index_error].
  rewrite inner_loop_points by done. cbn [Py.bind].
  rewrite for_each_cons; cbv beta iota.
  rewrite inner_loop_index_error; [done|].
  intros Hz. rewrite !Forall_cons in Hz. simpl in Hz. lia.
Qed.

End Refinement.

Lemma omap_length_le {A B} (g : A -> option B) (l : list A) :
  (length (omap g l) <= length l)%nat.
Proof.
  induction l as [|x r IH]; [simpl; lia|].
  change (omap g (x :: r))
    with (match g x with Some y => y :: omap g r | None => omap g r end).
  destruct (g x); simpl; lia.
Qed.

(** One element of the list maps to a value and every other to none. *)
Lemma omap_single {A B} (g : A -> option B) (l : list A) : forall k x p,
  l !! k = Some x -> g x = Some p ->
  (forall k' y, k' <> k -> l !! k' = Some y -> g y = None) ->
  omap g l = [p].
Proof.
  induction l as [|z r IH]; intros k x p Hk Hg Hothers; [done|].
  destruct k as [|k]; simpl in *.
  - injection Hk as ->. rewrite Hg. f_equal.
    assert (Hr : forall y, y ∈ r -> g y = None).
    { intros y [j Hj]%list_elem_of_lookup. by apply (Hothers (S j) y). }
    clear -Hr. induction r as [|y r IH]; [done|]. simpl.
    rewrite (Hr y) by constructor. apply IH. intros; apply Hr. by constructor.
  - rewrite (Hothers 0%nat z) by done.
    apply (IH k x p Hk Hg). intros k' y Hne Hy. apply (Hothers (S k') y); [congruence|done].
Qed.

Lemma omap_nil_iff {A B} (g : A -> option B) (l : list A) :
  omap g l = [] <-> forall x, x ∈ l -> g x = None.
Proof.
  induction l as [|z r IH].
  - split; [by intros _ x ?%elem_of_nil|done].
  - change (omap g (z :: r))
      with (match g z with Some y => y :: omap g r | None => omap g r end).
    destruct (g z) eqn:Hz.
    + split; [done|]. intros Hall. rewrite Hall in Hz by (by left). done.
    + rewrite IH. split.
      * intros Hr x [->|Hx]%elem_of_cons; [done|by apply Hr].
      * intros Hall x Hx. apply Hall. by right.
Qed.

(** The point the specification's wording gives for an edge is the one
    the code's own t and range test give. *)
Lemma spec_edge_point_edge_t a b c d x_dir y_dir z_dir dn start :
  spec_edge_point a b c d start (directional_vector_of x_dir y_dir z_dir dn)
  = if in_unit_range (edge_t a b c d x_dir y_dir z_dir dn start)
    then Some (axpy (edge_t a b c d x_dir y_dir z_dir dn start)
                 (directional_vector_of x_dir y_dir z_dir dn) start)
    else None.
Proof. reflexivity. Qed.

(** *** Division by zero in binary64 *)

Lemma zero_denominator den :
  (den =? 0) = true -> exists s, Prim2SF den = S754_zero s.
Proof.
  rewrite FloatAxioms.eqb_spec. change (Prim2SF 0) with (S754_zero false).
  destruct (Prim2SF den) as [s|s| |s m e]; cbn; eauto; try done.
  all: by destruct s.
Qed.

(** A quotient by zero is an infinity or NaN, which the range test
    refuses. *)
Lemma division_by_zero num den :
  (den =? 0) = true ->
  not_finite (num / den) /\ in_unit_range (num / den) = false.
Proof.
  intros [s Hden]%zero_denominator.
  unfold not_finite, in_unit_range. rewrite !FloatAxioms.leb_spec, FloatAxioms.div_spec, Hden.
  change (Prim2SF 0) with (S754_zero false).
  change (Prim2SF 1) with (S754_finite false 4503599627370496 (-52)).
  destruct (Prim2SF num) as [s'|s'| |s' m e]; cbn.
  1,3: done.
  all: by destruct s', s.
Qed.

End GeometryFacts.

Module NsaFacts.
Import Geometry GeometryFacts.
Local Open Scope float_scope.


Import GeometrySamples.



(** One computed t in range, on a parallelepiped: every vertex of
    [sheared_box] lies strictly on the positive side of x/2 + y - z = 0,
    the plane function rounds to 0 at vertex 4 alone, and the one point
    returned is vertex 4. *)
Example derive_nsa_single_point_one_side :
  box_consistent sheared_box sheared_x sheared_y sheared_z /\
  one_side 0.5 1 (-1) 0 sheared_box /\
  derive_nsa 0.5 1 (-1) 0 sheared_box sheared_x sheared_y sheared_z
  = Py.Ok [Vec3 2 0x1p-53 1].
Proof.
  split; [|split].
  - unfold box_consistent, edges.
    repeat (match goal with |- Forall _ _ => constructor end; cbn beta iota zeta).
    all: do 2 eexists; split; [reflexivity|]; split; [reflexivity|].
    all: unfold moved_by; do 9 eexists.
    all: repeat (split; [vm_compute; reflexivity|]); vm_compute; reflexivity.
  - left. unfold sheared_box.
    repeat (match goal with |- Forall _ _ => constructor end; cbn beta iota zeta).
    all: eexists; split; [vm_compute; reflexivity|]; vm_compute; reflexivity.
  - vm_compute. reflexivity.
Qed.

(** The exact t of an edge can lie above 1 while the computed t is 1.0:
    the edge from height -2^-60 along z ends below the plane z = 1, but
    c z + d rounds to -1 at its start, t is computed as 1.0, and the test
    accepts it. *)
Example derive_nsa_rounds_into_range :
  (exists n m,
     plane_exact 0 0 1 (-1) (Vec3 0 0 (- 0x1p-60)) = Some n /\
     exact (t_den 0 0 1 e_z) = Some m /\ (1 < - n / m)%Q) /\
  edge_t 0 0 1 (-1) e_x e_y e_z dir_z (Vec3 0 0 (- 0x1p-60)) = 1 /\
  in_unit_range (edge_t 0 0 1 (-1) e_x e_y e_z dir_z (Vec3 0 0 (- 0x1p-60)))
  = true.
Proof.
  split; [|split; vm_compute; reflexivity].
  do 2 eexists. split; [vm_compute; reflexivity|].
  split; [vm_compute; reflexivity|]. vm_compute. reflexivity.
Qed.



End NsaFacts.

(** ** The geometric diagnostic: the vertices it reads *)

Module NsaVertexFacts.
Import Geometry.
Local Open Scope float_scope.

Lemma spec_intersections_take a b c d (vertices : list vec3) x_dir y_dir z_dir :
  spec_intersections a b c d (take 7 vertices) x_dir y_dir z_dir
  = spec_intersections a b c d vertices x_dir y_dir z_dir.
Proof.
  unfold spec_intersections, edge_list, edges. cbn [flat_map map app fst].
  cbn [omap list_omap]. by rewrite !lookup_take_lt by lia.
Qed.

(** The routine reads the start vertex of each edge and never the end
    vertex: the vertices 0 to 6 decide the result, vertex 7 is not read,
    and the call returns exactly when there are at least seven vertices;
    with fewer it ends with an index error. *)
Theorem derive_nsa_vertices_read a b c d (vertices : list vec3) x_dir y_dir z_dir :
  derive_nsa a b c d vertices x_dir y_dir z_dir
  = derive_nsa a b c d (take 7 vertices) x_dir y_dir z_dir /\
  (Py.is_ok (derive_nsa a b c d vertices x_dir y_dir z_dir) = true
   <-> (7 <= length vertices)%nat) /\
  (Py.is_ok (derive_nsa a b c d vertices x_dir y_dir z_dir) = false ->
   derive_nsa a b c d vertices x_dir y_dir z_dir
   = Py.Raise (Py.Raised Py.IndexError "index out of bounds")).
Proof.
  destruct (decide (7 <= length vertices)%nat) as [Hlen|Hlen].
  - rewrite (GeometryFacts.derive_nsa_refines _ _ _ _ vertices) by done.
    rewrite (GeometryFacts.derive_nsa_refines _ _ _ _ (take 7 vertices))
      by (rewrite length_take; lia).
    rewrite spec_intersections_take. simpl. split; [done|]. split; [done|]. done.
  - rewrite take_ge by lia. unfold derive_nsa.
    rewrite (GeometryFacts.derive_nsa_loops_below_seven _ _ _ _ vertices) by lia.
    simpl. split; [done|]. split; [|done]. split; [done|lia].
Qed.

(** A box given by its first seven vertices alone gives the same points. *)
Example derive_nsa_seven_vertices :
  derive_nsa 0 0 1 (-0.5)
    (take 7 GeometrySamples.one_crossing) GeometrySamples.e_x GeometrySamples.e_y
    GeometrySamples.e_z
  = derive_nsa 0 0 1 (-0.5)
      GeometrySamples.one_crossing GeometrySamples.e_x GeometrySamples.e_y
      GeometrySamples.e_z.
Proof. reflexivity. Qed.

End NsaVertexFacts.
(** ** A relational reading of stateful code: whatever a run returns, the
    world it leaves is related to the world it started from. *)

Module ProgFacts.
Section Respects.
Context {W : Type} (R : relation W) `{!PreOrder R}.

#[local] Abbreviation respects := (Prog.respects R).

Lemma respects_ret {A} (a : A) : respects (mret a).
Proof. intros w r w' [= _ <-]. reflexivity. Qed.

Lemma respects_raise {A} e : respects (@Prog.raise W A e).
Proof. intros w r w' [= _ <-]. reflexivity. Qed.

Lemma respects_lift {A} (x : Py.result A) : respects (Prog.lift x).
Proof. intros w r w' [= _ <-]. reflexivity. Qed.

Lemma respects_assert cond msg : respects (Prog.assert cond msg).
Proof. apply respects_lift. Qed.

Lemma respects_get : respects Prog.get.
Proof. intros w r w' [= _ <-]. reflexivity. Qed.

Lemma respects_modify (f : W -> W) :
  (forall w, R w (f w)) -> respects (Prog.modify f).
Proof. intros Hf w r w' [= _ <-]. apply Hf. Qed.

Lemma respects_bind {A C} (m : Prog.t W A) (k : A -> Prog.t W C) :
  respects m -> (forall a, respects (k a)) -> respects (m ≫= k).
Proof.
  intros Hm Hk w r w' Hrun.
  unfold mbind, prog_bind, Prog.bind in Hrun.
  destruct (m w) as [[a|e] w1] eqn:Hmw.
  - etrans; [exact (Hm _ _ _ Hmw)|exact (Hk _ _ _ _ Hrun)].
  - injection Hrun as _ <-. exact (Hm _ _ _ Hmw).
Qed.

Lemma respects_try_except {A} (body : Prog.t W A) cls handler :
  respects body -> (forall e, respects (handler e)) ->
  respects (Prog.try_except body cls handler).
Proof.
  intros Hb Hh w r w' Hrun. unfold Prog.try_except in Hrun.
  destruct (body w) as [[a|e] w1] eqn:Hbw.
  - injection Hrun as _ <-. exact (Hb _ _ _ Hbw).
  - destruct (Py.issubclass _ _).
    + etrans; [exact (Hb _ _ _ Hbw)|exact (Hh _ _ _ _ Hrun)].
    + injection Hrun as _ <-. exact (Hb _ _ _ Hbw).
Qed.

Lemma respects_for {A} (l : list A) (body : A -> Prog.t W unit) :
  (forall x, respects (body x)) -> respects (Prog.for_ l body).
Proof.
  intros Hb. induction l as [|x l IH]; simpl.
  - apply (respects_ret tt).
  - apply (respects_bind (body x)); [apply Hb|intros _; exact IH].
Qed.

End Respects.
End ProgFacts.

Lemma filter_none {A} (P : A -> Prop) `{!forall x, Decision (P x)} (l : list A) :
  Forall (fun x => ~ P x) l -> filter P l = [].
Proof.
  induction 1 as [|x l Hx _ IH]; [done|].
  by rewrite filter_cons, decide_False.
Qed.

(** ** The training iteration *)

Module TrainIterationFacts.
Import Trainer.
Section WithBackend.
Context `{B : Backend}.

(** Unfold the monad at a world. *)
Ltac run_monad :=
  repeat (cbv beta delta
            [mbind mret prog_bind prog_ret Prog.bind Prog.ret Prog.modify
             Prog.get Prog.gets Prog.raise Prog.lift Prog.assert Prog.when]
            in *; cbn beta iota zeta in *).

(** Unfold the monad and the calls of the trainer. *)
Ltac run :=
  repeat (cbv beta delta
            [mbind mret prog_bind prog_ret Prog.bind Prog.ret Prog.modify
             Prog.get Prog.gets Prog.raise Prog.lift Prog.assert Prog.when
             emit zero_grad_all optimizer_scaler_step_all get_scale
             scaler_update_ scheduler_step_all] in *; cbn beta iota zeta in *).

Lemma zero_grad_all_run w :
  exists w', zero_grad_all w = (Py.Ok tt, w') /\
    trace w' = trace w ++ [EvZeroGradAll] /\
    self w' = self w /\ optimizers w' = optimizers w.
Proof. eexists. split; [reflexivity|]. by repeat split. Qed.

Lemma optimizer_scaler_step_all_run w :
  exists w', optimizer_scaler_step_all w = (Py.Ok tt, w') /\
    trace w' = trace w ++ [EvOptimizerScalerStepAll] /\
    Optimizers.schedulers (optimizers w') = Optimizers.schedulers (optimizers w) /\
    config (self w') = config (self w).
Proof.
  unfold optimizer_scaler_step_all. run.
  unfold Optimizers.optimizer_scaler_step_all.
  destruct (fold_left _ _ _) as [[opts gs] m].
  eexists. split; [reflexivity|]. by repeat split.
Qed.

Lemma zero_grad_all_pipeline w : pipeline (zero_grad_all w).2 = zeroed w.
Proof. reflexivity. Qed.

(** The step of the optimizers, in full. *)
Lemma optimizer_scaler_step_all_state w :
  exists w', optimizer_scaler_step_all w = (Py.Ok tt, w') /\
    trace w' = trace w ++ [EvOptimizerScalerStepAll] /\
    let '(opts, gs, m) :=
      Optimizers.optimizer_scaler_step_all (optimizers w) (grad_scaler (self w))
        (Pipeline._model (pipeline w)) in
    optimizers w' = opts /\ self w' = set_grad_scaler gs (self w) /\
    pipeline w' = with_model (pipeline w) m.
Proof.
  unfold optimizer_scaler_step_all. run.
  destruct (Optimizers.optimizer_scaler_step_all _ _ _) as [[opts gs] m].
  eexists. split; [reflexivity|]. by repeat split.
Qed.

Lemma get_train_loss_dict_run step p tr :
  VanillaPipeline.get_train_loss_dict step (p, tr)
  = let '(m, dm, out) :=
      train_batch (Pipeline._model p) (Pipeline.datamanager p) step in
    (Py.Ok out,
     ({| Pipeline._model := m; Pipeline.datamanager := dm;
         Pipeline.world_size := Pipeline.world_size p |}, tr)).
Proof.
  unfold VanillaPipeline.get_train_loss_dict. run.
  by destruct (train_batch _ _ _) as [[m dm] [ld md]].
Qed.

(** One pass of the loop against the sub-step of the specification. *)
Lemma accumulation_step_run step w :
  match spec_substep (self w) step (pipeline w) with
  | Some (p, (loss_dict, loss)) =>
      exists metrics_dict w',
        accumulation_step step (PyStr.split_head (device (self w)) ":") w
        = (Py.Ok ((loss / inject_Z (gradient_accumulation_steps (self w)))%Q,
                  loss_dict, metrics_dict), w') /\
        pipeline w' = p /\
        trace w' = trace w ++ substep_events (self w) step loss_dict loss /\
        self w' = self w /\ optimizers w' = optimizers w
  | None =>
      exists msg w',
        accumulation_step step (PyStr.split_head (device (self w)) ":") w
        = (Py.Raise (Py.Raised Py.TypeError msg), w') /\
        trace w'
        = trace w ++ [EvForward step (PyStr.split_head (device (self w)) ":")
                        (mixed_precision (self w)) []] /\
        self w' = self w /\ optimizers w' = optimizers w
  end.
Proof.
  unfold spec_substep, accumulation_step, on_pipeline. run.
  rewrite get_train_loss_dict_run.
  destruct (train_batch _ _ _) as [[m dm] [ld md]]. run.
  destruct (PyDict.values ld) as [|l ls] eqn:Hvals; run.
  - destruct ld; [|discriminate]. eexists _, _. split; [reflexivity|]. done.
  - eexists _, _. split; [reflexivity|]. split; [done|]. split; [|done].
    simpl. by rewrite <- app_assoc.
Qed.

#[local] Instance steady_preorder P : PreOrder (steady P).
Proof.
  split.
  - intros w. split; [|done]. exists []. by rewrite app_nil_r.
  - intros w1 w2 w3 [(e1 & H1 & F1) S1] [(e2 & H2 & F2) S2]. split.
    + exists (e1 ++ e2). rewrite H2, H1, <- app_assoc. split; [done|].
      by apply Forall_app.
    + congruence.
Qed.

Lemma steady_emit (P : event -> Prop) e :
  P e -> Prog.respects (steady P) (emit e).
Proof.
  intros He. apply ProgFacts.respects_modify. intros w. split; [|done].
  exists [e]. split; [done|]. by constructor.
Qed.

Lemma get_train_loss_dict_trace step p tr r p' tr' :
  VanillaPipeline.get_train_loss_dict step (p, tr) = (r, (p', tr')) -> tr' = tr.
Proof.
  rewrite get_train_loss_dict_run.
  destruct (train_batch _ _ _) as [[m dm'] [ld md]]. congruence.
Qed.

Lemma get_train_loss_dict_steady P step :
  Prog.respects (steady P) (on_pipeline (VanillaPipeline.get_train_loss_dict step)).
Proof.
  intros w r w'. unfold on_pipeline.
  destruct (VanillaPipeline.get_train_loss_dict step (pipeline w, trace w))
    as [r' [p' tr']] eqn:Hrun.
  apply get_train_loss_dict_trace in Hrun as ->.
  intros [= _ <-]. split; [|done]. exists []. simpl. by rewrite app_nil_r.
Qed.

(** Decompose a sequence of statements into its calls. *)
Ltac steady_steps :=
  repeat first
    [ apply ProgFacts.respects_bind; [apply _| |intros ?]
    | apply ProgFacts.respects_ret; apply _
    | apply ProgFacts.respects_get; apply _
    | apply ProgFacts.respects_raise; apply _
    | apply ProgFacts.respects_lift; apply _
    | apply ProgFacts.respects_assert; apply _
    | apply get_train_loss_dict_steady
    | apply steady_emit; done
    | match goal with
      | |- Prog.respects _ (let '(_, _) := ?x in _) => destruct x
      | |- Prog.respects _ (match ?x with _ => _ end) => destruct x
      end ].

Lemma accumulation_step_steady step dev :
  Prog.respects (steady (fun e => is_accumulation_event e = true))
    (accumulation_step step dev).
Proof.
  unfold accumulation_step. steady_steps.
  apply ProgFacts.respects_modify. intros w. split; [|done].
  exists []. simpl. by rewrite app_nil_r.
Qed.

Lemma accumulate_steady {A} n (body : M A) P :
  Prog.respects (steady P) body ->
  forall last, Prog.respects (steady P) (accumulate n body last).
Proof.
  intros Hb. induction n as [|n IH]; intros last; simpl.
  - apply ProgFacts.respects_ret; apply _.
  - apply ProgFacts.respects_bind; [apply _|exact Hb|intros x; apply IH].
Qed.

Lemma accumulate_and_step_steady step :
  Prog.respects (steady (fun e => is_accumulation_event e = true))
    (accumulate_and_step step).
Proof.
  unfold accumulate_and_step.
  apply ProgFacts.respects_bind; [apply _|apply ProgFacts.respects_get; apply _|].
  intros w0.
  apply ProgFacts.respects_bind; [apply _|apply ProgFacts.respects_assert; apply _|].
  intros _.
  apply ProgFacts.respects_bind;
    [apply _|apply accumulate_steady, accumulation_step_steady|].
  intros last.
  apply ProgFacts.respects_bind; [apply _| |].
  - intros w r w' Hrun.
    destruct (optimizer_scaler_step_all_run w) as (w1 & Hw1 & Htr & Hs & _).
    rewrite Hw1 in Hrun. injection Hrun as _ <-.
    split; [|done]. exists [EvOptimizerScalerStepAll].
    split; [done|]. by constructor.
  - intros _. steady_steps.
Qed.

Lemma update_scaler_and_schedulers_run step w :
  let before := scaler_get_scale (grad_scaler (self w)) in
  let after := scaler_get_scale (scaler_update (grad_scaler (self w))) in
  exists w',
    update_scaler_and_schedulers step w = (Py.Ok tt, w') /\
    grad_scaler (self w') = scaler_update (grad_scaler (self w)) /\
    trace w' = trace w ++ [EvGetScale before; EvScalerUpdate; EvGetScale after]
                       ++ (if Qle_bool before after
                           then [EvSchedulerStepAll step] else []) /\
    optimizers w' = (if Qle_bool before after
                     then Optimizers.scheduler_step_all (optimizers w) step
                     else optimizers w).
Proof.
  intros before after. unfold update_scaler_and_schedulers. run. simpl.
  fold before. fold after.
  destruct (Qle_bool before after); run.
  - eexists. split; [reflexivity|]. split; [done|]. split; [|done].
    simpl. by rewrite <- !app_assoc.
  - eexists. split; [reflexivity|]. split; [done|]. split; [|done].
    simpl. by rewrite <- !app_assoc.
Qed.

(** C1.  In every call of [train_iteration] that reaches the update of the
    gradient scaler: when the scale the scaler reports after its update is
    strictly smaller than the one it reported before, no scheduler step is
    made and every scheduler, with its step counter, is as before the
    iteration; in every other case (scale unchanged or increased)
    [scheduler_step_all] is called exactly once, after the update. *)
Theorem train_iteration_scheduler_skip step w out w' :
  train_iteration step w = (Py.Ok out, w') ->
  exists gs pre tail,
    let before := scaler_get_scale gs in
    let after := scaler_get_scale (scaler_update gs) in
    grad_scaler (self w') = scaler_update gs /\
    trace w' = trace w ++ pre
                 ++ [EvGetScale before; EvScalerUpdate; EvGetScale after] ++ tail /\
    Forall (fun e => is_scaler_event e = false) pre /\
    ((after < before)%Q ->
       tail = [] /\
       length (filter (fun e => is_scheduler_step e = true) (pre ++ tail)) = 0%nat /\
       Optimizers.schedulers (optimizers w') = Optimizers.schedulers (optimizers w) /\
       Optimizers.step_count <$> PyDict.values (Optimizers.schedulers (optimizers w'))
       = Optimizers.step_count <$> PyDict.values (Optimizers.schedulers (optimizers w))) /\
    ((before <= after)%Q ->
       tail = [EvSchedulerStepAll step] /\
       length (filter (fun e => is_scheduler_step e = true) (pre ++ tail)) = 1%nat /\
       Optimizers.schedulers (optimizers w')
       = PyDict.map_values Optimizers.scheduler_step
           (Optimizers.schedulers (optimizers w))).
Proof.
  unfold train_iteration. intros Hrun.
  destruct (zero_grad_all_run w) as (w0 & Hz & Htr0 & Hself0 & Hopt0).
  unfold mbind, prog_bind, Prog.bind in Hrun. rewrite Hz in Hrun.
  destruct (accumulate_and_step step w0) as [[out1|e] w1] eqn:Hacc; [|done].
  destruct (accumulate_and_step_steady step _ _ _ Hacc)
    as [(evs & Htr1 & Hevs) Hsched1].
  destruct (update_scaler_and_schedulers_run step w1)
    as (w2 & Hupd & Hgs & Htr2 & Hopt2).
  rewrite Hupd in Hrun. injection Hrun as <- <-.
  assert (Hpre : Forall (fun e => is_scaler_event e = false)
                   (EvZeroGradAll :: evs)).
  { constructor; [done|]. eapply Forall_impl; [exact Hevs|].
    intros e He. by destruct e. }
  assert (Hnone : filter (fun e => is_scheduler_step e = true)
                    (EvZeroGradAll :: evs) = []).
  { apply filter_none. eapply Forall_impl; [exact Hpre|].
    intros e He. destruct e; simpl in *; congruence. }
  exists (grad_scaler (self w1)), (EvZeroGradAll :: evs),
    (if Qle_bool (scaler_get_scale (grad_scaler (self w1)))
                 (scaler_get_scale (scaler_update (grad_scaler (self w1))))
     then [EvSchedulerStepAll step] else []).
  cbv zeta. split; [done|]. split.
  { rewrite Htr2, Htr1, Htr0, <- !app_assoc. reflexivity. }
  split; [exact Hpre|]. split.
  - intros Hlt.
    destruct (Qle_bool _ _) eqn:Hle.
    { apply Qle_bool_iff in Hle. exfalso. by apply (Qlt_not_le _ _ Hlt). }
    rewrite app_nil_r, Hnone. split; [done|]. split; [done|].
    rewrite Hopt2, Hsched1, Hopt0. done.
  - intros Hle. apply Qle_bool_iff in Hle. rewrite Hle in *.
    split; [done|]. rewrite filter_app, Hnone. split; [done|].
    rewrite Hopt2. simpl. by rewrite Hsched1, Hopt0.
Qed.

(** Events of the forward and backward passes. *)
#[local] Abbreviation is_pass e :=
  (is_accumulation_event e = true /\ e <> EvOptimizerScalerStepAll).

(** The loop against the sub-steps of the specification. *)
Lemma accumulate_run step n : forall w prev,
  match spec_substeps n (self w) step (pipeline w) with
  | Some (p, substeps) =>
      exists w' last',
        accumulate n (accumulation_step step (PyStr.split_head (device (self w)) ":"))
          prev w = (Py.Ok last', w') /\
        pipeline w' = p /\ length substeps = n /\
        trace w' = trace w
                   ++ flat_map (fun '(ld, l) => substep_events (self w) step ld l)
                        substeps /\
        self w' = self w /\ optimizers w' = optimizers w /\
        (n <> 0%nat ->
         exists loss_dict loss metrics_dict,
           last substeps = Some (loss_dict, loss) /\
           last' = Some ((loss / inject_Z (gradient_accumulation_steps (self w)))%Q,
                         loss_dict, metrics_dict))
  | None =>
      exists msg w' evs,
        accumulate n (accumulation_step step (PyStr.split_head (device (self w)) ":"))
          prev w = (Py.Raise (Py.Raised Py.TypeError msg), w') /\
        trace w' = trace w ++ evs /\ Forall (fun e => is_pass e) evs /\
        self w' = self w /\ optimizers w' = optimizers w
  end.
Proof.
  induction n as [|n IH]; intros w prev.
  - simpl. exists w, prev. rewrite app_nil_r. by repeat split.
  - cbn [spec_substeps accumulate].
    pose proof (accumulation_step_run step w) as Hstep.
    destruct (spec_substep (self w) step (pipeline w)) as [[p1 [ld l]]|]; cbn.
    + destruct Hstep as (md & w1 & Hstep & Hp1 & Htr1 & Hself1 & Hopt1).
      specialize (IH w1 (Some ((l / inject_Z (gradient_accumulation_steps (self w)))%Q,
                               ld, md))).
      rewrite Hself1, Hp1 in IH.
      destruct (spec_substeps n (self w) step p1) as [[p2 subs]|]; cbn.
      * destruct IH as (w2 & last' & Hloop & Hp2 & Hlen & Htr2 & Hself2 & Hopt2 & Hlast).
        exists w2, last'. unfold mbind, prog_bind, Prog.bind. rewrite Hstep.
        split; [exact Hloop|]. split; [done|]. split; [simpl; congruence|].
        split. { rewrite Htr2, Htr1. simpl. by rewrite <- app_assoc. }
        split; [congruence|]. split; [congruence|]. intros _.
        destruct n as [|n].
        -- simpl in Hloop. injection Hloop as <- _.
           destruct subs; [|done]. eauto.
        -- destruct Hlast as (ld' & l' & md' & Hl & ->); [done|].
           exists ld', l', md'. split; [|done].
           rewrite last_cons, Hl. done.
      * destruct IH as (msg & w2 & evs & Hloop & Htr2 & Hevs & Hself2 & Hopt2).
        exists msg, w2, (substep_events (self w) step ld l ++ evs).
        unfold mbind, prog_bind, Prog.bind. rewrite Hstep.
        split; [exact Hloop|]. split; [by rewrite Htr2, Htr1, <- app_assoc|].
        split; [|split; congruence].
        apply Forall_app. split; [|done]. repeat constructor; done.
    + destruct Hstep as (msg & w1 & Hstep & Htr1 & Hself1 & Hopt1).
      eexists msg, w1, [_]. unfold mbind, prog_bind, Prog.bind. rewrite Hstep.
      split; [done|]. split; [exact Htr1|]. split; [|done].
      repeat constructor; done.
Qed.

Lemma update_events step w r w' :
  update_scaler_and_schedulers step w = (r, w') ->
  exists tail, trace w' = trace w ++ tail /\
    Forall (fun e => is_scaler_event e = true) tail.
Proof.
  destruct (update_scaler_and_schedulers_run step w) as (w2 & -> & _ & Htr & _).
  intros [= _ <-]. eexists. split; [exact Htr|].
  destruct (Qle_bool _ _); repeat constructor.
Qed.


End WithBackend.
End TrainIterationFacts.

(** ** The training iteration on the sample worlds *)

Module TrainIterationSamples.
Import Trainer Samples.

Example overflow_skips_scheduler :
  trace (Trainer.train_iteration 7 overflow_world).2
  = [ EvZeroGradAll;
      EvForward 7 "cuda" true [("rgb_loss", 2%Q); ("distortion_loss", 0%Q)];
      EvBackward (scaler_scale (grad_scaler (self overflow_world)) ((2 + 0) / 1)%Q);
      EvOptimizerScalerStepAll;
      EvGetScale 65536%Q; EvScalerUpdate; EvGetScale (65536 * (1 # 2))%Q ].
Proof. reflexivity. Qed.

Example calm_steps_scheduler :
  trace (Trainer.train_iteration 7 calm_world).2
  = [ EvZeroGradAll;
      EvForward 7 "cuda" true [("rgb_loss", 1 # 4); ("distortion_loss", 0%Q)];
      EvBackward (scaler_scale (grad_scaler (self calm_world)) (((1 # 4) + 0) / 1)%Q);
      EvOptimizerScalerStepAll;
      EvGetScale 65536%Q; EvScalerUpdate; EvGetScale 65536%Q;
      EvSchedulerStepAll 7 ] /\
  Optimizers.schedulers (optimizers (Trainer.train_iteration 7 calm_world).2)
  = [("fields", {| Optimizers.step_count := 1 |})].
Proof. split; reflexivity. Qed.

(** Two sub-steps with the losses 3 and 1 and no scaling: the gradient the
    optimizer steps on is 3/2 + 1/2, accumulated from zero, and the one
    optimizer of the group has stepped once. *)
Example accumulation_sample :
  trace (Trainer.train_iteration 7 accumulating_world).2
  = [ EvZeroGradAll;
      EvForward 7 "cuda" false [("rgb_loss", 3%Q); ("distortion_loss", 0%Q)];
      EvBackward ((3 + 0) / 2)%Q;
      EvForward 7 "cuda" false [("rgb_loss", 1%Q); ("distortion_loss", 0%Q)];
      EvBackward ((1 + 0) / 2)%Q;
      EvOptimizerScalerStepAll;
      EvGetScale 1%Q; EvScalerUpdate; EvGetScale 1%Q;
      EvSchedulerStepAll 7 ] /\
  Reference.grad (Pipeline._model (pipeline (Trainer.train_iteration 7 accumulating_world).2))
  = Some ((1 + 0) / 2 + ((3 + 0) / 2 + 0))%Q /\
  Optimizers.optimizers (optimizers (Trainer.train_iteration 7 accumulating_world).2)
  = [("fields", {| Reference.steps_taken := 1 |})].
Proof. repeat split; reflexivity. Qed.

End TrainIterationSamples.

Module TrainIterationWitness.
Import Trainer Samples.

(** The overflowing iteration reaches the scaler update, and the theorem
    applies to it. *)
Lemma train_iteration_scheduler_skip_witness :
  train_iteration 7 overflow_world = (Py.Ok overflow_out, overflow_after) /\
  exists gs pre tail,
    grad_scaler (self overflow_after) = scaler_update gs /\
    trace overflow_after
    = trace overflow_world ++ pre
        ++ [EvGetScale (scaler_get_scale gs); EvScalerUpdate;
            EvGetScale (scaler_get_scale (scaler_update gs))] ++ tail.
Proof.
  assert (Hrun : train_iteration 7 overflow_world
                 = (Py.Ok overflow_out, overflow_after))
    by (vm_compute; reflexivity).
  split; [exact Hrun|].
  destruct (TrainIterationFacts.train_iteration_scheduler_skip 7 overflow_world
              overflow_out overflow_after Hrun)
    as (gs & pre & tail & Hgs & Htr & _).
  exists gs, pre, tail. split; [exact Hgs|exact Htr].
Defined.


End TrainIterationWitness.

(** ** Construction of the trainer *)

Module InitFacts.
Import Trainer.
Section WithBackend.
Context `{B : Backend}.

(** C10.  [__init__] computes [use_grad_scaler] as
    [mixed_precision or config.use_grad_scaler] before the CPU check that
    turns [mixed_precision] off: for every configuration with a CPU device
    and mixed precision requested, the trainer has [mixed_precision] false,
    [use_grad_scaler] true, and a gradient scaler constructed with
    [enabled=True]. *)
Theorem init_cpu_keeps_grad_scaler config local_rank world_size :
  TrainerConfig.machine_device_type config = "cpu" ->
  TrainerConfig.mixed_precision config = true ->
  mixed_precision (__init__ config local_rank world_size).1 = false /\
  use_grad_scaler (__init__ config local_rank world_size).1 = true /\
  grad_scaler (__init__ config local_rank world_size).1 = GradScaler_init true /\
  device (__init__ config local_rank world_size).1 = "cpu".
Proof.
  intros Hdev Hmp. unfold __init__. rewrite Hdev, Hmp. simpl. done.
Qed.

(** On any other device the request for mixed precision is kept. *)
Lemma init_other_device_keeps_mixed_precision config local_rank world_size :
  TrainerConfig.machine_device_type config <> "cpu" ->
  TrainerConfig.machine_device_type config <> "cuda" ->
  mixed_precision (__init__ config local_rank world_size).1
  = TrainerConfig.mixed_precision config.
Proof.
  intros Hcpu Hcuda. unfold __init__. simpl.
  apply String.eqb_neq in Hcpu, Hcuda. by rewrite Hcuda, Hcpu.
Qed.

End WithBackend.

Import Samples.

(** The theorem at the sample configuration for a CPU. *)
Lemma init_cpu_keeps_grad_scaler_witness :
  mixed_precision (__init__ (config_of "cpu" true false 1) 0 1).1 = false /\
  use_grad_scaler (__init__ (config_of "cpu" true false 1) 0 1).1 = true /\
  grad_scaler (__init__ (config_of "cpu" true false 1) 0 1).1
  = GradScaler_init true /\
  device (__init__ (config_of "cpu" true false 1) 0 1).1 = "cpu".
Proof.
  apply (init_cpu_keeps_grad_scaler (B := Reference.backend)); reflexivity.
Defined.

End InitFacts.


(** ** Checkpoint names: formatting a step and reading it back *)

Module NameFacts.
Import PyStr.

Lemma chars_app (a b : string) : chars (a +:+ b) = chars a ++ chars b.
Proof. induction a as [|c a IH]; simpl; [done|]. by rewrite IH. Qed.

Lemma chars_str (l : list ascii) : chars (str l) = l.
Proof. apply list_ascii_of_string_of_list_ascii. Qed.

Lemma digit_of_digit_char d : 0 <= d <= 9 -> digit_of (digit_char d) = Some d.
Proof.
  intros Hd.
  assert (d = 0 \/ d = 1 \/ d = 2 \/ d = 3 \/ d = 4 \/ d = 5 \/ d = 6 \/ d = 7
          \/ d = 8 \/ d = 9) as Hcases by lia.
  repeat (destruct Hcases as [-> | Hcases]; [reflexivity|]). by subst.
Qed.

(** The number a list of digit characters denotes, after the digits that
    gave [acc]. *)
#[local] Abbreviation value_from :=
  (fold_left (fun (a : Z) (c : ascii) => 10 * a + default 0 (digit_of c))).

Lemma digits_fuel_spec fuel : forall n acc,
  fuel <> 0%nat -> 0 <= n < 2 ^ Z.of_nat fuel ->
  exists ds,
    digits_fuel fuel n acc = ds ++ acc /\ ds <> [] /\
    Forall (fun c => is_Some (digit_of c)) ds /\
    forall a0, value_from ds a0 = a0 * 10 ^ Z.of_nat (length ds) + n.
Proof.
  induction fuel as [|f IH]; intros n acc Hf Hn; [done|].
  cbn [digits_fuel].
  assert (Hmod : 0 <= n mod 10 <= 9) by (pose proof (Z.mod_pos_bound n 10); lia).
  destruct (n / 10 =? 0) eqn:Hq.
  - apply Z.eqb_eq in Hq.
    exists [digit_char (n mod 10)]. split; [done|]. split; [done|]. split.
    + constructor; [|done]. rewrite digit_of_digit_char by done. eauto.
    + intros a0. cbn [fold_left length]. rewrite digit_of_digit_char by done.
      cbn [default]. unfold id. change (Z.of_nat 1) with 1. rewrite Z.pow_1_r.
      pose proof (Z.div_mod n 10). lia.
  - apply Z.eqb_neq in Hq.
    assert (Hdiv : 0 <= n / 10 < 2 ^ Z.of_nat f).
    { split; [apply Z.div_pos; lia|].
      apply Z.div_lt_upper_bound; [lia|].
      rewrite Nat2Z.inj_succ, Z.pow_succ_r in Hn by lia. lia. }
    assert (Hf' : f <> 0%nat).
    { intros ->. change (2 ^ Z.of_nat 0) with 1 in Hdiv. lia. }
    destruct (IH (n / 10) (digit_char (n mod 10) :: acc) Hf' Hdiv)
      as (ds & Heq & Hne & Hall & Hval).
    exists (ds ++ [digit_char (n mod 10)]). split.
    { rewrite Heq. by rewrite <- app_assoc. }
    split; [by destruct ds|]. split.
    + apply Forall_app. split; [done|]. constructor; [|done].
      rewrite digit_of_digit_char by done. eauto.
    + intros a0. rewrite fold_left_app. cbn [fold_left].
      rewrite digit_of_digit_char by done. cbn [default]. unfold id. rewrite Hval.
      rewrite length_app. cbn [length].
      replace (Z.of_nat (length ds + 1)) with (Z.succ (Z.of_nat (length ds))) by lia.
      rewrite Z.pow_succ_r by lia.
      pose proof (Z.div_mod n 10). lia.
Qed.

Lemma digits_spec n :
  0 <= n ->
  digits n <> [] /\ Forall (fun c => is_Some (digit_of c)) (digits n) /\
  value_from (digits n) 0 = n.
Proof.
  intros Hn. unfold digits.
  destruct (digits_fuel_spec (S (Z.to_nat (Z.log2 n))) n []) as (ds & Heq & Hne & Hall & Hval).
  { done. }
  { split; [done|].
    rewrite Nat2Z.inj_succ, Z2Nat.id by apply Z.log2_nonneg.
    destruct (Z.eq_dec n 0) as [->|Hn0]; [done|].
    apply Z.log2_spec. lia. }
  rewrite Heq, app_nil_r. split; [done|]. split; [done|].
  rewrite Hval. lia.
Qed.

Lemma int_digits_value l : forall acc after_digit,
  Forall (fun c => is_Some (digit_of c)) l ->
  l <> [] \/ after_digit = true ->
  int_digits l acc after_digit = Some (value_from l acc).
Proof.
  induction l as [|c l IH]; intros acc b Hall Hne; simpl.
  - destruct Hne as [?| ->]; done.
  - inversion Hall as [|? ? [d Hd] Hl]; subst. rewrite Hd. simpl.
    apply IH; [done|by right].
Qed.

Lemma value_from_zeros k l :
  value_from (replicate k "0"%char ++ l) 0 = value_from l 0.
Proof. induction k as [|k IH]; simpl; [done|]. exact IH. Qed.

Lemma digit_not_space c : is_Some (digit_of c) -> is_space c = false.
Proof.
  unfold digit_of, is_space. intros [d Hd].
  destruct (_ && _) eqn:Hrange; [|done].
  apply andb_true_iff in Hrange as [H1 H2].
  apply Z.leb_le in H1, H2.
  repeat match goal with
         | |- context [(?a <=? ?b)%nat] => destruct (Nat.leb_spec a b)
         | |- context [(?a =? ?b)%nat] => destruct (Nat.eqb_spec a b)
         end; simpl; try done; lia.
Qed.

Lemma strip_id c l last_c :
  is_space c = false -> is_space last_c = false ->
  strip (c :: l ++ [last_c]) = c :: l ++ [last_c].
Proof.
  intros Hc Hl. unfold strip. cbn [lstrip]. rewrite Hc.
  rewrite (app_comm_cons l [last_c] c), rev_unit.
  cbn [lstrip]. rewrite Hl.
  change (rev (last_c :: rev (c :: l))) with (rev (rev (c :: l)) ++ [last_c]).
  by rewrite rev_involutive.
Qed.

Lemma strip_ends l c z :
  head l = Some c -> last l = Some z ->
  is_space c = false -> is_space z = false -> strip l = l.
Proof.
  intros Hhead Hlast Hc Hz. destruct l as [|c' l']; [done|].
  injection Hhead as ->.
  destruct l' as [|c1 l1] using rev_ind.
  - injection Hlast as <-. unfold strip. cbn [lstrip rev app]. rewrite Hc.
    cbn [lstrip rev app]. by rewrite Hc.
  - rewrite app_comm_cons, last_snoc in Hlast. injection Hlast as ->.
    by apply strip_id.
Qed.

(** The characters of a formatted step: a sign, zeros, digits. *)
Lemma int_chars_format width n :
  int_chars (chars (format_0d width n)) = Some n.
Proof.
  unfold format_0d. rewrite chars_str.
  destruct (digits_spec (Z.abs n) (Z.abs_nonneg n)) as (Hne & Hall & Hval).
  set (ds := digits (Z.abs n)) in *.
  set (body := replicate (width - length (sign_chars n) - length ds) "0"%char ++ ds).
  assert (Hbody_all : Forall (fun c => is_Some (digit_of c)) body).
  { apply Forall_app. split; [|done]. apply Forall_replicate. by exists 0. }
  assert (Hbody_val : int_digits body 0 false = Some (Z.abs n)).
  { rewrite int_digits_value; [|done|].
    - unfold body. by rewrite value_from_zeros, Hval.
    - left. unfold body. by destruct (replicate _ _), ds. }
  (* the last character is a digit *)
  destruct (exists_last Hne) as (ds0 & z & Hds).
  assert (Hz : is_space z = false).
  { apply digit_not_space. rewrite Hds in Hall.
    apply Forall_app in Hall as [_ Hz]. by inversion Hz. }
  assert (Hlast : last (sign_chars n ++ body) = Some z).
  { unfold body. rewrite Hds, !app_assoc. apply last_snoc. }
  destruct body as [|c0 rest] eqn:Hb.
  { apply (f_equal length) in Hb. unfold body in Hb.
    rewrite length_app in Hb. destruct ds; [done|simpl in Hb; lia]. }
  inversion Hbody_all as [|? ? [d0 Hd0] _]; subst.
  assert (Hc0 : is_space c0 = false) by (apply digit_not_space; eauto).
  unfold int_chars, sign_chars in *.
  destruct (n <? 0) eqn:Hsign.
  - apply Z.ltb_lt in Hsign.
    rewrite (strip_ends _ "-"%char z) by done.
    cbn [app]. change (Ascii.eqb "-" "-") with true. cbn iota.
    rewrite Hbody_val. simpl. f_equal. lia.
  - apply Z.ltb_ge in Hsign.
    rewrite (strip_ends _ c0 z) by done.
    cbn [app].
    assert (Ascii.eqb c0 "-" = false /\ Ascii.eqb c0 "+" = false) as [-> ->].
    { split; apply Ascii.eqb_neq; intros ->; vm_compute in Hd0; done. }
    rewrite Hbody_val. f_equal. lia.
Qed.

Lemma find_from_skip c l1 r : forall i,
  Forall (fun a => a <> c) l1 ->
  find_from c (l1 ++ c :: r) i = i + Z.of_nat (length l1).
Proof.
  induction l1 as [|a l1 IH]; intros i Hall; simpl.
  - rewrite Ascii.eqb_refl. lia.
  - inversion Hall as [|? ? Ha Hl]; subst.
    apply Ascii.eqb_neq in Ha. rewrite Ha, IH by done. lia.
Qed.

(** A formatted step holds no dot. *)
Lemma format_no_dot width n :
  Forall (fun a => a <> "."%char) (chars (format_0d width n)).
Proof.
  unfold format_0d. rewrite chars_str.
  destruct (digits_spec (Z.abs n) (Z.abs_nonneg n)) as (_ & Hall & _).
  apply Forall_app. split.
  { unfold sign_chars. destruct (n <? 0); by repeat constructor. }
  apply Forall_app. split.
  { by apply Forall_replicate. }
  eapply Forall_impl; [exact Hall|]. intros a [d Hd] ->. by vm_compute in Hd.
Qed.

Lemma step_of_ckpt_name n :
  Trainer.step_of_name (Trainer.ckpt_name n) = Py.Ok n.
Proof.
  unfold Trainer.step_of_name, Trainer.ckpt_name, find.
  set (F := chars (format_0d 9 n)).
  assert (Hchars : chars ("step-" +:+ format_0d 9 n +:+ ".ckpt")
                   = chars "step-" ++ F ++ chars ".ckpt").
  { by rewrite !chars_app. }
  rewrite Hchars.
  assert (Hdash : find_from "-" (chars "step-" ++ F ++ chars ".ckpt") 0 = 4).
  { apply (find_from_skip "-" (chars "step") (F ++ chars ".ckpt") 0).
    by repeat constructor. }
  assert (Hdot : find_from "." (chars "step-" ++ F ++ chars ".ckpt") 0
                 = 5 + Z.of_nat (length F)).
  { rewrite app_assoc.
    change (chars ".ckpt") with ("."%char :: chars "ckpt").
    rewrite find_from_skip.
    - rewrite length_app. change (length (chars "step-")) with 5%nat. lia.
    - apply Forall_app. split; [by repeat constructor|apply format_no_dot]. }
  rewrite Hdash, Hdot.
  assert (Hslice : slice ("step-" +:+ format_0d 9 n +:+ ".ckpt") (4 + 1)
                     (5 + Z.of_nat (length F)) = format_0d 9 n).
  { unfold slice. rewrite Hchars.
    rewrite !length_app. change (length (chars "step-")) with 5%nat.
    change (length (chars ".ckpt")) with 5%nat.
    unfold norm_index.
    assert ((4 + 1 <? 0) = false) as -> by lia.
    assert ((5 + Z.of_nat (length F) <? 0) = false) as -> by lia.
    rewrite !Z.min_l by lia.
    replace (Z.to_nat (5 + Z.of_nat (length F) - (4 + 1))) with (length F) by lia.
    change (Z.to_nat (4 + 1)) with 5%nat.
    change (drop 5 (chars "step-" ++ F ++ chars ".ckpt")) with (F ++ chars ".ckpt").
    rewrite take_app_length. unfold F, chars, str.
    apply string_of_list_ascii_of_string. }
  rewrite Hslice. unfold int. by rewrite int_chars_format.
Qed.

(** Reading the step back from the name of its checkpoint (line 581
    after lines 582 and 618): the round trip holds for every integer. *)
Theorem step_of_name_ckpt_name n :
  Trainer.step_of_name (Trainer.ckpt_name n) = Py.Ok n.
Proof. exact (step_of_ckpt_name n). Qed.

Lemma ckpt_name_injective n m : Trainer.ckpt_name n = Trainer.ckpt_name m -> n = m.
Proof.
  intros Heq. apply (f_equal Trainer.step_of_name) in Heq.
  rewrite !step_of_ckpt_name in Heq. congruence.
Qed.

(** Two steps never share a checkpoint file name, so the save of one step
    never overwrites the checkpoint of another. *)
Theorem ckpt_name_inj n m : Trainer.ckpt_name n = Trainer.ckpt_name m -> n = m.
Proof. exact (ckpt_name_injective n m). Qed.

(** The names of the steps 7 and 7 agree, and so do the steps. *)
Lemma ckpt_name_inj_witness :
  Trainer.ckpt_name 7 = Trainer.ckpt_name (3 + 4) /\ 7 = 3 + 4.
Proof. split; [reflexivity|]. apply (ckpt_name_inj 7 (3 + 4)). reflexivity. Defined.

End NameFacts.
(** ** The checkpoint manager: saving *)

Module SaveFacts.
Import Trainer.
Section WithBackend.
Context `{B : Backend}.

Ltac run :=
  repeat (cbv beta delta
            [mbind mret prog_bind prog_ret Prog.bind Prog.ret Prog.modify
             Prog.get Prog.gets Prog.raise Prog.lift Prog.assert Prog.when
             emit] in *; cbn beta iota zeta in *).

Lemma same_trainer_refl w : same_trainer w w.
Proof. by repeat split. Qed.

Lemma same_trainer_trans w1 w2 w3 :
  same_trainer w1 w2 -> same_trainer w2 w3 -> same_trainer w1 w3.
Proof. unfold same_trainer. intros (?&?&?&?) (?&?&?&?). repeat split; congruence. Qed.

Lemma file_at_dir d dir files name :
  dirs d !! dir = Some files -> file_at d dir name = files !! name.
Proof. unfold file_at. by intros ->. Qed.

(** Deleting every listed name but [keep], one by one. *)
Lemma unlink_others_run dir keep (names : list string) : forall w files,
  dirs (disk w) !! dir = Some files ->
  NoDup names ->
  (forall f, f ∈ names -> f <> keep -> is_Some (files !! f)) ->
  exists w' files',
    Prog.for_ names
      (fun f => if negb (String.eqb f keep) then unlink dir f else mret tt) w
    = (Py.Ok tt, w') /\
    dirs (disk w') !! dir = Some files' /\
    (forall g, files' !! g
               = if decide (g ∈ names /\ g <> keep) then None else files !! g) /\
    trace w' = trace w ++ (EvUnlink dir <$> filter (fun f => f <> keep) names) /\
    write_faults (disk w') = write_faults (disk w) /\
    same_trainer w w'.
Proof.
  induction names as [|f names IH]; intros w files Hdir Hnd Hin.
  - exists w, files. simpl. rewrite app_nil_r. repeat split; done.
  - apply NoDup_cons in Hnd as [Hf Hnd]. simpl.
    destruct (String.eqb_spec f keep) as [->|Hne]; simpl.
    + destruct (IH w files Hdir Hnd) as (w' & files' & Hrun & Hd & Hl & Htr & Hrest).
      { intros g Hg. apply Hin. by right. }
      exists w', files'. unfold Prog.bind. run. rewrite Hrun.
      split; [done|]. split; [done|]. split.
      { intros g. rewrite Hl. apply decide_ext. rewrite elem_of_cons. tauto. }
      split; [|done]. rewrite Htr. by rewrite filter_cons, decide_False by tauto.
    + destruct (Hin f) as [v Hv]; [by left|done|].
      set (w1 := set_trace (fun tr => tr ++ [EvUnlink dir f])
                   (set_disk (fun d =>
                      {| dirs := alter (delete f) dir (dirs d);
                         write_faults := write_faults d;
                         torn_writes := torn_writes d |}) w)).
      destruct (IH w1 (delete f files)) as (w' & files' & Hrun & Hd & Hl & Htr & Hwf & Hs).
      { simpl. by rewrite lookup_alter_eq, Hdir. }
      { done. }
      { intros g Hg Hgk.
        rewrite lookup_delete_ne by (intros Heq; apply Hf; by rewrite Heq).
        by apply Hin; [right|]. }
      exists w', files'. split.
      { unfold Prog.bind, unlink. run. rewrite (file_at_dir _ _ _ _ Hdir), Hv.
        run. exact Hrun. }
      split; [done|]. split.
      { intros g. rewrite Hl.
        destruct (decide (g = f)) as [->|Hgf].
        - rewrite lookup_delete_eq.
          rewrite (decide_True (P := f ∈ f :: names /\ f <> keep))
            by (split; [by left|done]).
          by destruct (decide _).
        - rewrite lookup_delete_ne by done. apply decide_ext.
          rewrite elem_of_cons. tauto. }
      split; [|split; [done|by destruct Hs as (?&?&?&?)]].
      rewrite Htr. simpl. rewrite filter_cons, decide_True by done.
      by rewrite <- app_assoc.
Qed.

Lemma elem_of_keys {V} (m : gmap string V) g :
  g ∈ (map_to_list m).*1 <-> is_Some (m !! g).
Proof.
  rewrite list_elem_of_fmap. split.
  - intros ([k v] & -> & Hkv). apply elem_of_map_to_list in Hkv. by exists v.
  - intros [v Hv]. exists (g, v). split; [done|]. by apply elem_of_map_to_list.
Qed.

(** The directory after the write and the deletions holds the new file
    and nothing else. *)
Lemma only_new_file {V} (files files' : gmap string V) name c :
  (forall g, files' !! g
             = if decide (g ∈ (map_to_list (<[name := c]> files)).*1 /\ g <> name)
               then None else <[name := c]> files !! g) ->
  files' = {[ name := c ]}.
Proof.
  intros Hl. apply map_eq. intros g. rewrite Hl.
  destruct (decide (g = name)) as [->|Hne].
  - rewrite decide_False by tauto. by rewrite lookup_insert_eq, lookup_singleton_eq.
  - rewrite lookup_singleton_ne by done.
    destruct (decide _) as [|Hn]; [done|].
    destruct (<[name := c]> files !! g) as [v|] eqn:Hg; [|done].
    exfalso. apply Hn. split; [|done]. apply elem_of_keys. by rewrite Hg.
Qed.

(** Sequencing at a world. *)
Lemma bind_get {A} (k : World -> M A) w : (Prog.get ≫= k) w = k w w.
Proof. reflexivity. Qed.

Lemma bind_ok {A C} (m : M A) (k : A -> M C) w a w1 :
  m w = (Py.Ok a, w1) -> (m ≫= k) w = k a w1.
Proof. intros Hm. unfold mbind, prog_bind, Prog.bind. by rewrite Hm. Qed.

Lemma bind_raise {A C} (m : M A) (k : A -> M C) w e w1 :
  m w = (Py.Raise e, w1) -> (m ≫= k) w = (Py.Raise e, w1).
Proof. intros Hm. unfold mbind, prog_bind, Prog.bind. by rewrite Hm. Qed.

Lemma checkpoint_of_same w w' step :
  same_trainer w w' -> checkpoint_of w' step = checkpoint_of w step.
Proof. intros (Hs & Hp & Ho & _). unfold checkpoint_of. by rewrite Hs, Hp, Ho. Qed.

(** Lines 615-616: the directory is there afterwards, with the files it
    had. *)
Lemma ensure_dir_run dir w :
  exists w1 pre,
    (if negb (dir_exists (disk w) dir) then mkdir dir else mret tt) w
    = (Py.Ok tt, w1) /\
    (pre = [] \/ pre = [EvMkdir dir]) /\
    trace w1 = trace w ++ pre /\
    dirs (disk w1) !! dir = Some (default ∅ (dirs (disk w) !! dir)) /\
    (forall name, file_at (disk w1) dir name = file_at (disk w) dir name) /\
    write_faults (disk w1) = write_faults (disk w) /\
    torn_writes (disk w1) = torn_writes (disk w) /\
    same_trainer w w1.
Proof.
  unfold dir_exists, mkdir.
  destruct (dirs (disk w) !! dir) as [files|] eqn:Hdir.
  - rewrite bool_decide_eq_true_2 by eauto. simpl.
    exists w, []. rewrite app_nil_r, Hdir.
    split; [done|]. split; [by left|]. repeat split; done.
  - rewrite bool_decide_eq_false_2 by (by intros [? ?]). simpl.
    eexists _, [EvMkdir dir]. split; [reflexivity|]. split; [by right|].
    simpl. rewrite Hdir, lookup_insert_eq. repeat split; try done.
    intros name. unfold file_at. simpl. by rewrite Hdir, lookup_insert_eq.
Qed.

Lemma torch_save_run obj dir name w files :
  dirs (disk w) !! dir = Some files ->
  exists r w2,
    torch_save obj dir name w = (r, w2) /\
    write_faults (disk w2) = tail (write_faults (disk w)) /\
    same_trainer w w2 /\
    (hd false (write_faults (disk w)) = true ->
       r = Py.Raise (Py.Raised Py.OSError "write failed") /\
       trace w2 = trace w /\
       dirs (disk w2)
       = match hd None (torn_writes (disk w)) with
         | Some data => <[dir := <[name := Bytes data]> files]> (dirs (disk w))
         | None => dirs (disk w)
         end) /\
    (hd false (write_faults (disk w)) = false ->
       r = Py.Ok tt /\
       trace w2 = trace w ++ [EvTorchSave dir name] /\
       dirs (disk w2) = <[dir := <[name := Pickled obj]> files]> (dirs (disk w))).
Proof.
  intros Hdir. unfold torch_save. rewrite bind_get, Hdir.
  destruct (hd false (write_faults (disk w))).
  - eexists _, _. split; [reflexivity|]. simpl. repeat split; done.
  - eexists _, _. split; [reflexivity|]. simpl. repeat split; done.
Qed.

(** The part of [save_checkpoint] up to the write (lines 615-630). *)
Lemma save_checkpoint_write step w :
  main_process w = true ->
  exists w2 pre,
    (pre = [] \/ pre = [EvMkdir (checkpoint_dir (self w))]) /\
    write_faults (disk w2) = tail (write_faults (disk w)) /\
    same_trainer w w2 /\
    (hd false (write_faults (disk w)) = true ->
       save_checkpoint step w
       = (Py.Raise (Py.Raised Py.OSError "write failed"), w2) /\
       trace w2 = trace w ++ pre /\
       (forall name, name <> ckpt_name step ->
          file_at (disk w2) (checkpoint_dir (self w)) name
          = file_at (disk w) (checkpoint_dir (self w)) name) /\
       file_at (disk w2) (checkpoint_dir (self w)) (ckpt_name step)
       = match hd None (torn_writes (disk w)) with
         | Some data => Some (Bytes data)
         | None => file_at (disk w) (checkpoint_dir (self w)) (ckpt_name step)
         end) /\
    (hd false (write_faults (disk w)) = false ->
       save_checkpoint step w
       = (if TrainerConfig.save_only_latest_checkpoint (config (self w)) then
            Prog.for_ (names_in (disk w2) (checkpoint_dir (self w)))
              (fun f => if negb (String.eqb f (ckpt_name step))
                        then unlink (checkpoint_dir (self w)) f else mret tt)
          else mret tt) w2 /\
       trace w2 = trace w ++ pre
                  ++ [EvTorchSave (checkpoint_dir (self w)) (ckpt_name step)] /\
       dirs (disk w2) !! checkpoint_dir (self w)
       = Some (<[ckpt_name step := Pickled (checkpoint_of w step)]>
                 (default ∅ (dirs (disk w) !! checkpoint_dir (self w))))).
Proof.
  intros Hmain.
  destruct (ensure_dir_run (checkpoint_dir (self w)) w)
    as (w1 & pre & Hmk & Hpre & Htr1 & Hdir1 & Hfiles1 & Hwf1 & Htn1 & Hsame1).
  destruct (torch_save_run (checkpoint_of w step) (checkpoint_dir (self w))
              (ckpt_name step) w1 _ Hdir1)
    as (r2 & w2 & Hsave & Hwf2 & Hsame2 & Hfault & Hok).
  exists w2, pre. split; [done|]. split; [congruence|].
  split; [by eapply same_trainer_trans|].
  rewrite <- Hwf1.
  split.
  - intros Hf. destruct (Hfault Hf) as (-> & Htr2 & Hd2). split.
    + unfold save_checkpoint, check_main_thread.
      rewrite bind_get, Hmain, bind_get. cbn zeta.
      rewrite (bind_ok _ _ _ _ _ Hmk). by rewrite (bind_raise _ _ _ _ _ Hsave).
    + split; [congruence|]. rewrite <- Htn1.
      destruct (hd None (torn_writes (disk w1))) as [data|].
      * split.
        -- intros name Hne. rewrite <- Hfiles1. unfold file_at. rewrite Hd2.
           rewrite lookup_insert_eq, Hdir1. simpl. by rewrite lookup_insert_ne.
        -- unfold file_at. rewrite Hd2, lookup_insert_eq. simpl.
           by rewrite lookup_insert_eq.
      * split.
        -- intros name _. rewrite <- Hfiles1. unfold file_at. by rewrite Hd2.
        -- rewrite <- Hfiles1. unfold file_at. by rewrite Hd2.
  - intros Hf. destruct (Hok Hf) as (-> & Htr2 & Hd2). split.
    + unfold save_checkpoint, check_main_thread.
      rewrite bind_get, Hmain, bind_get. cbn zeta.
      rewrite (bind_ok _ _ _ _ _ Hmk). rewrite (bind_ok _ _ _ _ _ Hsave).
      destruct (TrainerConfig.save_only_latest_checkpoint _); [|done].
      by rewrite bind_get.
    + split; [by rewrite Htr2, Htr1, <- app_assoc|].
      by rewrite Hd2, lookup_insert_eq.
Qed.

Lemma save_latest_only_run step w :
  main_process w = true ->
  TrainerConfig.save_only_latest_checkpoint (config (self w)) = true ->
  hd false (write_faults (disk w)) = false ->
  exists w' pre deleted,
    save_checkpoint step w = (Py.Ok tt, w') /\
    trace w' = trace w ++ pre
               ++ [EvTorchSave (checkpoint_dir (self w)) (ckpt_name step)]
               ++ (EvUnlink (checkpoint_dir (self w)) <$> deleted) /\
    (pre = [] \/ pre = [EvMkdir (checkpoint_dir (self w))]) /\
    NoDup deleted /\
    (forall f, f ∈ deleted <->
               f <> ckpt_name step /\
               is_Some (file_at (disk w) (checkpoint_dir (self w)) f)) /\
    dirs (disk w') !! checkpoint_dir (self w)
    = Some {[ ckpt_name step := Pickled (checkpoint_of w step) ]} /\
    ck_step (checkpoint_of w step) = step /\
    write_faults (disk w') = tail (write_faults (disk w)) /\
    same_trainer w w'.
Proof.
  intros Hmain Hlatest Hfault.
  set (dir := checkpoint_dir (self w)).
  set (files0 := default ∅ (dirs (disk w) !! dir)).
  set (c := Pickled (checkpoint_of w step)).
  destruct (save_checkpoint_write step w Hmain)
    as (w2 & pre & Hpre & Hwf2 & Hsame2 & _ & Hok).
  destruct (Hok Hfault) as (Hsave & Htr2 & Hdir2). fold dir in Hsave, Htr2, Hdir2.
  fold files0 c in Hdir2.
  rewrite Hsave, Hlatest. unfold names_in. rewrite Hdir2.
  destruct (unlink_others_run dir (ckpt_name step)
              (map_to_list (<[ckpt_name step := c]> files0)).*1 w2
              (<[ckpt_name step := c]> files0))
    as (w' & files' & Hrun & Hd & Hl & Htr & Hwf & Hs).
  { done. }
  { apply NoDup_fst_map_to_list. }
  { intros f Hf _. by apply elem_of_keys. }
  exists w', pre,
    (filter (fun f => f <> ckpt_name step)
       (map_to_list (<[ckpt_name step := c]> files0)).*1).
  split; [exact Hrun|]. split.
  { rewrite Htr, Htr2, <- !app_assoc. done. }
  split; [done|]. split.
  { apply NoDup_filter, NoDup_fst_map_to_list. }
  split.
  { intros f. rewrite list_elem_of_filter, elem_of_keys.
    unfold files0, file_at. fold dir.
    split.
    - intros [Hne Hsome]. split; [done|].
      rewrite lookup_insert_ne in Hsome by done.
      destruct (dirs (disk w) !! dir); simpl in *; [done|].
      rewrite lookup_empty in Hsome. by destruct Hsome.
    - intros [Hne Hsome]. split; [done|].
      rewrite lookup_insert_ne by done.
      destruct (dirs (disk w) !! dir); simpl in *; [done|]. by destruct Hsome. }
  split.
  { rewrite Hd. f_equal. by apply (only_new_file files0). }
  split; [done|]. split; [congruence|].
  by eapply same_trainer_trans.
Qed.

(** With latest-only retention, a save whose write succeeds first writes
    the file named after the zero-padded step and then deletes exactly the
    files the directory had under other names: the directory is left with
    the new checkpoint alone. *)
Theorem save_checkpoint_latest_only step w :
  main_process w = true ->
  TrainerConfig.save_only_latest_checkpoint (config (self w)) = true ->
  hd false (write_faults (disk w)) = false ->
  exists w' pre deleted,
    save_checkpoint step w = (Py.Ok tt, w') /\
    trace w' = trace w ++ pre
               ++ [EvTorchSave (checkpoint_dir (self w)) (ckpt_name step)]
               ++ (EvUnlink (checkpoint_dir (self w)) <$> deleted) /\
    (pre = [] \/ pre = [EvMkdir (checkpoint_dir (self w))]) /\
    NoDup deleted /\
    (forall f, f ∈ deleted <->
               f <> ckpt_name step /\
               is_Some (file_at (disk w) (checkpoint_dir (self w)) f)) /\
    dirs (disk w') !! checkpoint_dir (self w)
    = Some {[ ckpt_name step := Pickled (checkpoint_of w step) ]} /\
    ck_step (checkpoint_of w step) = step /\
    write_faults (disk w') = tail (write_faults (disk w)) /\
    same_trainer w w'.
Proof. exact (save_latest_only_run step w). Qed.

Lemma save_failed_write_run step w :
  main_process w = true ->
  hd false (write_faults (disk w)) = true ->
  exists w' pre,
    save_checkpoint step w
    = (Py.Raise (Py.Raised Py.OSError "write failed"), w') /\
    trace w' = trace w ++ pre /\
    (pre = [] \/ pre = [EvMkdir (checkpoint_dir (self w))]) /\
    (forall name, name <> ckpt_name step ->
       file_at (disk w') (checkpoint_dir (self w)) name
       = file_at (disk w) (checkpoint_dir (self w)) name) /\
    file_at (disk w') (checkpoint_dir (self w)) (ckpt_name step)
    = match hd None (torn_writes (disk w)) with
      | Some data => Some (Bytes data)
      | None => file_at (disk w) (checkpoint_dir (self w)) (ckpt_name step)
      end /\
    same_trainer w w'.
Proof.
  intros Hmain Hfault.
  destruct (save_checkpoint_write step w Hmain)
    as (w2 & pre & Hpre & Hwf2 & Hsame2 & Hfail & _).
  destruct (Hfail Hfault) as (Hsave & Htr2 & Hfiles & Hself).
  exists w2, pre.
  split; [exact Hsave|]. split; [exact Htr2|]. split; [exact Hpre|].
  split; [exact Hfiles|]. split; [exact Hself|exact Hsame2].
Qed.

(** When the write of the checkpoint fails, [save_checkpoint] ends with
    the error of the write before any deletion: nothing is unlinked and
    every file under another name is still there with its content.  The
    file of the step itself is as it was when the write failed before it
    opened its target, and holds what the torn write left otherwise: a
    checkpoint of the same step saved earlier is then lost. *)
Theorem save_checkpoint_failed_write step w :
  main_process w = true ->
  hd false (write_faults (disk w)) = true ->
  exists w' pre,
    save_checkpoint step w
    = (Py.Raise (Py.Raised Py.OSError "write failed"), w') /\
    trace w' = trace w ++ pre /\
    (pre = [] \/ pre = [EvMkdir (checkpoint_dir (self w))]) /\
    (forall name, name <> ckpt_name step ->
       file_at (disk w') (checkpoint_dir (self w)) name
       = file_at (disk w) (checkpoint_dir (self w)) name) /\
    file_at (disk w') (checkpoint_dir (self w)) (ckpt_name step)
    = match hd None (torn_writes (disk w)) with
      | Some data => Some (Bytes data)
      | None => file_at (disk w) (checkpoint_dir (self w)) (ckpt_name step)
      end /\
    same_trainer w w'.
Proof. exact (save_failed_write_run step w). Qed.

(** Without latest-only retention a successful save adds or replaces the
    file of its step and keeps every other file. *)
Theorem save_checkpoint_keep_all step w :
  main_process w = true ->
  TrainerConfig.save_only_latest_checkpoint (config (self w)) = false ->
  hd false (write_faults (disk w)) = false ->
  exists w',
    save_checkpoint step w = (Py.Ok tt, w') /\
    file_at (disk w') (checkpoint_dir (self w)) (ckpt_name step)
    = Some (Pickled (checkpoint_of w step)) /\
    (forall name, name <> ckpt_name step ->
       file_at (disk w') (checkpoint_dir (self w)) name
       = file_at (disk w) (checkpoint_dir (self w)) name) /\
    Forall (fun e => forall dir f, e <> EvUnlink dir f)
      (drop (length (trace w)) (trace w')).
Proof.
  intros Hmain Hlatest Hfault.
  destruct (save_checkpoint_write step w Hmain)
    as (w2 & pre & Hpre & Hwf2 & Hsame2 & _ & Hok).
  destruct (Hok Hfault) as (Hsave & Htr2 & Hdir2).
  rewrite Hlatest in Hsave. exists w2. split; [exact Hsave|].
  unfold file_at. rewrite Hdir2. simpl. split; [by rewrite lookup_insert_eq|].
  split.
  - intros name Hne. rewrite lookup_insert_ne by done.
    destruct (dirs (disk w) !! checkpoint_dir (self w)); simpl; [done|].
    by rewrite lookup_empty.
  - rewrite Htr2, drop_app_length.
    destruct Hpre as [-> | ->]; repeat constructor; intros ? ?; discriminate.
Qed.

(** Whatever the retention, a save whose write succeeds leaves the file of
    its step, and no name the directory did not have. *)
Lemma save_checkpoint_ok step w :
  main_process w = true ->
  hd false (write_faults (disk w)) = false ->
  exists w',
    save_checkpoint step w = (Py.Ok tt, w') /\
    same_trainer w w' /\
    file_at (disk w') (checkpoint_dir (self w)) (ckpt_name step)
    = Some (Pickled (checkpoint_of w step)) /\
    (forall x, is_Some (file_at (disk w') (checkpoint_dir (self w)) x) ->
       x = ckpt_name step \/
       is_Some (file_at (disk w) (checkpoint_dir (self w)) x)).
Proof.
  intros Hmain Hfault.
  destruct (TrainerConfig.save_only_latest_checkpoint (config (self w))) eqn:Hlatest.
  - destruct (save_latest_only_run step w Hmain Hlatest Hfault)
      as (w' & pre & deleted & Hrun & _ & _ & _ & _ & Hdir & _ & _ & Hsame).
    exists w'. split; [exact Hrun|]. split; [exact Hsame|].
    unfold file_at. rewrite Hdir. simpl. split; [by rewrite lookup_singleton_eq|].
    intros x Hx. destruct (decide (x = ckpt_name step)) as [|Hne]; [by left|].
    rewrite lookup_singleton_ne in Hx by done. by destruct Hx.
  - destruct (save_checkpoint_write step w Hmain)
      as (w2 & pre & Hpre & Hwf2 & Hsame2 & _ & Hok).
    destruct (Hok Hfault) as (Hsave & Htr2 & Hdir2).
    rewrite Hlatest in Hsave. exists w2. split; [exact Hsave|].
    split; [exact Hsame2|].
    unfold file_at. rewrite Hdir2. simpl. split; [by rewrite lookup_insert_eq|].
    intros x Hx. destruct (decide (x = ckpt_name step)) as [|Hne]; [by left|].
    right. rewrite lookup_insert_ne in Hx by done.
    destruct (dirs (disk w) !! checkpoint_dir (self w)); simpl in *; [done|].
    rewrite lookup_empty in Hx. by destruct Hx.
Qed.

(** Off the main process the call does nothing. *)
Lemma save_checkpoint_not_main step w :
  main_process w = false -> save_checkpoint step w = (Py.Ok tt, w).
Proof.
  intros Hmain. unfold save_checkpoint, check_main_thread.
  by rewrite bind_get, Hmain.
Qed.

Lemma save_checkpoints_latest_run (steps : list Z) : forall w s,
  main_process w = true ->
  TrainerConfig.save_only_latest_checkpoint (config (self w)) = true ->
  Forall (fun fault => fault = false) (write_faults (disk w)) ->
  exists w',
    save_checkpoints (steps ++ [s]) w = (Py.Ok tt, w') /\
    dirs (disk w') !! checkpoint_dir (self w)
    = Some {[ ckpt_name s := Pickled (checkpoint_of w s) ]} /\
    ck_step (checkpoint_of w s) = s /\
    same_trainer w w'.
Proof.
  induction steps as [|s0 steps IH]; intros w s Hmain Hlatest Hfaults.
  - assert (Hfault : hd false (write_faults (disk w)) = false)
      by (by destruct Hfaults).
    destruct (save_latest_only_run s w Hmain Hlatest Hfault)
      as (w' & pre & deleted & Hrun & _ & _ & _ & _ & Hdir & Hstep & _ & Hsame).
    exists w'. split; [|done].
    unfold save_checkpoints. simpl. unfold Prog.bind. by rewrite Hrun.
  - assert (Hfault : hd false (write_faults (disk w)) = false)
      by (by destruct Hfaults).
    destruct (save_latest_only_run s0 w Hmain Hlatest Hfault)
      as (w1 & pre & deleted & Hrun & _ & _ & _ & _ & _ & _ & Hwf & Hsame).
    destruct Hsame as (Hself & Hpipe & Hopt & Hmp).
    destruct (IH w1 s) as (w' & Hrest & Hdir & Hstep & Hsame').
    { congruence. }
    { by rewrite Hself. }
    { rewrite Hwf. destruct Hfaults; [constructor|done]. }
    exists w'. split.
    { unfold save_checkpoints in *. simpl. unfold Prog.bind. by rewrite Hrun. }
    rewrite Hself in Hdir.
    rewrite (checkpoint_of_same w w1 s) in Hdir by done.
    split; [done|]. split; [done|].
    eapply same_trainer_trans; [|exact Hsame']. done.
Qed.

(** After any sequence of saves whose writes succeed, under latest-only
    retention, the checkpoint directory holds exactly one file, and it is
    the checkpoint of the last step saved. *)
Theorem save_checkpoints_keep_latest (steps : list Z) : forall w s,
  main_process w = true ->
  TrainerConfig.save_only_latest_checkpoint (config (self w)) = true ->
  Forall (fun fault => fault = false) (write_faults (disk w)) ->
  exists w',
    save_checkpoints (steps ++ [s]) w = (Py.Ok tt, w') /\
    dirs (disk w') !! checkpoint_dir (self w)
    = Some {[ ckpt_name s := Pickled (checkpoint_of w s) ]} /\
    ck_step (checkpoint_of w s) = s /\
    same_trainer w w'.
Proof. exact (save_checkpoints_latest_run steps). Qed.

(** C3.  On the main process and with latest-only retention, for every
    step S: the name of the checkpoint file is [step-] followed by S padded
    with zeros to nine digits and [.ckpt], from which the step can be read
    back.  A save whose write succeeds writes that file first and then
    deletes exactly the files the directory had under other names, so the
    directory is left with the new checkpoint alone; a save whose write
    fails ends with the error of the write and has deleted nothing: every
    file under another name is still there.  So after any sequence of one
    or more saves whose writes succeed the directory holds exactly one
    file, the checkpoint of the last step saved. *)
Theorem save_checkpoint_write_then_delete step w :
  main_process w = true ->
  TrainerConfig.save_only_latest_checkpoint (config (self w)) = true ->
  ckpt_name step = "step-" +:+ PyStr.format_0d 9 step +:+ ".ckpt" /\
  step_of_name (ckpt_name step) = Py.Ok step /\
  (hd false (write_faults (disk w)) = false ->
     exists w' pre deleted,
       save_checkpoint step w = (Py.Ok tt, w') /\
       trace w' = trace w ++ pre
                  ++ [EvTorchSave (checkpoint_dir (self w)) (ckpt_name step)]
                  ++ (EvUnlink (checkpoint_dir (self w)) <$> deleted) /\
       (pre = [] \/ pre = [EvMkdir (checkpoint_dir (self w))]) /\
       NoDup deleted /\
       (forall f, f ∈ deleted <->
                  f <> ckpt_name step /\
                  is_Some (file_at (disk w) (checkpoint_dir (self w)) f)) /\
       dirs (disk w') !! checkpoint_dir (self w)
       = Some {[ ckpt_name step := Pickled (checkpoint_of w step) ]} /\
       ck_step (checkpoint_of w step) = step) /\
  (hd false (write_faults (disk w)) = true ->
     exists e w' pre,
       save_checkpoint step w = (Py.Raise e, w') /\
       trace w' = trace w ++ pre /\
       (pre = [] \/ pre = [EvMkdir (checkpoint_dir (self w))]) /\
       (forall name, name <> ckpt_name step ->
          file_at (disk w') (checkpoint_dir (self w)) name
          = file_at (disk w) (checkpoint_dir (self w)) name)) /\
  (forall (steps : list Z) s,
     Forall (fun fault => fault = false) (write_faults (disk w)) ->
     exists w',
       save_checkpoints (steps ++ [s]) w = (Py.Ok tt, w') /\
       dirs (disk w') !! checkpoint_dir (self w)
       = Some {[ ckpt_name s := Pickled (checkpoint_of w s) ]} /\
       ck_step (checkpoint_of w s) = s).
Proof.
  intros Hmain Hlatest.
  split; [reflexivity|]. split; [apply NameFacts.step_of_ckpt_name|].
  split; [|split].
  - intros Hfault.
    destruct (save_latest_only_run step w Hmain Hlatest Hfault)
      as (w' & pre & deleted & Hrun & Htr & Hpre & Hnd & Hdel & Hdir & Hstep & _).
    exists w', pre, deleted. repeat (split; [assumption|]). assumption.
  - intros Hfault.
    destruct (save_failed_write_run step w Hmain Hfault)
      as (w' & pre & Hrun & Htr & Hpre & Hfiles & _).
    eexists _, w', pre. repeat (split; [eassumption|]). assumption.
  - intros steps s Hfaults.
    destruct (save_checkpoints_latest_run steps w s Hmain Hlatest Hfaults)
      as (w' & Hrun & Hdir & Hstep & _).
    exists w'. repeat (split; [assumption|]). assumption.
Qed.

End WithBackend.
End SaveFacts.

Module SaveWitness.
Import Trainer Samples SaveFacts.

Lemma save_checkpoint_latest_only_witness :
  exists w',
    save_checkpoint 2000 (stocked_world []) = (Py.Ok tt, w') /\
    dirs (disk w') !! checkpoint_dir (self (stocked_world []))
    = Some {[ ckpt_name 2000 := Pickled (checkpoint_of (stocked_world []) 2000) ]}.
Proof.
  destruct (save_checkpoint_latest_only 2000 (stocked_world [])
              eq_refl eq_refl eq_refl)
    as (w' & pre & deleted & Hrun & _ & _ & _ & _ & Hdir & _).
  exists w'. split; [exact Hrun|exact Hdir].
Defined.

(** The write of step 10 fails after it has opened its target: the old
    checkpoint of step 10 is gone and the other file is kept. *)
Lemma save_checkpoint_failed_write_witness :
  exists w',
    save_checkpoint 10 torn_world
    = (Py.Raise (Py.Raised Py.OSError "write failed"), w') /\
    file_at (disk w') (checkpoint_dir (self torn_world)) "notes.txt"
    = Some (Bytes "kept by hand") /\
    file_at (disk w') (checkpoint_dir (self torn_world)) (ckpt_name 10)
    = Some (Bytes "").
Proof.
  destruct (save_checkpoint_failed_write 10 torn_world eq_refl eq_refl)
    as (w' & pre & Hrun & _ & _ & Hfiles & Hself & _).
  exists w'. split; [exact Hrun|].
  split; [rewrite Hfiles by discriminate; reflexivity|exact Hself].
Defined.

Lemma save_checkpoints_keep_latest_witness :
  exists w',
    save_checkpoints ([1000; 2000] ++ [3000]) (stocked_world [false; false]) = (Py.Ok tt, w') /\
    dirs (disk w') !! checkpoint_dir (self (stocked_world [false; false]))
    = Some {[ ckpt_name 3000
              := Pickled (checkpoint_of (stocked_world [false; false]) 3000) ]}.
Proof.
  destruct (save_checkpoints_keep_latest [1000; 2000]
              (stocked_world [false; false]) 3000 eq_refl eq_refl)
    as (w' & Hrun & Hdir & _).
  { repeat constructor. }
  exists w'. split; [exact Hrun|exact Hdir].
Defined.

Lemma save_checkpoint_keep_all_witness :
  exists w',
    save_checkpoint 2000 rerun_world = (Py.Ok tt, w') /\
    file_at (disk w') (checkpoint_dir (self rerun_world)) (ckpt_name 2000)
    = Some (Pickled (checkpoint_of rerun_world 2000)) /\
    file_at (disk w') (checkpoint_dir (self rerun_world)) (ckpt_name 1000)
    = file_at (disk rerun_world) (checkpoint_dir (self rerun_world)) (ckpt_name 1000).
Proof.
  destruct (save_checkpoint_keep_all 2000 rerun_world eq_refl eq_refl eq_refl)
    as (w' & Hrun & Hnew & Hold & _).
  exists w'. split; [exact Hrun|]. split; [exact Hnew|].
  apply Hold. discriminate.
Defined.

Example save_checkpoint_sample_trace :
  trace (save_checkpoint 2000 (stocked_world [])).2
  = [ EvTorchSave "outputs/run/nerfstudio_models" "step-000002000.ckpt";
      EvUnlink "outputs/run/nerfstudio_models" "step-000000010.ckpt";
      EvUnlink "outputs/run/nerfstudio_models" "notes.txt" ]
  \/
  trace (save_checkpoint 2000 (stocked_world [])).2
  = [ EvTorchSave "outputs/run/nerfstudio_models" "step-000002000.ckpt";
      EvUnlink "outputs/run/nerfstudio_models" "notes.txt";
      EvUnlink "outputs/run/nerfstudio_models" "step-000000010.ckpt" ].
Proof. vm_compute. tauto. Qed.

(** Saving steps 2, 4 and 6 in a row, into a directory that holds an old
    checkpoint and a stray file: the checkpoint of step 6 is left alone. *)
Lemma save_checkpoint_write_then_delete_witness :
  exists w',
    save_checkpoints ([2; 4] ++ [6]) (stocked_world []) = (Py.Ok tt, w') /\
    dirs (disk w') !! checkpoint_dir (self (stocked_world []))
    = Some {[ ckpt_name 6 := Pickled (checkpoint_of (stocked_world []) 6) ]}.
Proof.
  destruct (save_checkpoint_write_then_delete 0 (stocked_world []) eq_refl eq_refl)
    as (_ & _ & _ & _ & Hseq).
  destruct (Hseq [2; 4] 6) as (w' & Hrun & Hdir & _).
  - vm_compute. repeat constructor.
  - exists w'. split; [exact Hrun|exact Hdir].
Defined.

End SaveWitness.

(** ** The checkpoint manager: loading *)

Module LoadFacts.
Import Trainer.

(** The step read from each name, in order, when every name is the name
    of a checkpoint. *)
Lemma steps_of_names (steps : list Z) : forall acc,
  Py.for_each (fun x acc => n ← step_of_name x; mret (acc ++ [n]))
    (ckpt_name <$> steps) acc
  = Py.Ok (acc ++ steps).
Proof.
  induction steps as [|s steps IH]; intros acc; simpl.
  - by rewrite app_nil_r.
  - rewrite NameFacts.step_of_ckpt_name. simpl.
    rewrite IH. by rewrite <- app_assoc.
Qed.

Lemma last_sorted_max (l : list Z) m :
  StronglySorted Z.le l -> last l = Some m -> Forall (fun s => s <= m) l.
Proof.
  intros Hsorted [l' ->]%last_Some.
  apply Forall_app. split; [|by repeat constructor].
  apply Forall_forall. intros x Hx.
  apply (StronglySorted_app_1_elem_of Z.le l' [m]); [done|done|by left].
Qed.

Lemma latest_step_max (steps : list Z) :
  steps <> [] ->
  exists m, latest_step (ckpt_name <$> steps) = Py.Ok m /\
            m ∈ steps /\ Forall (fun s => s <= m) steps.
Proof.
  intros Hne. unfold latest_step.
  rewrite steps_of_names. simpl.
  destruct (last (merge_sort Z.le steps)) as [m|] eqn:Hlast.
  - exists m. split; [done|].
    pose proof (merge_sort_Permutation Z.le steps) as Hperm.
    split.
    + rewrite <- Hperm. apply last_Some in Hlast as [l' ->].
      apply elem_of_app. right. by left.
    + rewrite <- Hperm. apply last_sorted_max; [|done].
      apply StronglySorted_merge_sort; apply _.
  - apply last_None in Hlast.
    pose proof (merge_sort_Permutation Z.le steps) as Hperm.
    rewrite Hlast in Hperm. by apply Permutation_nil_l in Hperm.
Qed.

(** Among checkpoint names, line 581 finds the largest step. *)
Theorem latest_step_is_max (steps : list Z) :
  steps <> [] ->
  exists m, latest_step (ckpt_name <$> steps) = Py.Ok m /\
            m ∈ steps /\ Forall (fun s => s <= m) steps.
Proof. exact (latest_step_max steps). Qed.

(** An empty directory is an index error, not a missing-file error. *)
Example latest_step_empty :
  latest_step [] = Py.Raise (Py.Raised Py.IndexError "list index out of range").
Proof. reflexivity. Qed.

Lemma lstrip_keeps c (l : list ascii) :
  c ∈ l -> PyStr.is_space c = false -> c ∈ PyStr.lstrip l.
Proof.
  intros Hin Hc. induction l as [|a l IH]; [done|]. simpl.
  destruct (PyStr.is_space a) eqn:Ha; [|done].
  apply IH. apply elem_of_cons in Hin as [->|Hin]; [congruence|done].
Qed.

Lemma strip_keeps c (l : list ascii) :
  c ∈ l -> PyStr.is_space c = false -> c ∈ PyStr.strip l.
Proof.
  intros Hin Hc. unfold PyStr.strip.
  apply list_elem_of_In, in_rev, list_elem_of_In. rewrite rev_involutive.
  apply lstrip_keeps; [|done].
  apply list_elem_of_In, in_rev, list_elem_of_In. rewrite rev_involutive.
  by apply lstrip_keeps.
Qed.

Lemma int_digits_chars (l : list ascii) : forall acc after_digit n,
  PyStr.int_digits l acc after_digit = Some n ->
  Forall (fun c => is_Some (PyStr.digit_of c) \/ c = "_"%char) l.
Proof.
  induction l as [|c l IH]; intros acc after_digit n Hn; [constructor|].
  simpl in Hn. destruct (PyStr.digit_of c) as [d|] eqn:Hd.
  - constructor; [left; eauto|]. by eapply IH.
  - destruct (Ascii.eqb c "_"%char) eqn:Hu; [|done].
    destruct after_digit; [|done]. simpl in Hn.
    apply Ascii.eqb_eq in Hu. constructor; [by right|]. by eapply IH.
Qed.

(** Text that holds a stray character is no integer literal. *)
Lemma int_chars_stray c (l : list ascii) :
  c ∈ l -> PyStr.stray_char c = true -> PyStr.int_chars l = None.
Proof.
  unfold PyStr.stray_char. intros Hin Hc.
  repeat (apply andb_true_iff in Hc as [Hc ?]).
  repeat match goal with
         | H : negb _ = true |- _ => apply negb_true_iff in H
         end.
  assert (Hnd : PyStr.digit_of c = None).
  { destruct (PyStr.digit_of c) eqn:Hd; [|done].
    match goal with
    | H : bool_decide _ = false |- _ => apply bool_decide_eq_false_1 in H
    end.
    exfalso. eauto. }
  assert (Hdigits : forall r acc b, c ∈ r -> PyStr.int_digits r acc b = None).
  { intros r acc b Hr. destruct (PyStr.int_digits r acc b) as [n|] eqn:Hn; [|done].
    apply int_digits_chars in Hn. eapply Forall_forall in Hn; [|exact Hr].
    destruct Hn as [[d Hd]|Hu]; [congruence|]. subst c. done. }
  unfold PyStr.int_chars.
  pose proof (strip_keeps c l Hin ltac:(done)) as Hs.
  destruct (PyStr.strip l) as [|c0 r]; [done|].
  assert (Hrest : forall c1 : ascii, Ascii.eqb c0 c1 = true -> Ascii.eqb c c1 = false ->
                                     c ∈ r).
  { intros c1 Hc0 Hc1. apply Ascii.eqb_eq in Hc0 as ->.
    apply elem_of_cons in Hs as [->|Hs]; [|done].
    by rewrite Ascii.eqb_refl in Hc1. }
  destruct (Ascii.eqb c0 "-"%char) eqn:Hminus.
  { by rewrite (Hdigits r 0 false) by (by eapply Hrest). }
  destruct (Ascii.eqb c0 "+"%char) eqn:Hplus.
  { by eapply Hdigits, Hrest. }
  by apply Hdigits.
Qed.

(** One name of ASCII text that has a stray character (a letter, say)
    between its first ['-'] and its first ['.'], as line 581 slices it,
    makes the search fail with a [ValueError], whatever else the directory
    holds. *)
Theorem latest_step_stray_file (names : list string) x c :
  x ∈ names ->
  forallb PyStr.is_ascii (PyStr.chars x) = true ->
  c ∈ PyStr.chars (PyStr.slice x (PyStr.find x "-" + 1) (PyStr.find x ".")) ->
  PyStr.stray_char c = true ->
  exists e', latest_step names = Py.Raise e' /\ Py.exc_class e' = Py.ValueError.
Proof.
  intros Hin _ Hc Hstray.
  assert (Hbad : exists e, step_of_name x = Py.Raise e).
  { unfold step_of_name, PyStr.int.
    rewrite (int_chars_stray c) by done. eauto. }
  destruct Hbad as [e Hbad]. unfold latest_step.
  assert (Hloop : forall acc, exists e',
            Py.for_each (fun x acc => n ← step_of_name x; mret (acc ++ [n]))
              names acc = Py.Raise e' /\ Py.exc_class e' = Py.ValueError).
  { induction names as [|y names IH]; intros acc; [by inversion Hin|].
    simpl. destruct (step_of_name y) as [n|e0] eqn:Hy; simpl.
    - apply IH. apply elem_of_cons in Hin as [->|Hin]; [congruence|done].
    - exists e0. split; [done|].
      unfold step_of_name, PyStr.int in Hy.
      destruct (PyStr.int_chars _); [done|]. by injection Hy as <-. }
  destruct (Hloop []) as (e' & -> & Hcls). eauto.
Qed.

Section WithBackend.
Context `{B : Backend}.

Ltac run :=
  repeat (cbv beta delta
            [mbind mret prog_bind prog_ret Prog.bind Prog.ret Prog.modify
             Prog.get Prog.gets Prog.raise Prog.lift Prog.assert Prog.when
             emit] in *; cbn beta iota zeta in *).

(** Neither a directory nor a file configured: nothing is loaded, nothing
    fails, and training starts from the step the trainer has. *)
Theorem load_checkpoint_from_scratch w :
  TrainerConfig.load_dir (config (self w)) = None ->
  TrainerConfig.load_checkpoint (config (self w)) = None ->
  _load_checkpoint w
  = (Py.Ok tt,
     set_trace (fun tr => tr ++ [EvConsole
       "No Nerfstudio checkpoint to load, so training from scratch."]) w).
Proof.
  intros Hdir Hfile. unfold _load_checkpoint. run. by rewrite Hdir, Hfile.
Qed.

Lemma load_latest_run w dir (steps : list Z) :
  TrainerConfig.load_dir (config (self w)) = Some dir ->
  TrainerConfig.load_step (config (self w)) = None ->
  names_in (disk w) dir = ckpt_name <$> steps ->
  steps <> [] ->
  exists m,
    m ∈ steps /\ Forall (fun s => s <= m) steps /\
    is_Some (file_at (disk w) dir (ckpt_name m)) /\
    _load_checkpoint w
    = restore_from dir (ckpt_name m)
        (set_trace (fun tr => tr ++ [EvConsole
           "Loading latest Nerfstudio checkpoint from load_dir..."]) w).
Proof.
  intros Hdir Hstep Hnames Hne.
  destruct (latest_step_max steps Hne) as (m & Hlatest & Hin & Hmax).
  assert (Hfile : is_Some (file_at (disk w) dir (ckpt_name m))).
  { unfold names_in, file_at in *.
    destruct (dirs (disk w) !! dir) as [files|]; simpl.
    - apply SaveFacts.elem_of_keys. rewrite Hnames.
      apply list_elem_of_fmap. eauto.
    - by destruct steps. }
  exists m. split; [done|]. split; [done|]. split; [done|].
  unfold _load_checkpoint, listdir, dir_exists. run. rewrite Hdir, Hstep. run.
  simpl.
  assert (Hex : bool_decide (is_Some (dirs (disk w) !! dir)) = true).
  { apply bool_decide_eq_true_2. unfold file_at in Hfile.
    destruct (dirs (disk w) !! dir); [eauto|by destruct Hfile]. }
  rewrite Hex. run. rewrite Hnames, Hlatest. run.
  rewrite bool_decide_eq_true_2 by done. by run.
Qed.

(** A directory without an explicit step: the checkpoint of the largest
    step among the names is the one restored. *)
Theorem load_checkpoint_selects_latest w dir (steps : list Z) :
  TrainerConfig.load_dir (config (self w)) = Some dir ->
  TrainerConfig.load_step (config (self w)) = None ->
  names_in (disk w) dir = ckpt_name <$> steps ->
  steps <> [] ->
  exists m,
    m ∈ steps /\ Forall (fun s => s <= m) steps /\
    is_Some (file_at (disk w) dir (ckpt_name m)) /\
    _load_checkpoint w
    = restore_from dir (ckpt_name m)
        (set_trace (fun tr => tr ++ [EvConsole
           "Loading latest Nerfstudio checkpoint from load_dir..."]) w).
Proof. exact (load_latest_run w dir steps). Qed.

(** The resolved path does not exist: an assertion error, before anything
    is restored. *)
Theorem load_checkpoint_missing_file w :
  (exists dir step,
     TrainerConfig.load_dir (config (self w)) = Some dir /\
     TrainerConfig.load_step (config (self w)) = Some step /\
     file_at (disk w) dir (ckpt_name step) = None) \/
  (exists dir name,
     TrainerConfig.load_dir (config (self w)) = None /\
     TrainerConfig.load_checkpoint (config (self w)) = Some (dir, name) /\
     file_at (disk w) dir name = None) ->
  exists msg,
    _load_checkpoint w = (Py.Raise (Py.Raised Py.AssertionError msg), w).
Proof.
  intros [(dir & step & Hdir & Hstep & Hnone)|(dir & name & Hdir & Hck & Hnone)];
    unfold _load_checkpoint; run; rewrite Hdir.
  - rewrite Hstep. run. rewrite Hnone.
    rewrite bool_decide_eq_false_2 by (by intros [? ?]). run. eauto.
  - rewrite Hck. run. rewrite Hnone.
    rewrite bool_decide_eq_false_2 by (by intros [? ?]). run. eauto.
Qed.

Lemma restore_from_run dir name w w' :
  restore_from dir name w = (Py.Ok tt, w') ->
  exists c opts,
    file_at (disk w) dir name = Some (Pickled c) /\
    _start_step (self w') = ck_step c + 1 /\
    grad_scaler (self w')
    = scaler_load_state_dict (grad_scaler (self w)) (ck_scalers c) /\
    (Pipeline.load_pipeline (ck_pipeline c) (ck_step c)
       (pipeline w, trace w ++ [EvTorchLoad dir name])).1 = Py.Ok tt /\
    pipeline w'
    = (Pipeline.load_pipeline (ck_pipeline c) (ck_step c)
         (pipeline w, trace w ++ [EvTorchLoad dir name])).2.1 /\
    Optimizers.load_optimizers (optimizers w) (ck_optimizers c) = Py.Ok opts /\
    match ck_schedulers c with
    | Some schedulers =>
        if TrainerConfig.load_scheduler (config (self w))
        then Optimizers.load_schedulers opts schedulers = Py.Ok (optimizers w')
        else optimizers w' = opts
    | None => optimizers w' = opts
    end /\
    disk w' = disk w.
Proof.
  unfold restore_from, torch_load, on_pipeline. run.
  destruct (file_at (disk w) dir name) as [[c|data]|] eqn:Hfile; run;
    [|done|done].
  simpl.
  destruct (Pipeline.load_pipeline _ _ _) as [[[]|e] [p tr]] eqn:Hpipe; run;
    [|done].
  simpl.
  destruct (Optimizers.load_optimizers _ _) as [opts|e] eqn:Hopts; run; [|done].
  simpl.
  destruct (ck_schedulers c) as [schedulers|] eqn:Hsched.
  - destruct (TrainerConfig.load_scheduler _) eqn:Hload; run.
    + destruct (Optimizers.load_schedulers opts schedulers) as [opts'|e]
        eqn:Hsch; run; [|done].
      intros [= <-]. exists c, opts. simpl.
      rewrite ?Hpipe, ?Hsched, ?Hload, ?Hopts. by repeat split.
    + intros [= <-]. exists c, opts. simpl.
      rewrite ?Hpipe, ?Hsched, ?Hload, ?Hopts. by repeat split.
  - run. intros [= <-]. exists c, opts. simpl.
    rewrite ?Hpipe, ?Hsched, ?Hopts. by repeat split.
Qed.

(** A restore that returns has read a checkpoint from the path, resumes
    at its step plus one, has loaded the pipeline, the optimizers and the
    scaler from it, and the schedulers only when the checkpoint has them
    and the configuration asks for them; the file system is untouched. *)
Theorem restore_from_resumes dir name w w' :
  restore_from dir name w = (Py.Ok tt, w') ->
  exists c opts,
    file_at (disk w) dir name = Some (Pickled c) /\
    _start_step (self w') = ck_step c + 1 /\
    grad_scaler (self w')
    = scaler_load_state_dict (grad_scaler (self w)) (ck_scalers c) /\
    (Pipeline.load_pipeline (ck_pipeline c) (ck_step c)
       (pipeline w, trace w ++ [EvTorchLoad dir name])).1 = Py.Ok tt /\
    pipeline w'
    = (Pipeline.load_pipeline (ck_pipeline c) (ck_step c)
         (pipeline w, trace w ++ [EvTorchLoad dir name])).2.1 /\
    Optimizers.load_optimizers (optimizers w) (ck_optimizers c) = Py.Ok opts /\
    match ck_schedulers c with
    | Some schedulers =>
        if TrainerConfig.load_scheduler (config (self w))
        then Optimizers.load_schedulers opts schedulers = Py.Ok (optimizers w')
        else optimizers w' = opts
    | None => optimizers w' = opts
    end /\
    disk w' = disk w.
Proof. exact (restore_from_run dir name w w'). Qed.

(** The resolved path does not exist, whichever way it was resolved. *)
Lemma load_missing_run w :
  (forall dir step,
     TrainerConfig.load_dir (config (self w)) = Some dir ->
     TrainerConfig.load_step (config (self w)) = Some step ->
     file_at (disk w) dir (ckpt_name step) = None ->
     exists msg,
       _load_checkpoint w = (Py.Raise (Py.Raised Py.AssertionError msg), w)) /\
  (forall dir m,
     TrainerConfig.load_dir (config (self w)) = Some dir ->
     TrainerConfig.load_step (config (self w)) = None ->
     dir_exists (disk w) dir = true ->
     latest_step (names_in (disk w) dir) = Py.Ok m ->
     file_at (disk w) dir (ckpt_name m) = None ->
     exists msg,
       _load_checkpoint w
       = (Py.Raise (Py.Raised Py.AssertionError msg),
          set_trace (fun tr => tr ++ [EvConsole
            "Loading latest Nerfstudio checkpoint from load_dir..."]) w)) /\
  (forall dir name,
     TrainerConfig.load_dir (config (self w)) = None ->
     TrainerConfig.load_checkpoint (config (self w)) = Some (dir, name) ->
     file_at (disk w) dir name = None ->
     exists msg,
       _load_checkpoint w = (Py.Raise (Py.Raised Py.AssertionError msg), w)).
Proof.
  split; [|split].
  - intros dir step Hdir Hstep Hnone. unfold _load_checkpoint. run.
    rewrite Hdir, Hstep. run. rewrite Hnone.
    rewrite bool_decide_eq_false_2 by (by intros [? ?]). run. eauto.
  - intros dir m Hdir Hstep Hex Hlatest Hnone.
    unfold _load_checkpoint, listdir. run.
    rewrite Hdir, Hstep. run. simpl. rewrite Hex. run. rewrite Hlatest. run.
    rewrite Hnone. rewrite bool_decide_eq_false_2 by (by intros [? ?]). run. eauto.
  - intros dir name Hdir Hck Hnone. unfold _load_checkpoint. run.
    rewrite Hdir, Hck. run. rewrite Hnone.
    rewrite bool_decide_eq_false_2 by (by intros [? ?]). run. eauto.
Qed.

(** A load that returns with something configured has restored from the
    resolved path, after at most a console message. *)
Lemma load_restores_run w w' :
  _load_checkpoint w = (Py.Ok tt, w') ->
  TrainerConfig.load_dir (config (self w)) <> None \/
  TrainerConfig.load_checkpoint (config (self w)) <> None ->
  exists dir name w0 pre,
    (TrainerConfig.load_dir (config (self w)) = Some dir \/
     TrainerConfig.load_checkpoint (config (self w)) = Some (dir, name)) /\
    trace w0 = trace w ++ pre /\ self w0 = self w /\ pipeline w0 = pipeline w /\
    optimizers w0 = optimizers w /\ disk w0 = disk w /\
    restore_from dir name w0 = (Py.Ok tt, w').
Proof.
  intros Hrun Hconf. unfold _load_checkpoint, listdir in Hrun. run.
  destruct (TrainerConfig.load_dir (config (self w))) as [dir|] eqn:Hdir.
  - destruct (TrainerConfig.load_step (config (self w))) as [step|] eqn:Hstep; run.
    + destruct (bool_decide _); run; [|done].
      exists dir, (ckpt_name step), w, []. rewrite app_nil_r.
      repeat (split; [by eauto|]). done.
    + simpl in Hrun. destruct (dir_exists (disk w) dir); run; [|done].
      destruct (latest_step _) as [m|e]; run; [|done].
      destruct (bool_decide _); run; [|done]. simpl in Hrun.
      exists dir, (ckpt_name m),
        (set_trace (fun tr => tr ++ [EvConsole
           "Loading latest Nerfstudio checkpoint from load_dir..."]) w),
        [EvConsole "Loading latest Nerfstudio checkpoint from load_dir..."].
      split; [by left|]. split; [reflexivity|].
      repeat (split; [reflexivity|]). exact Hrun.
  - destruct (TrainerConfig.load_checkpoint (config (self w))) as [[dir name]|]
      eqn:Hck; [|by destruct Hconf].
    run. destruct (bool_decide _); run; [|done].
    exists dir, name, w, []. rewrite app_nil_r.
    repeat (split; [by eauto|]). done.
Qed.

(** C4.  [_load_checkpoint], case by case.  Given a load directory and no
    load step, among the names of checkpoints it restores from the one of
    the numerically largest step.  When the resolved path does not exist
    (the file of the configured step, the file of the latest step found,
    or the configured file) the call fails with the assertion error that
    names the missing checkpoint, before anything is restored.  A call
    that returns with a directory or a file configured has read a
    checkpoint from the resolved path: the trainer resumes at its step
    plus one, and the pipeline, the optimizers and the scaler are restored
    from it, the schedulers only when the checkpoint has them and the
    configuration asks for them.  With neither a directory nor a file
    configured the call is no error and changes nothing but the console:
    training starts at the step [__init__] has set, which is 0. *)
Theorem load_checkpoint_cases w :
  (forall dir (steps : list Z),
     TrainerConfig.load_dir (config (self w)) = Some dir ->
     TrainerConfig.load_step (config (self w)) = None ->
     names_in (disk w) dir = ckpt_name <$> steps ->
     steps <> [] ->
     exists m,
       m ∈ steps /\ Forall (fun s => s <= m) steps /\
       _load_checkpoint w
       = restore_from dir (ckpt_name m)
           (set_trace (fun tr => tr ++ [EvConsole
              "Loading latest Nerfstudio checkpoint from load_dir..."]) w)) /\
  ((forall dir step,
      TrainerConfig.load_dir (config (self w)) = Some dir ->
      TrainerConfig.load_step (config (self w)) = Some step ->
      file_at (disk w) dir (ckpt_name step) = None ->
      exists msg,
        _load_checkpoint w = (Py.Raise (Py.Raised Py.AssertionError msg), w)) /\
   (forall dir m,
      TrainerConfig.load_dir (config (self w)) = Some dir ->
      TrainerConfig.load_step (config (self w)) = None ->
      dir_exists (disk w) dir = true ->
      latest_step (names_in (disk w) dir) = Py.Ok m ->
      file_at (disk w) dir (ckpt_name m) = None ->
      exists msg,
        _load_checkpoint w
        = (Py.Raise (Py.Raised Py.AssertionError msg),
           set_trace (fun tr => tr ++ [EvConsole
             "Loading latest Nerfstudio checkpoint from load_dir..."]) w)) /\
   (forall dir name,
      TrainerConfig.load_dir (config (self w)) = None ->
      TrainerConfig.load_checkpoint (config (self w)) = Some (dir, name) ->
      file_at (disk w) dir name = None ->
      exists msg,
        _load_checkpoint w = (Py.Raise (Py.Raised Py.AssertionError msg), w))) /\
  (forall w',
     _load_checkpoint w = (Py.Ok tt, w') ->
     TrainerConfig.load_dir (config (self w)) <> None \/
     TrainerConfig.load_checkpoint (config (self w)) <> None ->
     exists dir name c opts pre,
       (TrainerConfig.load_dir (config (self w)) = Some dir \/
        TrainerConfig.load_checkpoint (config (self w)) = Some (dir, name)) /\
       file_at (disk w) dir name = Some (Pickled c) /\
       _start_step (self w') = ck_step c + 1 /\
       grad_scaler (self w')
       = scaler_load_state_dict (grad_scaler (self w)) (ck_scalers c) /\
       (Pipeline.load_pipeline (ck_pipeline c) (ck_step c)
          (pipeline w, trace w ++ pre ++ [EvTorchLoad dir name])).1 = Py.Ok tt /\
       pipeline w'
       = (Pipeline.load_pipeline (ck_pipeline c) (ck_step c)
            (pipeline w, trace w ++ pre ++ [EvTorchLoad dir name])).2.1 /\
       Optimizers.load_optimizers (optimizers w) (ck_optimizers c) = Py.Ok opts /\
       match ck_schedulers c with
       | Some schedulers =>
           if TrainerConfig.load_scheduler (config (self w))
           then Optimizers.load_schedulers opts schedulers = Py.Ok (optimizers w')
           else optimizers w' = opts
       | None => optimizers w' = opts
       end /\
       disk w' = disk w) /\
  (TrainerConfig.load_dir (config (self w)) = None ->
   TrainerConfig.load_checkpoint (config (self w)) = None ->
   _load_checkpoint w
   = (Py.Ok tt,
      set_trace (fun tr => tr ++ [EvConsole
        "No Nerfstudio checkpoint to load, so training from scratch."]) w)) /\
  (forall config local_rank world_size,
     _start_step (__init__ config local_rank world_size).1 = 0).
Proof.
  split; [|split; [|split; [|split]]].
  - intros dir steps Hdir Hstep Hnames Hne.
    destruct (load_latest_run w dir steps Hdir Hstep Hnames Hne)
      as (m & Hin & Hmax & _ & Hrun).
    exists m. split; [exact Hin|]. split; [exact Hmax|exact Hrun].
  - exact (load_missing_run w).
  - intros w' Hrun Hconf.
    destruct (load_restores_run w w' Hrun Hconf)
      as (dir & name & w0 & pre & Hpath & Htr & Hself & Hpipe & Hopt & Hdisk & Hrest).
    destruct (restore_from_run dir name w0 w' Hrest)
      as (c & opts & Hfile & Hstart & Hscaler & Hload & Hpipe' & Hopts & Hsched & Hd).
    rewrite Hself, Hpipe, Hopt, Hdisk, Htr, <- ?app_assoc in *.
    exists dir, name, c, opts, pre.
    split; [exact Hpath|]. split; [exact Hfile|]. split; [exact Hstart|].
    split; [exact Hscaler|]. split; [exact Hload|]. split; [exact Hpipe'|].
    split; [exact Hopts|]. split; [exact Hsched|exact Hd].
  - intros Hdir Hfile. unfold _load_checkpoint. run. by rewrite Hdir, Hfile.
  - reflexivity.
Qed.

(** Names that are the name of the step just saved or one of the names of
    earlier steps: the latest step is the one just saved. *)
Lemma latest_step_after_save (names : list string) (steps : list Z) step :
  (forall x, x ∈ names -> x = ckpt_name step \/ x ∈ ckpt_name <$> steps) ->
  ckpt_name step ∈ names ->
  Forall (fun s => s <= step) steps ->
  latest_step names = Py.Ok step.
Proof.
  intros Hnames Hin Hle.
  assert (Hsteps : exists steps', names = ckpt_name <$> steps' /\
                                  Forall (fun s => s <= step) steps').
  { clear Hin. induction names as [|x names IH].
    - by exists [].
    - destruct IH as (steps' & -> & Hle').
      { intros y Hy. apply Hnames. by right. }
      destruct (Hnames x) as [->|(s & -> & Hs)%list_elem_of_fmap]; [by left| |].
      + exists (step :: steps'). split; [done|]. constructor; [lia|done].
      + exists (s :: steps'). split; [done|]. constructor; [|done].
        by eapply Forall_forall in Hle. }
  destruct Hsteps as (steps' & -> & Hle').
  apply list_elem_of_fmap in Hin as (s & Heq & Hs).
  apply NameFacts.ckpt_name_injective in Heq as <-.
  destruct (latest_step_max steps') as (m & -> & Hm & Hmax); [by intros ->; inversion Hs|].
  f_equal. eapply Forall_forall in Hmax; [|exact Hs].
  eapply Forall_forall in Hle'; [|exact Hm]. lia.
Qed.

(** A save and a resume from the checkpoint directory form a round trip:
    when the directory holds checkpoints of earlier steps only, a trainer
    that loads the latest checkpoint of that directory restores the very
    object the save wrote, and a restore that returns resumes at the step
    after the saved one. This holds with and without latest-only
    retention. *)
Theorem save_then_load_latest w step (steps : list Z) :
  main_process w = true ->
  hd false (write_faults (disk w)) = false ->
  TrainerConfig.load_dir (config (self w)) = Some (checkpoint_dir (self w)) ->
  TrainerConfig.load_step (config (self w)) = None ->
  names_in (disk w) (checkpoint_dir (self w)) = ckpt_name <$> steps ->
  Forall (fun s => s <= step) steps ->
  exists w1,
    save_checkpoint step w = (Py.Ok tt, w1) /\
    file_at (disk w1) (checkpoint_dir (self w)) (ckpt_name step)
    = Some (Pickled (checkpoint_of w step)) /\
    _load_checkpoint w1
    = restore_from (checkpoint_dir (self w)) (ckpt_name step)
        (set_trace (fun tr => tr ++ [EvConsole
           "Loading latest Nerfstudio checkpoint from load_dir..."]) w1) /\
    (forall w2, _load_checkpoint w1 = (Py.Ok tt, w2) ->
                _start_step (self w2) = step + 1).
Proof.
  intros Hmain Hfault Hdir Hstep Hnames Hle.
  destruct (SaveFacts.save_checkpoint_ok step w Hmain Hfault)
    as (w1 & Hsave & (Hself & _) & Hfile & Hold).
  set (dir := checkpoint_dir (self w)) in *.
  assert (Hex : exists files, dirs (disk w1) !! dir = Some files).
  { unfold file_at in Hfile. destruct (dirs (disk w1) !! dir); [eauto|done]. }
  destruct Hex as [files Hfiles].
  assert (Hin1 : forall x, x ∈ names_in (disk w1) dir
                           <-> is_Some (file_at (disk w1) dir x)).
  { intros x. unfold names_in, file_at. rewrite Hfiles. simpl.
    apply SaveFacts.elem_of_keys. }
  assert (Hlatest : latest_step (names_in (disk w1) dir) = Py.Ok step).
  { apply (latest_step_after_save _ steps); [|by apply Hin1; rewrite Hfile|done].
    intros x Hx. apply Hin1, Hold in Hx as [->|Hx]; [by left|right].
    rewrite <- Hnames. unfold names_in, file_at in *.
    destruct (dirs (disk w) !! dir); simpl in *; [|by destruct Hx].
    by apply SaveFacts.elem_of_keys. }
  assert (Hload : _load_checkpoint w1
                  = restore_from dir (ckpt_name step)
                      (set_trace (fun tr => tr ++ [EvConsole
                         "Loading latest Nerfstudio checkpoint from load_dir..."]) w1)).
  { unfold _load_checkpoint, listdir, dir_exists. run.
    rewrite Hself, Hdir, Hstep. run. simpl. fold dir.
    rewrite bool_decide_eq_true_2 by (by rewrite Hfiles). run.
    rewrite Hlatest. run.
    rewrite bool_decide_eq_true_2 by (by rewrite Hfile). by run. }
  exists w1. split; [exact Hsave|]. split; [exact Hfile|]. split; [exact Hload|].
  intros w2 Hrun. rewrite Hload in Hrun.
  destruct (restore_from_run _ _ _ _ Hrun) as (c & opts & Hread & Hstart & _).
  simpl in Hread. rewrite Hfile in Hread. injection Hread as <-.
  by rewrite Hstart.
Qed.

End WithBackend.
End LoadFacts.

Module LoadWitness.
Import Trainer Samples LoadFacts.

Lemma latest_step_is_max_witness :
  exists m, latest_step (ckpt_name <$> [5; 20; 7]) = Py.Ok m /\
            m ∈ [5; 20; 7] /\ Forall (fun s => s <= m) [5; 20; 7].
Proof. apply (latest_step_is_max [5; 20; 7]). discriminate. Defined.

Lemma latest_step_stray_file_witness :
  exists e', latest_step ["step-000000005.ckpt"; "config.yml"] = Py.Raise e' /\
             Py.exc_class e' = Py.ValueError.
Proof.
  apply (latest_step_stray_file _ "config.yml" "c"%char).
  - apply list_elem_of_In. right. left. reflexivity.
  - reflexivity.
  - apply list_elem_of_In. left. reflexivity.
  - reflexivity.
Defined.

Lemma load_checkpoint_from_scratch_witness :
  _load_checkpoint calm_world
  = (Py.Ok tt,
     set_trace (fun tr => tr ++ [EvConsole
       "No Nerfstudio checkpoint to load, so training from scratch."]) calm_world).
Proof. apply (load_checkpoint_from_scratch calm_world); reflexivity. Defined.

Lemma load_checkpoint_selects_latest_witness :
  exists m,
    m ∈ [1000; 2000] /\ Forall (fun s => s <= m) [1000; 2000] /\
    is_Some (file_at (disk resume_latest_world) "ckpts" (ckpt_name m)) /\
    _load_checkpoint resume_latest_world
    = restore_from "ckpts" (ckpt_name m)
        (set_trace (fun tr => tr ++ [EvConsole
           "Loading latest Nerfstudio checkpoint from load_dir..."])
           resume_latest_world).
Proof.
  apply (load_checkpoint_selects_latest resume_latest_world "ckpts" [1000; 2000]);
    [reflexivity|reflexivity|vm_compute; reflexivity|discriminate].
Defined.

Lemma load_checkpoint_missing_file_witness :
  exists msg,
    _load_checkpoint
      (resumable_world (load_config None None (Some ("ckpts", "lost.ckpt")) true))
    = (Py.Raise (Py.Raised Py.AssertionError msg),
       resumable_world (load_config None None (Some ("ckpts", "lost.ckpt")) true)).
Proof.
  apply (load_checkpoint_missing_file
           (resumable_world (load_config None None (Some ("ckpts", "lost.ckpt")) true))).
  right. exists "ckpts", "lost.ckpt". repeat split; vm_compute; reflexivity.
Defined.

Lemma restore_from_resumes_witness :
  restore_from "ckpts" (ckpt_name 2000) resume_latest_world
  = (Py.Ok tt, restored_world) /\
  exists c opts,
    file_at (disk resume_latest_world) "ckpts" (ckpt_name 2000)
    = Some (Pickled c) /\
    _start_step (self restored_world) = ck_step c + 1 /\
    Optimizers.load_optimizers (optimizers resume_latest_world) (ck_optimizers c)
    = Py.Ok opts /\
    disk restored_world = disk resume_latest_world.
Proof.
  assert (Hrun : restore_from "ckpts" (ckpt_name 2000) resume_latest_world
                 = (Py.Ok tt, restored_world)) by (vm_compute; reflexivity).
  split; [exact Hrun|].
  destruct (restore_from_resumes _ _ _ _ Hrun)
    as (c & opts & Hfile & Hstart & _ & _ & _ & Hopts & _ & Hdisk).
  exists c, opts. split; [exact Hfile|]. split; [exact Hstart|].
  split; [exact Hopts|exact Hdisk].
Defined.

Lemma save_then_load_latest_witness :
  exists w1,
    save_checkpoint 2000 rerun_world = (Py.Ok tt, w1) /\
    (forall w2, _load_checkpoint w1 = (Py.Ok tt, w2) ->
                _start_step (self w2) = 2000 + 1).
Proof.
  destruct (save_then_load_latest rerun_world 2000 [1000]
              eq_refl eq_refl eq_refl eq_refl)
    as (w1 & Hsave & _ & _ & Hstart).
  - vm_compute. reflexivity.
  - repeat constructor. discriminate.
  - exists w1. split; [exact Hsave|exact Hstart].
Defined.

(** The trainer that resumes from the directory with the checkpoints of
    steps 1000 and 2000 restores from the one of step 2000 and goes on at
    step 2001; the trainer with nothing to load is left as it was. *)
Lemma load_checkpoint_cases_witness :
  (exists m,
     m ∈ [1000; 2000] /\ Forall (fun s => s <= m) [1000; 2000] /\
     _load_checkpoint resume_latest_world
     = restore_from "ckpts" (ckpt_name m)
         (set_trace (fun tr => tr ++ [EvConsole
            "Loading latest Nerfstudio checkpoint from load_dir..."])
            resume_latest_world)) /\
  _start_step (self (_load_checkpoint resume_latest_world).2) = 2000 + 1 /\
  _load_checkpoint calm_world
  = (Py.Ok tt,
     set_trace (fun tr => tr ++ [EvConsole
       "No Nerfstudio checkpoint to load, so training from scratch."]) calm_world).
Proof.
  destruct (load_checkpoint_cases resume_latest_world)
    as (Hlatest & _ & Hok & _ & _).
  destruct (load_checkpoint_cases calm_world) as (_ & _ & _ & Hscratch & _).
  split; [|split].
  - apply (Hlatest "ckpts" [1000; 2000]);
      [reflexivity|reflexivity|vm_compute; reflexivity|discriminate].
  - destruct (Hok (_load_checkpoint resume_latest_world).2)
      as (dir & name & c & opts & pre & _ & _ & Hstart & _).
    + vm_compute. reflexivity.
    + left. discriminate.
    + vm_compute. reflexivity.
  - apply Hscratch; reflexivity.
Defined.

End LoadWitness.

(** ** Restoring the state of the pipeline *)

Module PipelineFacts.
Import Pipeline.
Section WithBackend.
Context `{B : Backend}.

(** The pipeline with the model a load left. *)
#[local] Abbreviation with_model p m :=
  {| _model := m; datamanager := datamanager p; world_size := world_size p |}.

Lemma load_state_dict_retry_run state_dict strict p tr m1 e :
  model_load_state_dict (_model p) (model_state_of state_dict) true
  = (m1, Py.Raise e) ->
  Py.issubclass (Py.exc_class e) Py.RuntimeError = true ->
  (strict = Some true ->
     load_state_dict state_dict strict (p, tr)
     = (Py.Raise e, (with_model p m1, tr ++ [EvModelLoadStateDict true]))) /\
  (strict <> Some true ->
     exists r p' rest,
       load_state_dict state_dict strict (p, tr)
       = (r, (p', tr ++ [EvModelLoadStateDict true; EvModelLoadStateDict false]
                     ++ rest)) /\
       _model p'
       = (model_load_state_dict m1 (model_state_of state_dict) false).1 /\
       ((model_load_state_dict m1 (model_state_of state_dict) false).2 = Py.Ok tt ->
          rest = [EvModuleLoadStateDict]) /\
       (forall e', (model_load_state_dict m1 (model_state_of state_dict) false).2
                   = Py.Raise e' -> rest = [] /\ r = Py.Raise e')).
Proof.
  intros Hstrict Hcls. split.
  - intros ->. unfold load_state_dict, Prog.try_except, model_load.
    unfold mbind, prog_bind, Prog.bind. cbn zeta. rewrite Hstrict, Hcls. done.
  - intros Hns.
    assert (Hnot : not_strict strict = true).
    { destruct strict as [[]|]; done. }
    unfold load_state_dict, Prog.try_except, model_load, module_load.
    unfold mbind, prog_bind, Prog.bind. cbn zeta. rewrite Hstrict, Hcls, Hnot.
    cbn [_model datamanager world_size].
    destruct (model_load_state_dict m1 _ false) as [m2 [[]|e2]] eqn:Hretry.
    + cbn [_model datamanager world_size].
      destruct (module_load_state_dict _ _) as [dm r3].
      eexists r3, _, [EvModuleLoadStateDict]. rewrite <- !app_assoc.
      split; [reflexivity|]. simpl. split; [done|]. split; [done|]. done.
    + eexists (Py.Raise e2), _, []. rewrite app_nil_r, <- app_assoc.
      split; [reflexivity|]. simpl. split; [done|]. split; [done|].
      by intros e' [= <-].
Qed.

(** The state [load_pipeline] hands on (lines 606-608): keys without a
    leading ["module."]. *)
#[local] Abbreviation unwrapped loaded_state :=
  (PyDict.comprehension (fun _ => true)
     (fun key => if PyStr.startswith key "module."
                 then PyStr.slice_from key (String.length "module.")
                 else key)
     loaded_state).

(** When the strict load of the model raises a [RuntimeError], the load
    is retried with relaxed key matching exactly when the caller did not
    ask for strict loading ([strict] is [False] or left out), and the error
    is passed on, with nothing else loaded, exactly when it did. *)
Theorem load_state_dict_retry state_dict strict p tr m1 e :
  model_load_state_dict (_model p) (model_state_of state_dict) true
  = (m1, Py.Raise e) ->
  Py.issubclass (Py.exc_class e) Py.RuntimeError = true ->
  (strict = Some true ->
     load_state_dict state_dict strict (p, tr)
     = (Py.Raise e, (with_model p m1, tr ++ [EvModelLoadStateDict true]))) /\
  (strict <> Some true ->
     exists r p' rest,
       load_state_dict state_dict strict (p, tr)
       = (r, (p', tr ++ [EvModelLoadStateDict true; EvModelLoadStateDict false]
                     ++ rest)) /\
       _model p'
       = (model_load_state_dict m1 (model_state_of state_dict) false).1 /\
       ((model_load_state_dict m1 (model_state_of state_dict) false).2 = Py.Ok tt ->
          rest = [EvModuleLoadStateDict]) /\
       (forall e', (model_load_state_dict m1 (model_state_of state_dict) false).2
                   = Py.Raise e' -> rest = [] /\ r = Py.Raise e')).
Proof. exact (load_state_dict_retry_run state_dict strict p tr m1 e). Qed.

(** The relaxed load is made in no other case: when it appears among the
    calls, the caller did not ask for strict loading and the strict load
    had raised a [RuntimeError]. *)
Theorem load_state_dict_relaxed_only_on_retry state_dict strict p tr :
  EvModelLoadStateDict false
    ∈ drop (length tr) (load_state_dict state_dict strict (p, tr)).2.2 ->
  strict <> Some true /\
  exists e,
    (model_load_state_dict (_model p) (model_state_of state_dict) true).2
    = Py.Raise e /\
    Py.issubclass (Py.exc_class e) Py.RuntimeError = true.
Proof.
  unfold load_state_dict, Prog.try_except, model_load, module_load.
  unfold mbind, prog_bind, Prog.bind, Prog.raise. cbn zeta.
  destruct (model_load_state_dict (_model p) _ true) as [m1 [[]|e]] eqn:Hstrict.
  - cbn [_model datamanager world_size].
    destruct (module_load_state_dict _ _) as [dm r3]. simpl.
    rewrite <- app_assoc, drop_app_length. simpl.
    intros Hin. exfalso.
    repeat (apply elem_of_cons in Hin as [Hin|Hin]; [discriminate Hin|]).
    by apply elem_of_nil in Hin.
  - destruct (Py.issubclass (Py.exc_class e) Py.RuntimeError) eqn:Hcls.
    + destruct strict as [[]|]; simpl.
      * rewrite drop_app_length. intros Hin. exfalso.
    repeat (apply elem_of_cons in Hin as [Hin|Hin]; [discriminate Hin|]).
    by apply elem_of_nil in Hin.
      * intros _. split; [done|]. eauto.
      * intros _. split; [done|]. eauto.
    + simpl. rewrite drop_app_length. intros Hin. exfalso.
    repeat (apply elem_of_cons in Hin as [Hin|Hin]; [discriminate Hin|]).
    by apply elem_of_nil in Hin.
Qed.

(** C8.  When the strict load of the model state fails, that is, raises
    the [RuntimeError] by which a module reports keys or shapes that do
    not match, the load is made again with relaxed key matching exactly
    when the caller did not ask for strict loading ([strict] is [False] or
    left out), and the error is passed on at once, with no other call
    made, exactly when the caller asked for strict loading.  An exception
    of another class is outside the [except] clause of line 162 and is
    passed on whatever the caller asked. *)
Theorem load_state_dict_strict_failure state_dict strict p tr m1 e :
  model_load_state_dict (_model p) (model_state_of state_dict) true
  = (m1, Py.Raise e) ->
  (Py.issubclass (Py.exc_class e) Py.RuntimeError = true ->
   (EvModelLoadStateDict false
      ∈ drop (length tr) (load_state_dict state_dict strict (p, tr)).2.2
    <-> strict <> Some true) /\
   (load_state_dict state_dict strict (p, tr)
    = (Py.Raise e, (with_model p m1, tr ++ [EvModelLoadStateDict true]))
    <-> strict = Some true) /\
   (strict <> Some true ->
    exists r p' rest,
      load_state_dict state_dict strict (p, tr)
      = (r, (p', tr ++ [EvModelLoadStateDict true; EvModelLoadStateDict false]
                    ++ rest)) /\
      _model p'
      = (model_load_state_dict m1 (model_state_of state_dict) false).1 /\
      ((model_load_state_dict m1 (model_state_of state_dict) false).2 = Py.Ok tt ->
         rest = [EvModuleLoadStateDict]) /\
      (forall e', (model_load_state_dict m1 (model_state_of state_dict) false).2
                  = Py.Raise e' -> rest = [] /\ r = Py.Raise e'))) /\
  (Py.issubclass (Py.exc_class e) Py.RuntimeError = false ->
   load_state_dict state_dict strict (p, tr)
   = (Py.Raise e, (with_model p m1, tr ++ [EvModelLoadStateDict true]))).
Proof.
  intros Hstrict. split.
  - intros Hcls.
    destruct (load_state_dict_retry_run state_dict strict p tr m1 e Hstrict Hcls)
      as [Hpass Hretry].
    assert (Hdec : strict = Some true \/ strict <> Some true).
    { destruct strict as [[]|]; [by left|by right|by right]. }
    split; [|split; [|exact Hretry]].
    + split.
      * intros Hin Heq. rewrite (Hpass Heq) in Hin. simpl in Hin.
        rewrite drop_app_length in Hin.
        apply elem_of_cons in Hin as [Hin|Hin]; [discriminate Hin|].
        by apply elem_of_nil in Hin.
      * intros Hns. destruct (Hretry Hns) as (r & p' & rest & -> & _).
        simpl. rewrite drop_app_length.
        apply elem_of_cons. right. apply elem_of_cons. by left.
    + split; [|exact Hpass].
      intros Hrun. destruct Hdec as [Heq|Hns]; [exact Heq|exfalso].
      destruct (Hretry Hns) as (r & p' & rest & Hrun' & _).
      rewrite Hrun in Hrun'. injection Hrun' as _ _ Htr.
      apply app_inv_head in Htr. discriminate Htr.
  - intros Hcls. unfold load_state_dict, Prog.try_except, model_load.
    unfold mbind, prog_bind, Prog.bind. cbn zeta. by rewrite Hstrict, Hcls.
Qed.

(** A strict load that succeeds is not repeated; the rest of the state
    goes to the pipeline module. *)
Lemma load_state_dict_strict_ok state_dict strict p tr m1 :
  model_load_state_dict (_model p) (model_state_of state_dict) true
  = (m1, Py.Ok tt) ->
  load_state_dict state_dict strict (p, tr)
  = module_load (pipeline_state_of state_dict)
      (with_model p m1, tr ++ [EvModelLoadStateDict true]).
Proof.
  intros Hstrict. unfold load_state_dict, Prog.try_except, model_load.
  unfold mbind, prog_bind, Prog.bind. cbn zeta. by rewrite Hstrict.
Qed.

(** [load_pipeline] leaves [strict] out, so a checkpoint whose keys do not
    match the model exactly is always given the relaxed retry: after the
    model is told the step, the strict load and the relaxed load follow. *)
Theorem load_pipeline_retries loaded_state step p tr e :
  (model_load_state_dict (model_update_to_step (_model p) step)
     (model_state_of (unwrapped loaded_state)) true).2
  = Py.Raise e ->
  Py.issubclass (Py.exc_class e) Py.RuntimeError = true ->
  exists rest,
    (load_pipeline loaded_state step (p, tr)).2.2
    = tr ++ [EvUpdateToStep step; EvModelLoadStateDict true;
             EvModelLoadStateDict false] ++ rest.
Proof.
  intros Hstrict Hcls. unfold load_pipeline.
  unfold mbind at 1, prog_bind at 1, Prog.bind at 1, Prog.modify. cbn zeta.
  destruct (model_load_state_dict (model_update_to_step (_model p) step) _ true)
    as [m1 r1] eqn:Hload. simpl in Hstrict. subst r1.
  destruct (load_state_dict_retry_run _ None
              {| _model := model_update_to_step (_model p) step;
                 datamanager := datamanager p; world_size := world_size p |}
              (tr ++ [EvUpdateToStep step]) m1 e Hload Hcls) as [_ Hretry].
  destruct Hretry as (r & p' & rest & Hrun & _); [done|].
  rewrite Hrun. simpl. exists rest. by rewrite <- !app_assoc.
Qed.

(** *** The next training batch *)

(** The epoch of the sampler is set, and the sampler required, in runs of
    more than one process at every step but step 0, which Python reads as
    false.  In such a run without a sampler the call fails after step 0
    with an [AssertionError], before any batch is drawn and with the
    pipeline and the trace as they were; in every other case it returns
    the losses and metrics of the next batch, drawn from the data manager
    as it is at step 0 or in a run of one process, and after the epoch is
    set otherwise.  So the call fails exactly in the first case. *)
Theorem get_train_loss_dict_sampler step p tr :
  (1 < world_size p /\ step <> 0 /\
   train_sampler_set_epoch (datamanager p) step = None ->
   get_train_loss_dict step (p, tr)
   = (Py.Raise (Py.Raised Py.AssertionError ""), (p, tr))) /\
  (world_size p <= 1 \/ step = 0 ->
   get_train_loss_dict step (p, tr)
   = let '(m, dm, out) := train_batch (_model p) (datamanager p) step in
     (Py.Ok out, ({| _model := m; datamanager := dm; world_size := world_size p |},
                  tr))) /\
  (forall dm0,
     1 < world_size p -> step <> 0 ->
     train_sampler_set_epoch (datamanager p) step = Some dm0 ->
     get_train_loss_dict step (p, tr)
     = let '(m, dm, out) := train_batch (_model p) dm0 step in
       (Py.Ok out, ({| _model := m; datamanager := dm; world_size := world_size p |},
                    tr))) /\
  (Py.is_ok (get_train_loss_dict step (p, tr)).1 = false
   <-> 1 < world_size p /\ step <> 0 /\
       train_sampler_set_epoch (datamanager p) step = None).
Proof.
  unfold get_train_loss_dict.
  unfold mbind, prog_bind, mret, prog_ret, Prog.bind, Prog.ret, Prog.get,
    Prog.modify, Prog.raise.
  cbn beta iota zeta.
  destruct (Z.ltb_spec 1 (world_size p)) as [Hws|Hws];
    destruct (Z.eqb_spec step 0) as [Hstep|Hstep]; cbn [andb negb].
  1,3,4: destruct (train_batch (_model p) (datamanager p) step)
           as [[m dm] [loss_dict metrics_dict]]; simpl;
         (split; [intros (? & ? & ?); lia|]); (split; [done|]);
         (split; [intros; lia|]); split; [done|lia].
  destruct (train_sampler_set_epoch (datamanager p) step) as [dm0|] eqn:Hs.
  - cbn [_model datamanager world_size].
    split; [by intros (_ & _ & [=])|]. split; [lia|].
    split.
    + intros dm1 _ _ [= <-].
      by destruct (train_batch (_model p) dm0 step) as [[m dm] [ld md]].
    + destruct (train_batch (_model p) dm0 step) as [[m dm] [ld md]]. simpl.
      split; [done|by intros (_ & _ & [=])].
  - simpl. split; [by destruct p|]. split; [lia|]. split; [done|]. done.
Qed.

(** *** The routing of the keys (lines 115-129) *)

Lemma set_fresh {V} (d : PyDict.t V) k v :
  k ∉ PyDict.keys d -> PyDict.set d k v = d ++ [(k, v)].
Proof.
  unfold PyDict.keys. induction d as [|[k' v'] d IH]; intros Hk; [done|].
  simpl in *. apply not_elem_of_cons in Hk as [Hne Hk].
  apply String.eqb_neq in Hne. rewrite Hne. by rewrite IH.
Qed.

Lemma keys_app {V} (d1 d2 : PyDict.t V) :
  PyDict.keys (d1 ++ d2) = PyDict.keys d1 ++ PyDict.keys d2.
Proof. apply fmap_app. Qed.

(** A comprehension that makes no key twice is a filter and a map. *)
Lemma comprehension_fold {V} (keep : string -> bool) (key_of : string -> string)
    (d : PyDict.t V) : forall acc,
  NoDup (PyDict.keys
           (acc ++ ((fun kv => (key_of kv.1, kv.2))
                      <$> filter (fun kv => keep kv.1) d))) ->
  fold_left (fun acc '(k, v) => if keep k then PyDict.set acc (key_of k) v else acc)
    d acc
  = acc ++ ((fun kv => (key_of kv.1, kv.2)) <$> filter (fun kv => keep kv.1) d).
Proof.
  unfold PyDict.t in *.
  induction d as [|[k v] d IH]; intros acc Hnd; simpl.
  - by rewrite app_nil_r.
  - destruct (keep k) eqn:Hk.
    + rewrite filter_cons_True in Hnd |- * by (simpl; by rewrite Hk).
      rewrite fmap_cons in Hnd |- *. cbn [fst snd] in Hnd |- *.
      rewrite set_fresh.
      * rewrite IH; rewrite <- app_assoc; done.
      * rewrite keys_app in Hnd. apply NoDup_app in Hnd as (_ & Hdisj & _).
        intros Hin. apply (Hdisj _ Hin). unfold PyDict.keys.
        rewrite fmap_cons. apply elem_of_cons. by left.
    + rewrite filter_cons_False in Hnd |- * by (cbn [fst]; rewrite Hk; simpl; tauto). by apply IH.
Qed.

Lemma startswith_split (p : string) : forall k,
  PyStr.startswith k p = true ->
  k = p +:+ PyStr.slice_from k (String.length p).
Proof.
  unfold PyStr.slice_from, PyStr.str, PyStr.chars.
  induction p as [|a p IH]; intros k Hk.
  - change (k = string_of_list_ascii (list_ascii_of_string k)).
    by rewrite string_of_list_ascii_of_string.
  - destruct k as [|b k]; [done|]. simpl in Hk.
    apply andb_prop in Hk as [Hab Hk]. apply Ascii.eqb_eq in Hab as ->.
    change (String b k
            = String b (p +:+ string_of_list_ascii
                                (drop (String.length p) (list_ascii_of_string k)))).
    f_equal. by apply IH.
Qed.

Lemma slice_from_twice k a b :
  PyStr.slice_from (PyStr.slice_from k a) b = PyStr.slice_from k (a + b).
Proof.
  unfold PyStr.slice_from, PyStr.str, PyStr.chars.
  by rewrite list_ascii_of_string_of_list_ascii, drop_drop.
Qed.

Lemma filter_all {A} (P : A -> Prop) `{!forall x, Decision (P x)} (l : list A) :
  (forall x, P x) -> filter P l = l.
Proof.
  intros HP. induction l as [|x l IH]; [done|].
  by rewrite filter_cons_True, IH.
Qed.

Lemma keys_filter_elem {V} (P : string -> bool) (d : PyDict.t V) k :
  k ∈ PyDict.keys (filter (fun kv => P kv.1) d) -> P k = true /\ k ∈ PyDict.keys d.
Proof.
  unfold PyDict.keys, PyDict.t in *. intros ([k' v] & -> & Hin)%list_elem_of_fmap.
  apply list_elem_of_filter in Hin as [HP Hin]. simpl in *.
  split; [by destruct (P k')|]. apply list_elem_of_fmap. by exists (k', v).
Qed.

Lemma keys_filter_nodup {V} (P : string -> bool) (d : PyDict.t V) :
  NoDup (PyDict.keys d) -> NoDup (PyDict.keys (filter (fun kv => P kv.1) d)).
Proof.
  unfold PyDict.t in *.
  induction d as [|[k v] d IH]; intros Hnd; [constructor|].
  unfold PyDict.keys in Hnd. simpl in Hnd. apply NoDup_cons in Hnd as [Hk Hnd].
  destruct (P k) eqn:HP.
  - rewrite filter_cons_True by (simpl; by rewrite HP).
    unfold PyDict.keys. simpl. apply NoDup_cons. split; [|by apply IH].
    intros Hin. by apply (keys_filter_elem P) in Hin as [_ Hin].
  - rewrite filter_cons_False by (cbn [fst]; rewrite HP; simpl; tauto). by apply IH.
Qed.

(** Keys under a common prefix stay distinct without it. *)
Lemma keys_strip_nodup {V} (prefix : string) (d : PyDict.t V) :
  NoDup (PyDict.keys d) ->
  Forall (fun kv => PyStr.startswith kv.1 prefix = true) d ->
  NoDup (PyDict.keys
           ((fun kv => (PyStr.slice_from kv.1 (String.length prefix), kv.2)) <$> d)).
Proof.
  intros Hnd Hall. unfold PyDict.keys in *.
  rewrite <- list_fmap_compose.
  rewrite (list_fmap_ext _ ((fun k => PyStr.slice_from k (String.length prefix)) ∘ fst) d)
    by done.
  rewrite list_fmap_compose.
  apply NoDup_fmap_2_strong; [|done].
  intros k1 k2 ([k1' v1] & -> & H1)%list_elem_of_fmap
    ([k2' v2] & -> & H2)%list_elem_of_fmap Heq. simpl in *.
  eapply Forall_forall in H1; [|exact Hall]. eapply Forall_forall in H2; [|exact Hall].
  simpl in *. rewrite (startswith_split prefix k1' H1), (startswith_split prefix k2' H2).
  by rewrite Heq.
Qed.

Lemma split_model_state_fold (d : PyDict.t Tensor) : forall b acc,
  NoDup (PyDict.keys
           (acc ++ ((fun kv => (PyStr.slice_from kv.1 (String.length "_model."), kv.2))
                      <$> filter (fun kv => PyStr.startswith kv.1 "_model.") d))) ->
  fold_left
    (fun '(is_ddp_model_state, model_state) '(key, value) =>
       if PyStr.startswith key "_model." then
         (if negb (PyStr.startswith key "_model.module.") then false
          else is_ddp_model_state,
          PyDict.set model_state (PyStr.slice_from key (String.length "_model.")) value)
       else (is_ddp_model_state, model_state))
    d (b, acc)
  = (b && forallb (fun kv => PyStr.startswith kv.1 "_model.module.")
            (filter (fun kv => PyStr.startswith kv.1 "_model.") d),
     acc ++ ((fun kv => (PyStr.slice_from kv.1 (String.length "_model."), kv.2))
               <$> filter (fun kv => PyStr.startswith kv.1 "_model.") d)).
Proof.
  unfold PyDict.t in *.
  induction d as [|[k v] d IH]; intros b acc Hnd.
  - simpl. by rewrite andb_true_r, app_nil_r.
  - cbn [fold_left]. destruct (PyStr.startswith k "_model.") eqn:Hk.
    + rewrite filter_cons_True in Hnd |- * by (cbn [fst]; by rewrite Hk).
      rewrite fmap_cons in Hnd |- *. cbn [fst snd forallb] in Hnd |- *.
      rewrite set_fresh.
      * rewrite IH by (by rewrite <- app_assoc). rewrite <- app_assoc. f_equal.
        destruct (PyStr.startswith k "_model.module."), b; done.
      * rewrite keys_app in Hnd. apply NoDup_app in Hnd as (_ & Hdisj & _).
        intros Hin. apply (Hdisj _ Hin). unfold PyDict.keys.
        rewrite fmap_cons. apply elem_of_cons. by left.
    + rewrite filter_cons_False in Hnd |- * by (cbn [fst]; rewrite Hk; simpl; tauto). by apply IH.
Qed.

(** The state of the pipeline module is the state dict without the entries
    of the model, in the order of the state dict. *)
Theorem pipeline_state_of_non_model state_dict :
  NoDup (PyDict.keys state_dict) ->
  pipeline_state_of state_dict
  = filter (fun kv => negb (PyStr.startswith kv.1 "_model.")) state_dict.
Proof.
  unfold PyDict.t in *.
  intros Hnd. unfold pipeline_state_of, PyDict.comprehension.
  pose proof (comprehension_fold (fun k => negb (PyStr.startswith k "_model."))
                (fun k => k) state_dict []) as Hfold.
  assert (Hid : forall l : PyDict.t Tensor, (fun kv => (kv.1, kv.2)) <$> l = l).
  { intros l. rewrite <- (list_fmap_id l) at 2. apply list_fmap_ext.
    by intros _ [] _. }
  rewrite Hid in Hfold. simpl in Hfold. apply Hfold.
  by apply (keys_filter_nodup (fun k => negb (PyStr.startswith k "_model."))).
Qed.

(** The state of the model is made of the entries under ["_model."], in
    the order of the state dict and without that prefix; when every one of
    them is under ["_model.module."], with none too, that further prefix
    is dropped as well, whether distributed training put it there or the
    model has a single attribute of that name. *)
Theorem model_state_of_entries state_dict :
  NoDup (PyDict.keys state_dict) ->
  model_state_of state_dict
  = let entries :=
      filter (fun kv => PyStr.startswith kv.1 "_model.") state_dict in
    if forallb (fun kv => PyStr.startswith kv.1 "_model.module.") entries
    then (fun kv => (PyStr.slice_from kv.1 (String.length "_model.module."), kv.2))
           <$> entries
    else (fun kv => (PyStr.slice_from kv.1 (String.length "_model."), kv.2))
           <$> entries.
Proof.
  unfold PyDict.t in *. intros Hnd. cbn zeta.
  set (entries := filter (fun kv => PyStr.startswith kv.1 "_model.") state_dict).
  assert (Hentries : NoDup (PyDict.keys entries)).
  { by apply (keys_filter_nodup (fun k => PyStr.startswith k "_model.")). }
  assert (Hmodel : Forall (fun kv => PyStr.startswith kv.1 "_model." = true) entries).
  { apply Forall_forall. intros kv [Hkv _]%list_elem_of_filter.
    by destruct (PyStr.startswith kv.1 "_model."). }
  unfold model_state_of, split_model_state.
  rewrite (split_model_state_fold state_dict true []); cycle 1.
  { simpl. by apply (keys_strip_nodup "_model."). }
  cbn [andb app].
  change (filter (fun kv : string * Tensor => PyStr.startswith kv.1 "_model.")
            state_dict) with entries.
  destruct (forallb _ entries) eqn:Hddp; [|done].
  unfold PyDict.comprehension.
  rewrite (comprehension_fold (fun _ => true)
             (fun key => PyStr.slice_from key (String.length "module.")) _ []).
  - unfold PyDict.t. cbn [app]. rewrite filter_all by done.
    rewrite <- list_fmap_compose.
    apply list_fmap_ext. intros _ [k v] _. cbn. f_equal.
    apply (slice_from_twice k 7 7).
  - unfold PyDict.t. cbn [app]. rewrite filter_all by done.
    rewrite <- list_fmap_compose.
    rewrite (list_fmap_ext _
               (fun kv => (PyStr.slice_from kv.1 (String.length "_model.module."),
                           kv.2)) entries).
    + apply (keys_strip_nodup "_model.module."); [done|].
      apply Forall_forall. intros kv Hkv.
      rewrite forallb_forall in Hddp. apply Hddp. by apply list_elem_of_In.
    + intros _ [k v] _. cbn. f_equal. apply (slice_from_twice k 7 7).
Qed.

End WithBackend.
End PipelineFacts.

Module PipelineWitness.
Import Pipeline Samples PipelineFacts.

(** The sample model has no tensor [field.bias]: the strict load of
    [wider_state] fails and, the caller leaving [strict] out, the relaxed
    load follows. *)
Lemma load_state_dict_retry_witness :
  exists r p' rest,
    load_state_dict wider_state None (sample_pipeline [1%Q], [])
    = (r, (p', [] ++ [EvModelLoadStateDict true; EvModelLoadStateDict false]
                  ++ rest)).
Proof.
  destruct (load_state_dict_retry wider_state None (sample_pipeline [1%Q]) []
              {| Reference.params := [("field.weight", [3; 4]%Q)];
                 Reference.grad := None; Reference.at_step := 0 |}
              (Py.Raised Py.RuntimeError "Error(s) in loading state_dict")
              eq_refl eq_refl) as [_ Hretry].
  destruct Hretry as (r & p' & rest & Hrun & _); [discriminate|].
  exists r, p', rest. exact Hrun.
Defined.

(** The same load with [strict] left out and with [strict=True]: the
    first is retried, the second passes the error on. *)
Lemma load_state_dict_strict_failure_witness :
  EvModelLoadStateDict false
    ∈ drop (length (A := event) [])
        (load_state_dict wider_state None (sample_pipeline [1%Q], [])).2.2 /\
  (load_state_dict wider_state (Some true) (sample_pipeline [1%Q], [])).1
  = Py.Raise (Py.Raised Py.RuntimeError "Error(s) in loading state_dict").
Proof.
  destruct (load_state_dict_strict_failure wider_state None (sample_pipeline [1%Q]) []
              {| Reference.params := [("field.weight", [3; 4]%Q)];
                 Reference.grad := None; Reference.at_step := 0 |}
              (Py.Raised Py.RuntimeError "Error(s) in loading state_dict")
              eq_refl) as [Hcaught _].
  destruct (Hcaught eq_refl) as (Hretry & _ & _).
  destruct (load_state_dict_strict_failure wider_state (Some true)
              (sample_pipeline [1%Q]) []
              {| Reference.params := [("field.weight", [3; 4]%Q)];
                 Reference.grad := None; Reference.at_step := 0 |}
              (Py.Raised Py.RuntimeError "Error(s) in loading state_dict")
              eq_refl) as [Hcaught' _].
  destruct (Hcaught' eq_refl) as (_ & Hpass & _).
  split.
  - apply Hretry. discriminate.
  - destruct Hpass as [_ Hpass]. by rewrite Hpass.
Defined.

Lemma load_state_dict_relaxed_only_on_retry_witness :
  None <> Some true /\
  exists e,
    (model_load_state_dict (_model (sample_pipeline [1%Q]))
       (model_state_of wider_state) true).2 = Py.Raise e /\
    Py.issubclass (Py.exc_class e) Py.RuntimeError = true.
Proof.
  apply (load_state_dict_relaxed_only_on_retry wider_state None
           (sample_pipeline [1%Q]) []).
  vm_compute. apply elem_of_cons. right. apply elem_of_cons. by left.
Defined.

Lemma load_pipeline_retries_witness :
  exists rest,
    (load_pipeline wider_state 2000 (sample_pipeline [1%Q], [])).2.2
    = [] ++ [EvUpdateToStep 2000; EvModelLoadStateDict true;
             EvModelLoadStateDict false] ++ rest.
Proof.
  apply (load_pipeline_retries wider_state 2000 (sample_pipeline [1%Q]) []
           (Py.Raised Py.RuntimeError "Error(s) in loading state_dict"));
    reflexivity.
Defined.

Lemma pipeline_state_of_non_model_witness :
  pipeline_state_of wider_state
  = filter (fun kv => negb (PyStr.startswith kv.1 "_model.")) wider_state.
Proof.
  apply (pipeline_state_of_non_model wider_state).
  apply (bool_decide_unpack _). vm_compute. exact I.
Defined.

Lemma model_state_of_entries_witness :
  model_state_of ddp_state
  = let entries := filter (fun kv => PyStr.startswith kv.1 "_model.") ddp_state in
    if forallb (fun kv => PyStr.startswith kv.1 "_model.module.") entries
    then (fun kv => (PyStr.slice_from kv.1 (String.length "_model.module."), kv.2))
           <$> entries
    else (fun kv => (PyStr.slice_from kv.1 (String.length "_model."), kv.2))
           <$> entries.
Proof.
  apply (model_state_of_entries ddp_state).
  apply (bool_decide_unpack _). vm_compute. exact I.
Defined.

(** A pipeline of two processes that has no sampler. *)
#[local] Abbreviation unsampled :=
  {| _model := _model (sample_pipeline [1%Q]);
     datamanager :=
       {| Reference.losses := [1%Q]; Reference.sampler := false;
          Reference.rays_per_batch := 4096; Reference.eval_dataset := false;
          Reference.surface_rays := false; Reference.data_params := [] |};
     world_size := 2 |}.

(** Step 1 fails the assertion and leaves the pipeline as it was; step 0
    draws a batch. *)
Lemma get_train_loss_dict_sampler_witness :
  get_train_loss_dict 1 (unsampled, [])
  = (Py.Raise (Py.Raised Py.AssertionError ""), (unsampled, [])) /\
  Py.is_ok (get_train_loss_dict 0 (unsampled, [])).1 = true.
Proof.
  destruct (get_train_loss_dict_sampler 1 unsampled []) as (Hfail & _).
  destruct (get_train_loss_dict_sampler 0 unsampled []) as (_ & Hok & _).
  split.
  - apply Hfail. split; [reflexivity|]. split; [discriminate|reflexivity].
  - rewrite Hok by (right; reflexivity). reflexivity.
Defined.

(** What the two states give the model and the pipeline module. *)
Example model_state_of_samples :
  model_state_of ddp_state = [("field.weight", [3; 4]%Q)] /\
  model_state_of wider_state
  = [("field.weight", [3; 4]%Q); ("field.bias", [5]%Q)] /\
  pipeline_state_of wider_state = [("datamanager.camera", [6]%Q)].
Proof. by vm_compute. Qed.

End PipelineWitness.

(** ** The viewer adapter *)

Module ViewerFacts.
Import Trainer.
Section WithBackend.
Context `{B : Backend}.

(** A [RuntimeError] of the viewer (or of one of its subclasses) during
    the scene update is swallowed: the call returns, after a sleep of 30
    ms and a console message, and pipeline, optimizers and files are as
    they were. *)
Theorem update_viewer_state_tolerates_runtime_error step w v v' e :
  TrainerConfig.viewer_enabled (config (self w)) = true ->
  main_process w = true ->
  viewer_state (self w) = Some v ->
  update_scene v step (get_train_rays_per_batch (Pipeline.datamanager (pipeline w)))
  = (v', Py.Raise e) ->
  Py.issubclass (Py.exc_class e) Py.RuntimeError = true ->
  exists w',
    _update_viewer_state step w = (Py.Ok tt, w') /\
    trace w'
    = trace w
      ++ [ EvUpdateScene step
             (get_train_rays_per_batch (Pipeline.datamanager (pipeline w)));
           EvSleep 30;
           EvConsole "Viewer failed. Continuing training." ] /\
    viewer_state (self w') = Some v' /\
    pipeline w' = pipeline w /\ optimizers w' = optimizers w /\ disk w' = disk w.
Proof.
  intros Henabled Hmain Hv Hscene Hcls.
  unfold _update_viewer_state, check_viewer_enabled, Prog.try_except,
    viewer_update_scene.
  unfold mbind, prog_bind, Prog.bind, Prog.get. cbn beta iota zeta.
  rewrite Henabled, Hmain. cbn [andb]. cbn beta iota zeta.
  rewrite Hv. cbn beta iota zeta. rewrite Hscene, Hcls.
  eexists. split; [reflexivity|]. simpl. rewrite <- !app_assoc. by repeat split.
Qed.

(** Any other exception of the viewer leaves the call, and with it the
    training loop. *)
Theorem update_viewer_state_passes_other_errors step w v v' e :
  TrainerConfig.viewer_enabled (config (self w)) = true ->
  main_process w = true ->
  viewer_state (self w) = Some v ->
  update_scene v step (get_train_rays_per_batch (Pipeline.datamanager (pipeline w)))
  = (v', Py.Raise e) ->
  Py.issubclass (Py.exc_class e) Py.RuntimeError = false ->
  exists w',
    _update_viewer_state step w = (Py.Raise e, w') /\
    trace w'
    = trace w
      ++ [ EvUpdateScene step
             (get_train_rays_per_batch (Pipeline.datamanager (pipeline w))) ].
Proof.
  intros Henabled Hmain Hv Hscene Hcls.
  unfold _update_viewer_state, check_viewer_enabled, Prog.try_except,
    viewer_update_scene.
  unfold mbind, prog_bind, Prog.bind, Prog.get. cbn beta iota zeta.
  rewrite Henabled, Hmain. cbn [andb]. cbn beta iota zeta.
  rewrite Hv. cbn beta iota zeta. rewrite Hscene, Hcls.
  eexists. split; reflexivity.
Qed.

(** The call never raises a [RuntimeError] of its own accord: whatever the
    viewer does, an exception that leaves the call is not one. *)
Theorem update_viewer_state_never_runtime_error step w e w' :
  _update_viewer_state step w = (Py.Raise e, w') ->
  Py.issubclass (Py.exc_class e) Py.RuntimeError = false.
Proof.
  unfold _update_viewer_state, check_viewer_enabled, Prog.try_except,
    viewer_update_scene.
  unfold mbind, prog_bind, Prog.bind, Prog.get, Prog.raise. cbn beta iota zeta.
  destruct (_ && _); [|done].
  destruct (viewer_state (self w)) as [v|]; [|by intros [= <- _]].
  destruct (update_scene _ _ _) as [v' [[]|e']]; [done|].
  destruct (Py.issubclass (Py.exc_class e') Py.RuntimeError) eqn:Hcls.
  - done.
  - by intros [= <- _].
Qed.

(** C7.  For every step, an exception the viewer raises during the scene
    update is caught exactly when it is a [RuntimeError] or of a subclass
    of it: the call then returns, after a sleep of 30 ms and the console
    message, with pipeline, optimizers and files as they were.  An
    exception of any other class is not caught: it leaves the call as it
    is, with no sleep and no message.  So no [RuntimeError] ever leaves
    the call. *)
Theorem update_viewer_state_failures step w :
  (forall v v' e,
     TrainerConfig.viewer_enabled (config (self w)) = true ->
     main_process w = true ->
     viewer_state (self w) = Some v ->
     update_scene v step
       (get_train_rays_per_batch (Pipeline.datamanager (pipeline w)))
     = (v', Py.Raise e) ->
     exists w',
       viewer_state (self w') = Some v' /\
       pipeline w' = pipeline w /\ optimizers w' = optimizers w /\
       disk w' = disk w /\
       if Py.issubclass (Py.exc_class e) Py.RuntimeError
       then
         _update_viewer_state step w = (Py.Ok tt, w') /\
         trace w'
         = trace w
           ++ [ EvUpdateScene step
                  (get_train_rays_per_batch (Pipeline.datamanager (pipeline w)));
                EvSleep 30;
                EvConsole "Viewer failed. Continuing training." ]
       else
         _update_viewer_state step w = (Py.Raise e, w') /\
         trace w'
         = trace w
           ++ [ EvUpdateScene step
                  (get_train_rays_per_batch (Pipeline.datamanager (pipeline w))) ]) /\
  (forall e w',
     _update_viewer_state step w = (Py.Raise e, w') ->
     Py.issubclass (Py.exc_class e) Py.RuntimeError = false).
Proof.
  split.
  - intros v v' e Henabled Hmain Hv Hscene.
    unfold _update_viewer_state, check_viewer_enabled, Prog.try_except,
      viewer_update_scene.
    unfold mbind, prog_bind, Prog.bind, Prog.get. cbn beta iota zeta.
    rewrite Henabled, Hmain. cbn [andb]. cbn beta iota zeta.
    rewrite Hv. cbn beta iota zeta. rewrite Hscene.
    destruct (Py.issubclass (Py.exc_class e) Py.RuntimeError).
    + eexists. split; [|split; [|split; [|split; [|split]]]].
      5: reflexivity. 1-4: reflexivity.
      simpl. by rewrite <- !app_assoc.
    + eexists. split; [|split; [|split; [|split; [|split]]]].
      5: reflexivity. all: reflexivity.
  - intros e w'.
    unfold _update_viewer_state, check_viewer_enabled, Prog.try_except,
      viewer_update_scene.
    unfold mbind, prog_bind, Prog.bind, Prog.get, Prog.raise. cbn beta iota zeta.
    destruct (_ && _); [|done].
    destruct (viewer_state (self w)) as [v|]; [|by intros [= <- _]].
    destruct (update_scene _ _ _) as [v' [[]|e']]; [done|].
    destruct (Py.issubclass (Py.exc_class e') Py.RuntimeError) eqn:Hcls.
    + done.
    + by intros [= <- _].
Qed.

End WithBackend.
End ViewerFacts.

Module ViewerWitness.
Import Trainer Samples ViewerFacts.

Lemma update_viewer_state_tolerates_runtime_error_witness :
  exists w',
    _update_viewer_state 3
      (viewer_world [Some (Py.Raised Py.RuntimeError "socket closed")])
    = (Py.Ok tt, w') /\
    trace w'
    = [] ++ [ EvUpdateScene 3 4096; EvSleep 30;
              EvConsole "Viewer failed. Continuing training." ].
Proof.
  destruct (update_viewer_state_tolerates_runtime_error 3
              (viewer_world [Some (Py.Raised Py.RuntimeError "socket closed")])
              {| Reference.outcomes :=
                   [Some (Py.Raised Py.RuntimeError "socket closed")];
                 Reference.scenes := 0 |}
              {| Reference.outcomes := []; Reference.scenes := 0 |}
              (Py.Raised Py.RuntimeError "socket closed")
              eq_refl eq_refl eq_refl eq_refl eq_refl)
    as (w' & Hrun & Htr & _).
  exists w'. split; [exact Hrun|exact Htr].
Defined.

Lemma update_viewer_state_passes_other_errors_witness :
  exists w',
    _update_viewer_state 3
      (viewer_world [Some (Py.Raised Py.ValueError "bad camera")])
    = (Py.Raise (Py.Raised Py.ValueError "bad camera"), w') /\
    trace w' = [] ++ [EvUpdateScene 3 4096].
Proof.
  apply (update_viewer_state_passes_other_errors 3
           (viewer_world [Some (Py.Raised Py.ValueError "bad camera")])
           {| Reference.outcomes := [Some (Py.Raised Py.ValueError "bad camera")];
              Reference.scenes := 0 |}
           {| Reference.outcomes := []; Reference.scenes := 0 |}
           (Py.Raised Py.ValueError "bad camera"));
    reflexivity.
Defined.

Lemma update_viewer_state_never_runtime_error_witness :
  Py.issubclass
    (Py.exc_class (Py.Raised Py.ValueError "bad camera")) Py.RuntimeError
  = false.
Proof.
  apply (update_viewer_state_never_runtime_error 3
           (viewer_world [Some (Py.Raised Py.ValueError "bad camera")])
           (Py.Raised Py.ValueError "bad camera")
           (_update_viewer_state 3
              (viewer_world [Some (Py.Raised Py.ValueError "bad camera")])).2).
  vm_compute. reflexivity.
Defined.

(** A subclass of [RuntimeError] is tolerated as well. *)
Example update_viewer_state_subclass :
  (_update_viewer_state 3
     (viewer_world [Some (Py.Raised Py.NotImplementedError "render")])).1
  = Py.Ok tt.
Proof. reflexivity. Qed.

(** A viewer that fails with a [RuntimeError] is tolerated. *)
Lemma update_viewer_state_failures_witness :
  exists w',
    _update_viewer_state 3
      (viewer_world [Some (Py.Raised Py.RuntimeError "socket closed")])
    = (Py.Ok tt, w') /\
    trace w'
    = [] ++ [ EvUpdateScene 3 4096; EvSleep 30;
              EvConsole "Viewer failed. Continuing training." ].
Proof.
  destruct (update_viewer_state_failures 3
              (viewer_world [Some (Py.Raised Py.RuntimeError "socket closed")]))
    as [Hcaught _].
  destruct (Hcaught
              {| Reference.outcomes :=
                   [Some (Py.Raised Py.RuntimeError "socket closed")];
                 Reference.scenes := 0 |}
              {| Reference.outcomes := []; Reference.scenes := 0 |}
              (Py.Raised Py.RuntimeError "socket closed")
              eq_refl eq_refl eq_refl eq_refl)
    as (w' & _ & _ & _ & _ & Hrun & Htr).
  exists w'. split; [exact Hrun|exact Htr].
Defined.

(** A viewer that fails with a [ValueError] during the scene update: the
    exception leaves [_update_viewer_state], and a training loop of three
    iterations ends with it in its first iteration. *)
Lemma update_viewer_state_failure_counterexample :
  (_update_viewer_state 3
     (viewer_world [Some (Py.Raised Py.ValueError "bad camera")])).1
  = Py.Raise (Py.Raised Py.ValueError "bad camera") /\
  (train_loop (fun _ => 0%nat)
     (viewer_world [Some (Py.Raised Py.ValueError "bad camera")])).1
  = Py.Raise (Py.Raised Py.ValueError "bad camera") /\
  rate_steps
    (trace (train_loop (fun _ => 0%nat)
              (viewer_world [Some (Py.Raised Py.ValueError "bad camera")])).2)
  = [] /\
  TrainerConfig.max_num_iterations
    (config (self (viewer_world [Some (Py.Raised Py.ValueError "bad camera")])))
  = 3.
Proof. repeat split; vm_compute; reflexivity. Qed.

End ViewerWitness.

(** ** The training loop *)

Module LoopFacts.
Import Trainer.
Section WithBackend.
Context `{B : Backend}.

#[local] Instance extends_preorder P : PreOrder (extends P).
Proof.
  split.
  - intros w. exists []. by rewrite app_nil_r.
  - intros w1 w2 w3 (e1 & H1 & F1) (e2 & H2 & F2).
    exists (e1 ++ e2). rewrite H2, H1, <- app_assoc. split; [done|].
    by apply Forall_app.
Qed.

Lemma extends_emit (P : event -> Prop) e :
  P e -> Prog.respects (extends P) (emit e).
Proof.
  intros He. apply ProgFacts.respects_modify. intros w.
  exists [e]. split; [done|]. by constructor.
Qed.

Lemma extends_quiet (P : event -> Prop) (f : World -> World) :
  (forall w, trace (f w) = trace w) ->
  Prog.respects (extends P) (Prog.modify f).
Proof.
  intros Hf. apply ProgFacts.respects_modify. intros w.
  exists []. by rewrite app_nil_r, Hf.
Qed.

Lemma extends_time_writer {A} (P : event -> Prop) name step (body : M A) :
  P (EvPutTime name step) ->
  Prog.respects (extends P) body ->
  Prog.respects (extends P) (with_time_writer name step body).
Proof.
  intros Hp Hb w r w'. unfold with_time_writer.
  destruct (body w) as [r1 w1] eqn:Hbody. intros [= _ <-].
  destruct (Hb _ _ _ Hbody) as (evs & Htr & Hall).
  exists (evs ++ [EvPutTime name step]). simpl. rewrite Htr, <- app_assoc.
  split; [done|]. apply Forall_app. split; [done|]. by constructor.
Qed.

Lemma extends_update_scene (P : event -> Prop) v step rays :
  P (EvUpdateScene step rays) ->
  Prog.respects (extends P) (viewer_update_scene v step rays).
Proof.
  intros Hp w r w'. unfold viewer_update_scene.
  destruct (update_scene v step rays) as [v' r1]. intros [= _ <-].
  exists [EvUpdateScene step rays]. split; [done|]. by constructor.
Qed.

Create HintDb not_rate discriminated.

(** Decompose a sequence of statements into its calls; the calls already
    dealt with are in the hint database. *)
Ltac ext_steps :=
  repeat first
    [ solve [auto with not_rate nocore]
    | apply ProgFacts.respects_bind; [apply _| |intros ?]
    | apply ProgFacts.respects_ret; apply _
    | apply ProgFacts.respects_get; apply _
    | apply ProgFacts.respects_raise; apply _
    | apply ProgFacts.respects_lift; apply _
    | apply ProgFacts.respects_assert; apply _
    | apply ProgFacts.respects_for; [apply _|intros ?]
    | apply ProgFacts.respects_try_except; [apply _| |intros ?]
    | apply extends_emit; done
    | apply extends_quiet; done
    | apply extends_time_writer; [done|]
    | apply extends_update_scene; done
    | match goal with
      | |- Prog.respects _ (let '(_, _) := ?x in _) => destruct x
      | |- Prog.respects _ (match ?x with _ => _ end) => destruct x
      end ].

#[local] Abbreviation not_rate := (fun e => is_rate_event e = false).

Lemma train_iteration_not_rate step :
  Prog.respects (extends not_rate) (train_iteration step).
Proof.
  unfold train_iteration.
  apply ProgFacts.respects_bind; [apply _| |intros _].
  { unfold zero_grad_all. ext_steps. }
  apply ProgFacts.respects_bind; [apply _| |intros out].
  { intros w r w' Hrun.
    destruct (TrainIterationFacts.accumulate_and_step_steady _ _ _ _ Hrun)
      as [(evs & Htr & Hall) _].
    exists evs. split; [done|]. eapply Forall_impl; [exact Hall|].
    intros e He. by destruct e. }
  apply ProgFacts.respects_bind; [apply _| |intros _; ext_steps].
  intros w r w' Hrun.
  destruct (TrainIterationFacts.update_events _ _ _ _ Hrun) as (evs & Htr & Hall).
  exists evs. split; [done|]. eapply Forall_impl; [exact Hall|].
  intros e He. by destruct e.
Qed.

#[local] Hint Resolve train_iteration_not_rate : not_rate.

Lemma save_checkpoint_not_rate step :
  Prog.respects (extends not_rate) (save_checkpoint step).
Proof.
  unfold save_checkpoint, check_main_thread, mkdir, torch_save, unlink.
  ext_steps.
Qed.

Lemma eval_iteration_not_rate step :
  Prog.respects (extends not_rate) (eval_iteration step).
Proof. unfold eval_iteration, check_eval_enabled. ext_steps. Qed.

Lemma update_viewer_state_not_rate step :
  Prog.respects (extends not_rate) (_update_viewer_state step).
Proof. unfold _update_viewer_state, check_viewer_enabled. ext_steps. Qed.

#[local] Hint Resolve save_checkpoint_not_rate eval_iteration_not_rate
  update_viewer_state_not_rate : not_rate.

Lemma timed_iteration_not_rate step :
  Prog.respects (extends not_rate) (timed_iteration step).
Proof. unfold timed_iteration. ext_steps. Qed.

Lemma wait_while_paused_not_rate polls :
  Prog.respects (extends not_rate) (wait_while_paused polls).
Proof. unfold wait_while_paused. ext_steps. Qed.

Lemma after_iteration_not_rate step :
  Prog.respects (extends not_rate) (after_iteration step).
Proof. unfold after_iteration. ext_steps. Qed.

Lemma after_training_not_rate step :
  Prog.respects (extends not_rate) (after_training step).
Proof. unfold after_training. ext_steps. Qed.

Lemma rate_steps_app evs1 evs2 :
  rate_steps (evs1 ++ evs2) = rate_steps evs1 ++ rate_steps evs2.
Proof. apply omap_app. Qed.

Lemma rate_steps_not_rate evs : Forall not_rate evs -> rate_steps evs = [].
Proof.
  induction 1 as [|e evs He _ IH]; [done|].
  change (rate_steps (e :: evs))
    with (match (match e with
                 | EvPutTime TRAIN_RAYS_PER_SEC step => Some step
                 | _ => None
                 end) with
          | Some s => s :: rate_steps evs
          | None => rate_steps evs
          end).
  rewrite IH. destruct e; try done.
  match goal with name : EventName |- _ => by destruct name end.
Qed.

Lemma bind_inv {A C} (m : M A) (k : A -> M C) w r w' :
  (m ≫= k) w = (r, w') ->
  (exists a w1, m w = (Py.Ok a, w1) /\ k a w1 = (r, w')) \/
  (exists e, m w = (Py.Raise e, w') /\ r = Py.Raise e).
Proof.
  unfold mbind, prog_bind, Prog.bind.
  destruct (m w) as [[a|e] w1]; [eauto|]. intros [= <- <-]. eauto.
Qed.

(** One pass of the loop puts the rate of its own step, when that step is
    above 1, and of no other. *)
Lemma train_step_rate polls s w r w' :
  train_step polls s w = (r, w') ->
  exists evs,
    trace w' = trace w ++ evs /\
    rate_steps evs `prefix_of` (if 1 <? s then [s] else []) /\
    (r = Py.Ok tt -> rate_steps evs = if 1 <? s then [s] else []).
Proof.
  unfold train_step. intros Hrun.
  apply bind_inv in Hrun as [([] & w1 & Hwait & Hrun)|(e & Hwait & ->)].
  2:{ destruct (wait_while_paused_not_rate _ _ _ _ Hwait) as (evs & Htr & Hall).
      exists evs. rewrite (rate_steps_not_rate _ Hall).
      split; [done|]. split; [apply prefix_nil|done]. }
  destruct (wait_while_paused_not_rate _ _ _ _ Hwait) as (evs1 & Htr1 & Hall1).
  apply bind_inv in Hrun as [([] & w2 & Hiter & Hrun)|(e & Hiter & ->)].
  2:{ destruct (timed_iteration_not_rate _ _ _ _ Hiter) as (evs & Htr & Hall).
      exists (evs1 ++ evs). rewrite rate_steps_app, !rate_steps_not_rate by done.
      rewrite Htr, Htr1, <- app_assoc.
      split; [done|]. split; [apply prefix_nil|done]. }
  destruct (timed_iteration_not_rate _ _ _ _ Hiter) as (evs2 & Htr2 & Hall2).
  apply bind_inv in Hrun as [([] & w3 & Hput & Hrun)|(e & Hput & ->)].
  2:{ unfold put_train_rays_per_sec in Hput. by destruct (1 <? s). }
  destruct (after_iteration_not_rate _ _ _ _ Hrun) as (evs4 & Htr4 & Hall4).
  exists (evs1 ++ evs2 ++ (if 1 <? s then [EvPutTime TRAIN_RAYS_PER_SEC s] else [])
          ++ evs4).
  assert (Htr3 : trace w3 = trace w2
                 ++ (if 1 <? s then [EvPutTime TRAIN_RAYS_PER_SEC s] else [])).
  { unfold put_train_rays_per_sec in Hput. destruct (1 <? s).
    - by injection Hput as <-.
    - injection Hput as <-. by rewrite app_nil_r. }
  split.
  { rewrite Htr4, Htr3, Htr2, Htr1, <- !app_assoc. done. }
  rewrite !rate_steps_app, (rate_steps_not_rate evs1), (rate_steps_not_rate evs2),
    (rate_steps_not_rate evs4) by done.
  destruct (1 <? s); simpl; done.
Qed.

Lemma for_steps_rate polls (steps : list Z) : forall s0 w r w',
  for_steps polls steps s0 w = (r, w') ->
  exists evs,
    trace w' = trace w ++ evs /\
    rate_steps evs `prefix_of` filter (fun s => 1 < s) steps /\
    (forall last_step, r = Py.Ok last_step ->
       rate_steps evs = filter (fun s => 1 < s) steps /\
       last_step = default s0 (last steps)).
Proof.
  induction steps as [|s steps IH]; intros s0 w r w' Hrun.
  - injection Hrun as <- <-. exists []. rewrite app_nil_r.
    split; [done|]. split; [done|]. by intros ? [= <-].
  - cbn [for_steps] in Hrun.
    assert (Hhead : filter (fun s => 1 < s) (s :: steps)
                    = (if 1 <? s then [s] else []) ++ filter (fun s => 1 < s) steps).
    { rewrite filter_cons. destruct (Z.ltb_spec 1 s).
      - by rewrite decide_True.
      - by rewrite decide_False by lia. }
    apply bind_inv in Hrun as [([] & w1 & Hstep & Hrun)|(e & Hstep & ->)].
    + destruct (train_step_rate _ _ _ _ _ Hstep) as (evs1 & Htr1 & _ & Hrate1).
      destruct (IH _ _ _ _ Hrun) as (evs2 & Htr2 & Hpre2 & Hok2).
      exists (evs1 ++ evs2). rewrite Htr2, Htr1, <- app_assoc.
      split; [done|]. rewrite rate_steps_app, Hrate1, Hhead by done.
      split; [by apply prefix_app|].
      intros last_step Hr. destruct (Hok2 _ Hr) as [-> ->].
      split; [done|]. rewrite last_cons. by destruct (last steps).
    + destruct (train_step_rate _ _ _ _ _ Hstep) as (evs1 & Htr1 & Hpre1 & _).
      exists evs1. split; [done|]. rewrite Hhead.
      split; [by apply prefix_app_r|done].
Qed.

Lemma range_nil lo hi : hi <= lo -> Py.range lo hi = [].
Proof. intros H. unfold Py.range. by replace (Z.to_nat (hi - lo)) with 0%nat by lia. Qed.

Lemma range_cons lo hi : lo < hi -> Py.range lo hi = lo :: Py.range (lo + 1) hi.
Proof.
  intros H. unfold Py.range.
  replace (Z.to_nat (hi - lo)) with (S (Z.to_nat (hi - (lo + 1)))) by lia.
  cbn [seq fmap list_fmap]. f_equal; [lia|].
  rewrite <- (fmap_S_seq 0), <- list_fmap_compose.
  apply list_fmap_ext. intros _ i _. simpl. lia.
Qed.

Lemma range_last lo hi : lo < hi -> last (Py.range lo hi) = Some (hi - 1).
Proof.
  intros H. unfold Py.range.
  replace (Z.to_nat (hi - lo)) with (Z.to_nat (hi - lo - 1) + 1)%nat by lia.
  rewrite seq_app, fmap_app. simpl. rewrite last_snoc. f_equal. lia.
Qed.

(** The steps above 1 of a run from [lo] to [hi] are the steps from
    [max lo 2]. *)
Lemma filter_range_above_one lo hi :
  filter (fun s => 1 < s) (Py.range lo hi) = Py.range (Z.max lo 2) hi.
Proof.
  remember (Z.to_nat (hi - lo)) as n eqn:Hn.
  revert lo Hn. induction n as [|n IH]; intros lo Hn.
  - rewrite !range_nil by lia. done.
  - rewrite (range_cons lo hi) by lia. rewrite filter_cons.
    destruct (decide (1 < lo)) as [Hlo|Hlo].
    + rewrite IH by lia. rewrite !Z.max_l by lia. by rewrite <- range_cons by lia.
    + rewrite IH by lia. f_equal. lia.
Qed.

(** What the loop and the statements after it add to the trace. *)
Lemma train_loop_run polls w r w' :
  train_loop polls w = (r, w') ->
  let n := TrainerConfig.max_num_iterations (config (self w)) in
  let steps := Py.range (_start_step (self w)) (_start_step (self w) + n) in
  exists evs,
    trace w' = trace w ++ evs /\
    rate_steps evs `prefix_of` filter (fun s => 1 < s) steps /\
    (r = Py.Ok tt ->
     rate_steps evs = filter (fun s => 1 < s) steps /\
     last evs = Some (EvCallbacks AFTER_TRAIN (default 0 (last steps))) /\
     exists w0 w1,
       for_steps polls steps 0 w = (Py.Ok (default 0 (last steps)), w0) /\
       save_checkpoint (default 0 (last steps))
         (set_trace (fun tr => tr ++ [EvPutTime TOTAL_TRAIN_TIME n]) w0)
       = (Py.Ok tt, w1) /\
       disk w' = disk w1).
Proof.
  intros Hrun n steps.
  unfold train_loop in Hrun. rewrite SaveFacts.bind_get in Hrun. cbn zeta in Hrun.
  fold n steps in Hrun.
  apply bind_inv in Hrun as [(step & w1 & Hloop & Hrun)|(e & Hloop & ->)].
  - unfold with_time_writer in Hloop.
    destruct (for_steps polls steps 0 w) as [r0 w0] eqn:Hfor.
    injection Hloop as -> <-.
    destruct (for_steps_rate _ _ _ _ _ _ Hfor) as (evs1 & Htr1 & _ & Hok1).
    destruct (Hok1 step eq_refl) as [Hrate1 ->].
    destruct (after_training_not_rate _ _ _ _ Hrun) as (evs2 & Htr2 & Hall2).
    exists (evs1 ++ [EvPutTime TOTAL_TRAIN_TIME n] ++ evs2).
    simpl in Htr2. rewrite Htr2, Htr1, <- !app_assoc.
    split; [done|].
    rewrite !rate_steps_app, Hrate1, (rate_steps_not_rate evs2) by done.
    cbn [rate_steps omap app]. rewrite app_nil_r. split; [done|].
    intros ->. split; [done|].
    unfold after_training in Hrun.
    apply bind_inv in Hrun as [([] & w2 & Hsave & Hrun)|(e & _ & [=])].
    apply bind_inv in Hrun as [([] & w3 & [= <-] & Hrun)|(e & _ & [=])].
    apply bind_inv in Hrun as [([] & w4 & [= <-] & Hrun)|(e & _ & [=])].
    injection Hrun as <-. split.
    + simpl in Htr2. rewrite <- !app_assoc in Htr2.
      destruct (save_checkpoint_not_rate _ _ _ _ Hsave) as (evs3 & Htr3 & _).
      simpl in Htr3. rewrite Htr3, Htr1, <- !app_assoc in Htr2.
      apply app_inv_head in Htr2. apply app_inv_head in Htr2.
      apply app_inv_head in Htr2 as <-.
      change (EvPutTime TOTAL_TRAIN_TIME n :: ?l)
        with ([EvPutTime TOTAL_TRAIN_TIME n] ++ l).
      by rewrite !app_assoc, last_snoc.
    + by exists w0, w2.
  - unfold with_time_writer in Hloop.
    destruct (for_steps polls steps 0 w) as [r0 w0] eqn:Hfor.
    injection Hloop as -> <-.
    destruct (for_steps_rate _ _ _ _ _ _ Hfor) as (evs1 & Htr1 & Hpre1 & _).
    exists (evs1 ++ [EvPutTime TOTAL_TRAIN_TIME n]).
    simpl. rewrite Htr1, <- !app_assoc. split; [done|].
    rewrite rate_steps_app. cbn [rate_steps omap app]. rewrite app_nil_r.
    split; [done|]. intros [=].
Qed.

(** The rate of training rays is put for the steps above 1 of the run, in
    order, and for no other step: never for step 0 or 1, also in a run that
    resumes or that an exception cuts short; a run that completes has put
    it for every one of its steps above 1. *)
Theorem train_loop_rate_metric polls w :
  exists evs,
    trace (train_loop polls w).2 = trace w ++ evs /\
    rate_steps evs
      `prefix_of`
      Py.range (Z.max (_start_step (self w)) 2)
        (_start_step (self w) + TrainerConfig.max_num_iterations (config (self w))) /\
    Forall (fun s => 1 < s) (rate_steps evs) /\
    ((train_loop polls w).1 = Py.Ok tt ->
     rate_steps evs
     = Py.range (Z.max (_start_step (self w)) 2)
         (_start_step (self w) + TrainerConfig.max_num_iterations (config (self w)))).
Proof.
  destruct (train_loop polls w) as [r w'] eqn:Hrun.
  destruct (train_loop_run _ _ _ _ Hrun) as (evs & Htr & Hpre & Hok).
  exists evs. split; [done|].
  rewrite <- filter_range_above_one. split; [done|]. split.
  - destruct Hpre as [rest Hrest].
    assert (Hall : Forall (fun s => 1 < s)
                     (filter (fun s => 1 < s)
                        (Py.range (_start_step (self w))
                           (_start_step (self w)
                            + TrainerConfig.max_num_iterations (config (self w)))))).
    { apply Forall_forall. intros s Hs. by apply list_elem_of_filter in Hs as [? _]. }
    rewrite Hrest in Hall. by apply Forall_app in Hall as [? _].
  - intros Hr. by destruct (Hok Hr) as [? _].
Qed.

(** A run that completes ends with the callbacks after training, which get
    the last step of the loop: the start step plus the iterations minus
    one, and 0, not the start step, when the run has no iterations. *)
Theorem train_loop_final_step polls w :
  (train_loop polls w).1 = Py.Ok tt ->
  last (trace (train_loop polls w).2)
  = Some (EvCallbacks AFTER_TRAIN
            (if 0 <? TrainerConfig.max_num_iterations (config (self w))
             then _start_step (self w)
                  + TrainerConfig.max_num_iterations (config (self w)) - 1
             else 0)).
Proof.
  destruct (train_loop polls w) as [r w'] eqn:Hrun. simpl. intros ->.
  destruct (train_loop_run _ _ _ _ Hrun) as (evs & Htr & _ & Hok).
  destruct (Hok eq_refl) as (_ & Hlast & _).
  rewrite Htr, last_app, Hlast. simpl. do 2 f_equal.
  destruct (Z.ltb_spec 0 (TrainerConfig.max_num_iterations (config (self w)))).
  - rewrite range_last by lia. simpl. lia.
  - by rewrite range_nil by lia.
Qed.

(** A run without iterations still saves: the checkpoint is that of step
    0 whatever the start step, so a trainer resumed with latest-only
    retention is left with the file of step 0 alone in its checkpoint
    directory. *)
Theorem train_loop_no_iterations polls w :
  TrainerConfig.max_num_iterations (config (self w)) <= 0 ->
  main_process w = true ->
  TrainerConfig.save_only_latest_checkpoint (config (self w)) = true ->
  hd false (write_faults (disk w)) = false ->
  exists w',
    train_loop polls w = (Py.Ok tt, w') /\
    dirs (disk w') !! checkpoint_dir (self w)
    = Some {[ ckpt_name 0 := Pickled (checkpoint_of w 0) ]} /\
    rate_steps (drop (length (trace w)) (trace w')) = [].
Proof.
  intros Hn Hmain Hlatest Hfault.
  set (w0 := set_trace
               (fun tr => tr ++ [EvPutTime TOTAL_TRAIN_TIME
                                   (TrainerConfig.max_num_iterations (config (self w)))])
               w).
  destruct (SaveFacts.save_latest_only_run 0 w0 Hmain Hlatest Hfault)
    as (w1 & pre & deleted & Hsave & _ & _ & _ & _ & Hdir & _).
  destruct (train_loop polls w) as [r w'] eqn:Hrun.
  assert (Hrun' := Hrun).
  unfold train_loop in Hrun'. rewrite SaveFacts.bind_get in Hrun'. cbn zeta in Hrun'.
  rewrite range_nil in Hrun' by lia.
  unfold with_time_writer, after_training in Hrun'.
  unfold mbind at 1, prog_bind at 1, Prog.bind at 1 in Hrun'.
  cbn [for_steps mret prog_ret Prog.ret] in Hrun'. fold w0 in Hrun'.
  rewrite (SaveFacts.bind_ok _ _ _ _ _ Hsave) in Hrun'.
  injection Hrun' as <- <-.
  eexists. split; [reflexivity|]. split; [exact Hdir|].
  destruct (train_loop_run _ _ _ _ Hrun) as (evs & Htr & Hpre & _).
  rewrite Htr, drop_app_length.
  rewrite range_nil in Hpre by lia. by apply prefix_nil_inv in Hpre.
Qed.

Lemma elem_of_range s lo hi : s ∈ Py.range lo hi <-> lo <= s < hi.
Proof.
  unfold Py.range. rewrite list_elem_of_fmap. split.
  - intros (i & -> & Hi%elem_of_seq). lia.
  - intros Hs. exists (Z.to_nat (s - lo)). split; [lia|].
    apply elem_of_seq. lia.
Qed.

(** C6.  The rate of training rays is put for the steps of the run that
    are above 1, in order, and for no other: never for step 0 or step 1,
    in a run from step 0 and in a resumed run alike, also when an
    exception cuts the run short.  In a run that completes, each step of
    the loop has its rate put exactly when it is above 1: a run from step
    0 skips its first two iterations, and a run that resumes at step 2 or
    later skips none. *)
Theorem train_loop_rate_steps polls w :
  exists evs,
    trace (train_loop polls w).2 = trace w ++ evs /\
    Forall (fun s => s <> 0 /\ s <> 1) (rate_steps evs) /\
    rate_steps evs
      `prefix_of`
      Py.range (Z.max (_start_step (self w)) 2)
        (_start_step (self w) + TrainerConfig.max_num_iterations (config (self w))) /\
    ((train_loop polls w).1 = Py.Ok tt ->
     rate_steps evs
     = Py.range (Z.max (_start_step (self w)) 2)
         (_start_step (self w) + TrainerConfig.max_num_iterations (config (self w))) /\
     (forall s,
        _start_step (self w) <= s
        < _start_step (self w) + TrainerConfig.max_num_iterations (config (self w)) ->
        (s ∈ rate_steps evs <-> 1 < s)) /\
     (2 <= _start_step (self w) ->
      rate_steps evs
      = Py.range (_start_step (self w))
          (_start_step (self w) + TrainerConfig.max_num_iterations (config (self w))))).
Proof.
  destruct (train_loop polls w) as [r w'] eqn:Hrun.
  destruct (train_loop_run _ _ _ _ Hrun) as (evs & Htr & Hpre & Hok).
  exists evs. split; [done|].
  rewrite <- filter_range_above_one. split; [|split; [done|]].
  - destruct Hpre as [rest Hrest].
    assert (Hall : Forall (fun s => s <> 0 /\ s <> 1)
                     (filter (fun s => 1 < s)
                        (Py.range (_start_step (self w))
                           (_start_step (self w)
                            + TrainerConfig.max_num_iterations (config (self w)))))).
    { apply Forall_forall. intros s Hs.
      apply list_elem_of_filter in Hs as [? _]. lia. }
    rewrite Hrest in Hall. by apply Forall_app in Hall as [? _].
  - intros Hr. destruct (Hok Hr) as [Hrate _]. split; [exact Hrate|]. split.
    + intros s Hs. rewrite Hrate, list_elem_of_filter, elem_of_range. tauto.
    + intros Hstart. rewrite Hrate, filter_range_above_one.
      by rewrite Z.max_l by lia.
Qed.

End WithBackend.
End LoopFacts.

Module LoopWitness.
Import Trainer Samples LoopFacts.

(** A run of three iterations from step 0 completes, and the callbacks
    after training get step 2. *)
Lemma train_loop_final_step_witness :
  last (trace (train_loop (fun _ => 0%nat) short_run_world).2)
  = Some (EvCallbacks AFTER_TRAIN 2).
Proof.
  assert (Hrun : (train_loop (fun _ => 0%nat) short_run_world).1 = Py.Ok tt)
    by (vm_compute; reflexivity).
  exact (train_loop_final_step (fun _ => 0%nat) short_run_world Hrun).
Defined.

(** The trainer resumed after step 2000 and given no iterations leaves the
    checkpoint of step 0 alone. *)
Lemma train_loop_no_iterations_witness :
  exists w',
    train_loop (fun _ => 0%nat) idle_world = (Py.Ok tt, w') /\
    dirs (disk w') !! checkpoint_dir (self idle_world)
    = Some {[ ckpt_name 0 := Pickled (checkpoint_of idle_world 0) ]}.
Proof.
  destruct (train_loop_no_iterations (fun _ => 0%nat) idle_world)
    as (w' & Hrun & Hdir & _); [discriminate|reflexivity|reflexivity|reflexivity|].
  exists w'. split; [exact Hrun|exact Hdir].
Defined.

(** In the run of three iterations the rate is put for step 2 alone; the
    loop waits while the state is paused and goes on. *)
Example train_loop_sample_rate :
  rate_steps (trace (train_loop (fun s => if s =? 1 then 3%nat else 0%nat)
                       short_run_world).2)
  = [2].
Proof. vm_compute. reflexivity. Qed.

(** In the run of three iterations from step 0 the rate is put for step 2
    alone. *)
Lemma train_loop_rate_steps_witness :
  exists evs,
    trace (train_loop (fun _ => 0%nat) short_run_world).2
    = trace short_run_world ++ evs /\
    rate_steps evs = [2].
Proof.
  destruct (train_loop_rate_steps (fun _ => 0%nat) short_run_world)
    as (evs & Htr & _ & _ & Hok).
  exists evs. split; [exact Htr|].
  destruct Hok as [Hrate _]; [vm_compute; reflexivity|].
  rewrite Hrate. vm_compute. reflexivity.
Defined.

(** A run resumed at step 2001 puts the rate in its first and in its
    second iteration: its first two iterations are not skipped. *)
Lemma train_loop_resumed_counterexample :
  _start_step (self resumed_run_world) = 2001 /\
  TrainerConfig.max_num_iterations (config (self resumed_run_world)) = 2 /\
  (train_loop (fun _ => 0%nat) resumed_run_world).1 = Py.Ok tt /\
  rate_steps (trace (train_loop (fun _ => 0%nat) resumed_run_world).2)
  = [2001; 2002].
Proof. repeat split; vm_compute; reflexivity. Qed.

End LoopWitness.
(** ** The gradient norms in the metrics *)

Module MetricsFacts.
Import Trainer.

Lemma get_set {V} (d : PyDict.t V) k v : PyDict.get (PyDict.set d k v) k = Some v.
Proof.
  induction d as [|[k' v'] d IH]; simpl.
  - by rewrite String.eqb_refl.
  - destruct (String.eqb k k') eqn:Hk; simpl; rewrite ?String.eqb_refl, ?Hk; done.
Qed.

(** The loop over the named parameters (lines 661-666). *)
Lemma gradient_loop (named_parameters : list (string * option Q)) :
  forall metrics_dict total_grad,
  match
    Py.for_each
      (fun '(tag, value_grad) '(metrics_dict, total_grad) =>
         Py.assert (negb (String.eqb tag "Total")) "";;
         match value_grad with
         | Some grad =>
             mret (PyDict.set metrics_dict ("Gradients/" +:+ tag) grad,
                   (total_grad + grad)%Q)
         | None => mret (metrics_dict, total_grad)
         end)
      named_parameters (metrics_dict, total_grad)
  with
  | Py.Ok (_, total) =>
      ("Total" ∉ named_parameters.*1) /\
      total = fold_left Qplus (omap snd named_parameters) total_grad
  | Py.Raise e =>
      "Total" ∈ named_parameters.*1 /\ e = Py.Raised Py.AssertionError ""
  end.
Proof.
  induction named_parameters as [|[tag value_grad] r IH];
    intros metrics_dict total_grad.
  - simpl. split; [|done]. by intros ?%elem_of_nil.
  - rewrite for_each_cons. cbv beta iota.
    destruct (String.eqb tag "Total") eqn:Htag.
    + apply String.eqb_eq in Htag as ->. simpl. split; [|done].
      apply elem_of_cons. by left.
    + apply String.eqb_neq in Htag.
      assert (Hin : "Total" ∈ ((tag, value_grad) :: r).*1 <-> "Total" ∈ r.*1).
      { rewrite fmap_cons, elem_of_cons. simpl. split; [|by right].
        by intros [?|?]. }
      destruct value_grad as [grad|]; simpl.
      * specialize (IH (PyDict.set metrics_dict ("Gradients/" +:+ tag) grad)
                      (total_grad + grad)%Q).
        destruct (Py.for_each _ r _) as [[md total]|e]; rewrite Hin; exact IH.
      * specialize (IH metrics_dict total_grad).
        destruct (Py.for_each _ r _) as [[md total]|e]; rewrite Hin; exact IH.
Qed.

(** The norms are logged when no parameter is named ["Total"], and then
    the entry ["Gradients/Total"] is the sum of the norms of the
    parameters that have a gradient, whatever the metrics held under that
    key; a parameter of that name fails the assertion. *)
Theorem log_gradient_norms_total (named_parameters : list (string * option Q))
    (metrics_dict : PyDict.t Q) :
  match log_gradient_norms named_parameters metrics_dict with
  | Py.Ok metrics =>
      ("Total" ∉ named_parameters.*1) /\
      PyDict.get metrics "Gradients/Total"
      = Some (fold_left Qplus (omap snd named_parameters) 0%Q)
  | Py.Raise e =>
      "Total" ∈ named_parameters.*1 /\ e = Py.Raised Py.AssertionError ""
  end.
Proof.
  unfold log_gradient_norms.
  pose proof (gradient_loop named_parameters metrics_dict 0%Q) as Hloop.
  unfold mbind, result_bind.
  destruct (Py.for_each _ named_parameters _) as [[md total]|e]; simpl.
  - destruct Hloop as [Hnot ->]. split; [done|]. apply get_set.
  - exact Hloop.
Qed.

(** Two parameters with a gradient and one without. *)
Example log_gradient_norms_sample :
  log_gradient_norms
    [("field.weight", Some (3 # 4)); ("field.frozen", None);
     ("field.bias", Some (1 # 4))]%Q [("psnr", 20%Q)]
  = Py.Ok [("psnr", 20%Q); ("Gradients/field.weight", (3 # 4)%Q);
           ("Gradients/field.bias", (1 # 4)%Q);
           ("Gradients/Total", (0 + (3 # 4) + (1 # 4))%Q)].
Proof. reflexivity. Qed.

End MetricsFacts.

(** ** The device of the trainer and the device type of autocast *)

Module DeviceFacts.
Import Trainer.

Lemma before_first_absent c (l : list ascii) :
  c ∉ l -> PyStr.before_first c l = l.
Proof.
  induction l as [|x l IH]; intros Hc; [done|].
  apply not_elem_of_cons in Hc as [Hne Hc]. simpl.
  destruct (Ascii.eqb x c) eqn:Heq.
  - apply Ascii.eqb_eq in Heq. congruence.
  - by rewrite IH.
Qed.

Section WithBackend.
Context `{B : Backend}.

(** [__init__] appends the rank to the device ["cuda"], and
    [train_iteration] cuts the device at its first colon (line 647): the
    device type given to autocast is the configured one again, whatever
    the rank, for every device type without a colon. *)
Theorem init_device_type_round_trip config local_rank world_size :
  ":"%char ∉ PyStr.chars (TrainerConfig.machine_device_type config) ->
  PyStr.split_head (device (__init__ config local_rank world_size).1) ":"
  = TrainerConfig.machine_device_type config.
Proof.
  intros Hcolon. unfold __init__. cbn [fst device].
  destruct (String.eqb (TrainerConfig.machine_device_type config) "cuda") eqn:Hcuda.
  - apply String.eqb_eq in Hcuda as ->. reflexivity.
  - unfold PyStr.split_head. rewrite before_first_absent by done.
    apply string_of_list_ascii_of_string.
Qed.

End WithBackend.

Lemma init_device_type_round_trip_witness :
  PyStr.split_head
    (device (B := Reference.backend)
       (__init__ (Samples.config_of "cuda" true false 1) 3 4).1) ":"
  = "cuda".
Proof.
  apply (init_device_type_round_trip (B := Reference.backend)
           (Samples.config_of "cuda" true false 1) 3 4).
  apply (bool_decide_unpack _). vm_compute. exact I.
Defined.

End DeviceFacts.
